(** * pywebbetta: order, payment, stock and coupon rules

    A shallow embedding of the business core of the betta storefront:
    the PromptPay payload encoder and the card amounts of
    [betta/services/payments.py], the shipping quotes of
    [betta/services/shipping.py], the settings form of
    [betta/services/settings.py], the [Coupon], [Variant], [Order] and
    [BlogPost] methods and the stock listeners of [betta/models.py], the
    order and blog handlers of [betta/blueprints/admin.py], and the
    cart, checkout and payment handlers of [betta/blueprints/store.py].

    Conventions of the embedding.
    - A Python [int] is a [Z]; a Python [float] holding money is a
      rational [Q] (exact arithmetic; the rounding of binary floats, NaN
      and the infinities are outside the model); a [datetime] is a [Z] (a point on the time line).
    - A Python [str] is a [string] of 8-bit characters; where a wider
      character matters, in the checksum, the text is also given as the
      list of its code points.
    - A nullable column is an [option].
    - The database is a record of tables keyed by primary key; an [Order]
      owns its items, payments and shipment, as the relationships with
      [cascade="all, delete-orphan"] say.
    - A request handler is a function from the clock, the request and the
      world to a new world and a response. *)

From Stdlib Require Import ZArith QArith Qround String Ascii List Lia Lqa Bool.
From stdpp Require Import gmap strings list fin_maps.
Import ListNotations.

Local Open Scope string_scope.
Local Open Scope list_scope.
Local Open Scope Z_scope.

(** ** Python primitives *)

Module Py.

(** Truth value of an optional number: [None] and zero are falsy. *)
Definition truthy_Z (x : option Z) : bool :=
  match x with
  | None => false
  | Some n => negb (n =? 0)
  end.

Definition truthy_Q (x : option Q) : bool :=
  match x with
  | None => false
  | Some q => negb (Qeq_bool q 0)
  end.

(** Truth value of an optional string: [None] and [""] are falsy. *)
Definition truthy_str (x : option string) : bool :=
  match x with
  | None | Some "" => false
  | Some _ => true
  end.

(** [x or d] on integers. *)
Definition or_Z (x d : Z) : Z := if x =? 0 then d else x.

(** [s == t] on strings. *)
Definition str_eq (s t : string) : bool := String.eqb s t.

(** [min(a, b)]: the first argument unless the second is strictly
    smaller. *)
Definition min (a b : Q) : Q :=
  match Qlt_le_dec b a with
  | left _ => b
  | right _ => a
  end.

(** [round(x)] with one argument: to the nearest integer, a tie going
    to the even neighbour. *)
Definition round (x : Q) : Z :=
  let f := Qfloor x in
  match (x - inject_Z f ?= 1 # 2)%Q with
  | Lt => f
  | Gt => f + 1
  | Eq => if Z.even f then f else f + 1
  end.

(** [round(x, 2)]. *)
Definition round2 (x : Q) : Q := (inject_Z (round (x * 100)) / 100)%Q.

(** [ord(c)], for a character of at most 8 bits: the characters of a
    [string]. Text with characters beyond 8 bits is given by its code
    points where it matters, see [Payments.crc_code]. *)
Definition ord (c : ascii) : Z := Z.of_N (N_of_ascii c).

(** The digit characters used by [format], lower case above nine. *)
Definition digit_char (d : Z) : ascii :=
  ascii_of_N (Z.to_N (if d <? 10 then 48 + d else 87 + d)).

(** Digits of a non-negative integer in base [b], most significant
    first, pushed in front of [acc]. The fuel bounds the number of
    digits. *)
Fixpoint digits_aux (b : Z) (fuel : nat) (n : Z) (acc : string) : string :=
  let acc' := String (digit_char (n mod b)) acc in
  match fuel with
  | O => acc'
  | S fuel' => if n <? b then acc' else digits_aux b fuel' (n / b) acc'
  end.

Definition digits (b : Z) (n : Z) : string :=
  digits_aux b (Z.to_nat (Z.log2 n)) n "".

Fixpoint replicate_char (n : nat) (c : ascii) : string :=
  match n with
  | O => ""
  | S n' => String c (replicate_char n' c)
  end.

(** Left padding to a minimal width; longer strings are kept whole. *)
Definition pad_left (width : nat) (c : ascii) (s : string) : string :=
  replicate_char (width - String.length s) c +:+ s.

(** [format(n, "0Wd")] and [format(n, "0Wx")]: the sign first, then
    zeros up to the width, then the digits. *)
Definition format_int (b : Z) (width : nat) (n : Z) : string :=
  if n <? 0
  then String "-" (pad_left (width - 1) "0" (digits b (- n)))
  else pad_left width "0" (digits b n).

Definition format_0d (width : nat) (n : Z) : string := format_int 10 width n.
Definition format_0x (width : nat) (n : Z) : string := format_int 16 width n.

(** [format(s, ">0W")] on a string: right-justified, filled with ["0"]. *)
Definition format_rjust0 (width : nat) (s : string) : string :=
  pad_left width "0" s.

Definition upper_char (c : ascii) : ascii :=
  let n := N_of_ascii c in
  if ((97 <=? n) && (n <=? 122))%N then ascii_of_N (n - 32) else c.

(** [str.upper] on 7-bit text. *)
Fixpoint upper (s : string) : string :=
  match s with
  | "" => ""
  | String c s' => String (upper_char c) (upper s')
  end.

(** [s[n:]] and [s[:n]]. *)
Fixpoint drop (n : nat) (s : string) : string :=
  match n, s with
  | O, _ => s
  | S _, "" => ""
  | S n', String _ s' => drop n' s'
  end.

Fixpoint take (n : nat) (s : string) : string :=
  match n, s with
  | O, _ => ""
  | S _, "" => ""
  | S n', String c s' => String c (take n' s')
  end.

Definition lower_char (c : ascii) : ascii :=
  let n := N_of_ascii c in
  if ((65 <=? n) && (n <=? 90))%N then ascii_of_N (n + 32) else c.

(** [str.lower] on 7-bit text. *)
Fixpoint lower (s : string) : string :=
  match s with
  | "" => ""
  | String c s' => String (lower_char c) (lower s')
  end.

(** [x or d] on amounts. *)
Definition or_Q (x d : Q) : Q := if Qeq_bool x 0 then d else x.

(** [a or b] on optional strings. *)
Definition or_str (a b : option string) : option string :=
  if truthy_str a then a else b.

(** [sum(...)] over amounts, from the integer zero. *)
Definition sum (l : list Q) : Q := fold_left Qplus l 0%Q.

(** What a call does: it returns, or an exception leaves it. *)
Inductive exn :=
  | JSONDecodeError
  | StripeError
  | RuntimeError
  | OtherError (name : string).

Inductive result (A : Type) :=
  | Return (a : A)
  | Raise (e : exn).
Arguments Return {A} a.
Arguments Raise {A} e.

End Py.

(** ** betta/services/payments.py *)

Module Payments.

Record PromptPayPayload := {
  promptpay_id : string;
  amount : Q;
  merchant_name : string
}.

Definition _to_promptpay_amount (amount : Q) : string :=
  let value := Py.round amount in
  Py.format_0d 6 value.

Definition poly : Z := 0x1021.

(** One pass of the inner loop of [_crc16]. *)
Definition crc_shift (crc : Z) : Z :=
  let crc :=
    if Z.land crc 0x8000 =? 0
    then Z.shiftl crc 1
    else Z.lxor (Z.shiftl crc 1) poly in
  Z.land crc 0xFFFF.

(** The body of the outer loop: one character. *)
Definition crc_char (crc : Z) (char : ascii) : Z :=
  let crc := Z.lxor crc (Z.shiftl (Py.ord char) 8) in
  Nat.iter 8 crc_shift crc.

(** The register of [_crc16] when the loop over [data] ends. *)
Definition crc16_register (data : string) : Z :=
  fold_left crc_char (list_ascii_of_string data) 0xFFFF.

Definition _crc16 (data : string) : string :=
  Py.format_0x 4 (crc16_register data).

(** The body of the outer loop for a character given by its code
    point, as [ord] returns it for any character of a Python [str]: up
    to [0x10FFFF]. On a character of 8 bits it is [crc_char]. *)
Definition crc_code (crc : Z) (code : Z) : Z :=
  let crc := Z.lxor crc (Z.shiftl code 8) in
  Nat.iter 8 crc_shift crc.

Definition crc16_register_codes (data : list Z) : Z :=
  fold_left crc_code data 0xFFFF.

(** [_crc16] on a text given by the code points of its characters. *)
Definition _crc16_codes (data : list Z) : string :=
  Py.format_0x 4 (crc16_register_codes data).

Definition encode_payload (self : PromptPayPayload) : string :=
  "000201010211"
  +:+ "29370016A000000677010111"
  +:+ ("0113" +:+ Py.format_rjust0 13 (promptpay_id self))
  +:+ "5802TH"
  +:+ "5303764"
  +:+ ("5406" +:+ _to_promptpay_amount (amount self)).

Definition encode (self : PromptPayPayload) : string :=
  let payload := encode_payload self in
  let crc := _crc16 (payload +:+ "6304") in
  payload +:+ "6304" +:+ Py.upper crc.

End Payments.

(** ** betta/models.py *)

(** The values [json.loads] builds. *)
#[warnings="-register-all"]
Inductive json :=
  | JNull
  | JBool (b : bool)
  | JNumber (lexeme : string)
  | JString (s : string)
  | JArray (l : list json)
  | JObject (m : gmap string json).

Module Product.

Record t := {
  sku : string;
  title_th : option string;
  title_en : option string;
  status : string
}.

Definition with_status (s : string) (self : t) : t :=
  {| sku := sku self; title_th := title_th self; title_en := title_en self;
     status := s |}.

Definition localized_title (self : t) (locale : string) : string :=
  if Py.str_eq locale "en" && Py.truthy_str (title_en self)
  then default "" (title_en self)
  else if Py.str_eq locale "th" && Py.truthy_str (title_th self)
  then default "" (title_th self)
  else
    let title := Py.or_str (title_en self) (title_th self) in
    if Py.truthy_str title then default "" title else sku self.

End Product.

Module Variant.

Record t := {
  product_id : Z;
  price : Q;
  stock_qty : Z;
  weight_grams : option Z;
  attributes_json : option string
}.

Definition with_stock_qty (n : Z) (self : t) : t :=
  {| product_id := product_id self; price := price self; stock_qty := n;
     weight_grams := weight_grams self;
     attributes_json := attributes_json self |}.

Section Attributes.

(** [json.loads] belongs to the Python library, not to this
    repository: the property is read against any function of its
    shape. It may return any JSON value and raise other exceptions than
    [JSONDecodeError] ([RecursionError] on deep nesting); the handler
    below catches [JSONDecodeError] alone. *)
Variable json_loads : string -> Py.result json.

Definition attributes (self : t) : Py.result json :=
  if negb (Py.truthy_str (attributes_json self))
  then Py.Return (JObject ∅)
  else
    match json_loads (default "" (attributes_json self)) with
    | Py.Return v => Py.Return v
    | Py.Raise Py.JSONDecodeError => Py.Return (JObject ∅)
    | Py.Raise e => Py.Raise e
    end.

End Attributes.

Definition is_available (self : t) : bool := 0 <? stock_qty self.

End Variant.

Module CartItem.

Record t := {
  variant_id : Z;
  qty : Z;
  price_at : Q
}.

Definition total_price (self : t) : Q := (price_at self * inject_Z (qty self))%Q.

End CartItem.

Module Cart.

Record t := {
  session_id : option string;
  items : list CartItem.t
}.

Definition with_items (l : list CartItem.t) (self : t) : t :=
  {| session_id := session_id self; items := l |}.

Definition total (self : t) : Q := Py.sum (map CartItem.total_price (items self)).

End Cart.

Module OrderItem.

Record t := {
  variant_id : Z;
  title_snapshot : option string;
  attrs_snapshot : option string;
  qty : Z;
  unit_price : Q;
  total_price : Q
}.

End OrderItem.

Module Payment.

Record t := {
  method : string;
  ref : option string;
  amount : Q;
  status : string;
  paid_at : option Z;
  slip_url : option string
}.

Definition with_status (s : string) (self : t) : t :=
  {| method := method self; ref := ref self; amount := amount self;
     status := s; paid_at := paid_at self; slip_url := slip_url self |}.

Definition with_paid_at (d : option Z) (self : t) : t :=
  {| method := method self; ref := ref self; amount := amount self;
     status := status self; paid_at := d; slip_url := slip_url self |}.

Definition with_ref (r : option string) (self : t) : t :=
  {| method := method self; ref := r; amount := amount self;
     status := status self; paid_at := paid_at self;
     slip_url := slip_url self |}.

Definition with_amount (a : Q) (self : t) : t :=
  {| method := method self; ref := ref self; amount := a;
     status := status self; paid_at := paid_at self;
     slip_url := slip_url self |}.

Definition with_slip_url (u : option string) (self : t) : t :=
  {| method := method self; ref := ref self; amount := amount self;
     status := status self; paid_at := paid_at self; slip_url := u |}.

End Payment.

Module Shipment.

Record t := {
  carrier : option string;
  tracking_no : option string;
  label_url : option string;
  status : option string;
  shipped_at : option Z;
  received_at : option Z
}.

Definition with_status (s : option string) (self : t) : t :=
  {| carrier := carrier self; tracking_no := tracking_no self;
     label_url := label_url self; status := s;
     shipped_at := shipped_at self; received_at := received_at self |}.

Definition with_shipped_at (d : option Z) (self : t) : t :=
  {| carrier := carrier self; tracking_no := tracking_no self;
     label_url := label_url self; status := status self;
     shipped_at := d; received_at := received_at self |}.

Definition with_received_at (d : option Z) (self : t) : t :=
  {| carrier := carrier self; tracking_no := tracking_no self;
     label_url := label_url self; status := status self;
     shipped_at := shipped_at self; received_at := d |}.

Definition with_carrier (c : option string) (self : t) : t :=
  {| carrier := c; tracking_no := tracking_no self;
     label_url := label_url self; status := status self;
     shipped_at := shipped_at self; received_at := received_at self |}.

Definition with_tracking_no (n : option string) (self : t) : t :=
  {| carrier := carrier self; tracking_no := n;
     label_url := label_url self; status := status self;
     shipped_at := shipped_at self; received_at := received_at self |}.

End Shipment.

Module Order.

Record t := {
  order_no : string;
  status : string;
  payment_method : option string;
  subtotal : Q;
  shipping_fee : Q;
  discount : Q;
  grand_total : Q;
  currency : string;
  items : list OrderItem.t;
  payments : list Payment.t;
  shipment : option Shipment.t
}.

Definition with_status (s : string) (self : t) : t :=
  {| order_no := order_no self; status := s;
     payment_method := payment_method self; subtotal := subtotal self;
     shipping_fee := shipping_fee self; discount := discount self;
     grand_total := grand_total self; currency := currency self;
     items := items self; payments := payments self;
     shipment := shipment self |}.

Definition with_totals (sub total : Q) (self : t) : t :=
  {| order_no := order_no self; status := status self;
     payment_method := payment_method self; subtotal := sub;
     shipping_fee := shipping_fee self; discount := discount self;
     grand_total := total; currency := currency self;
     items := items self; payments := payments self;
     shipment := shipment self |}.

Definition with_items (l : list OrderItem.t) (self : t) : t :=
  {| order_no := order_no self; status := status self;
     payment_method := payment_method self; subtotal := subtotal self;
     shipping_fee := shipping_fee self; discount := discount self;
     grand_total := grand_total self; currency := currency self;
     items := l; payments := payments self; shipment := shipment self |}.

Definition with_payments (l : list Payment.t) (self : t) : t :=
  {| order_no := order_no self; status := status self;
     payment_method := payment_method self; subtotal := subtotal self;
     shipping_fee := shipping_fee self; discount := discount self;
     grand_total := grand_total self; currency := currency self;
     items := items self; payments := l; shipment := shipment self |}.

Definition with_shipment (s : option Shipment.t) (self : t) : t :=
  {| order_no := order_no self; status := status self;
     payment_method := payment_method self; subtotal := subtotal self;
     shipping_fee := shipping_fee self; discount := discount self;
     grand_total := grand_total self; currency := currency self;
     items := items self; payments := payments self; shipment := s |}.

Definition update_totals (self : t) : t :=
  let sub := Py.sum (map OrderItem.total_price (items self)) in
  with_totals sub
    (sub + Py.or_Q (shipping_fee self) 0 - Py.or_Q (discount self) 0)%Q self.

End Order.

Module Coupon.

Record t := {
  type : string;
  value : Q;
  min_subtotal : option Q;
  max_uses : option Z;
  used_count : Z;
  start_at : option Z;
  end_at : option Z;
  is_active : bool
}.

Definition with_used_count (n : Z) (self : t) : t :=
  {| type := type self; value := value self;
     min_subtotal := min_subtotal self; max_uses := max_uses self;
     used_count := n; start_at := start_at self; end_at := end_at self;
     is_active := is_active self |}.

(** [utcnow] is the clock read when [now] is not given. A [datetime]
    is always truthy, so only [None] makes a bound of the window
    falsy. *)
Definition is_valid (utcnow : Z) (self : t) (subtotal : Q) (now : option Z) : bool :=
  let now := default utcnow now in
  if negb (is_active self) then false
  else if match start_at self with Some s => now <? s | None => false end
  then false
  else if match end_at self with Some e => e <? now | None => false end
  then false
  else if Py.truthy_Q (min_subtotal self)
          && match min_subtotal self with
             | Some m => if Qlt_le_dec subtotal m then true else false
             | None => false
             end
  then false
  else if Py.truthy_Z (max_uses self)
          && match max_uses self with
             | Some m => m <=? used_count self
             | None => false
             end
  then false
  else true.

Definition discount_amount (self : t) (subtotal : Q) : Q :=
  if Py.str_eq (type self) "percent"
  then (subtotal * (value self / 100))%Q
  else Py.min (value self) subtotal.

End Coupon.

Module BlogPost.

Record t := {
  title : string;
  slug : string;
  content : string;
  hero_image : option string;
  published_at : option Z;
  is_published : bool
}.

(** [utcnow] is the clock. A [datetime] is always truthy, so only
    [None] is replaced. *)
Definition publish (utcnow : Z) (self : t) : t :=
  {| title := title self; slug := slug self; content := content self;
     hero_image := hero_image self;
     published_at :=
       match published_at self with
       | None => Some utcnow
       | Some first => Some first
       end;
     is_published := true |}.

End BlogPost.

(** The tables. A coupon is found by its unique [code]; the other rows by
    primary key. *)
Record DB := {
  products : gmap Z Product.t;
  variants : gmap Z Variant.t;
  carts : gmap Z Cart.t;
  orders : gmap Z Order.t;
  coupons : gmap string Coupon.t
}.

Definition with_products (m : gmap Z Product.t) (db : DB) : DB :=
  {| products := m; variants := variants db; carts := carts db;
     orders := orders db; coupons := coupons db |}.

Definition with_variants (m : gmap Z Variant.t) (db : DB) : DB :=
  {| products := products db; variants := m; carts := carts db;
     orders := orders db; coupons := coupons db |}.

Definition with_carts (m : gmap Z Cart.t) (db : DB) : DB :=
  {| products := products db; variants := variants db; carts := m;
     orders := orders db; coupons := coupons db |}.

Definition with_orders (m : gmap Z Order.t) (db : DB) : DB :=
  {| products := products db; variants := variants db; carts := carts db;
     orders := m; coupons := coupons db |}.

Definition with_coupons (m : gmap string Coupon.t) (db : DB) : DB :=
  {| products := products db; variants := variants db; carts := carts db;
     orders := orders db; coupons := m |}.

(** The primary key an insert receives: one past the largest in use. *)
Definition next_id {A} (m : gmap Z A) : Z :=
  1 + map_fold (fun k _ acc => Z.max k acc) 0 m.

(** The [after_insert] listener of [OrderItem]: an [UPDATE] of the row of
    [variants] whose id is [target.variant_id]. *)
Definition reduce_stock (target : OrderItem.t) (variant_table : gmap Z Variant.t)
  : gmap Z Variant.t :=
  if negb (OrderItem.qty target =? 0)
  then alter (fun v => Variant.with_stock_qty
                         (Variant.stock_qty v - OrderItem.qty target) v)
             (OrderItem.variant_id target) variant_table
  else variant_table.

(** The [after_delete] listener of [OrderItem]. *)
Definition restore_stock (target : OrderItem.t) (variant_table : gmap Z Variant.t)
  : gmap Z Variant.t :=
  if negb (OrderItem.qty target =? 0)
  then alter (fun v => Variant.with_stock_qty
                         (Variant.stock_qty v + OrderItem.qty target) v)
             (OrderItem.variant_id target) variant_table
  else variant_table.

(** An [INSERT] into [order_items] for the order [order_id], with its
    listener. *)
Definition insert_order_item (order_id : Z) (target : OrderItem.t) (db : DB) : DB :=
  let db :=
    with_orders
      (alter (fun o => Order.with_items (Order.items o ++ [target]) o)
             order_id (orders db)) db in
  with_variants (reduce_stock target (variants db)) db.

(** A [DELETE] of the [i]-th item of the order [order_id], with its
    listener. *)
Definition delete_order_item (order_id : Z) (i : nat) (db : DB) : DB :=
  match orders db !! order_id ≫= (fun o => Order.items o !! i) with
  | Some target =>
      let db :=
        with_orders
          (alter (fun o => Order.with_items (delete i (Order.items o)) o)
                 order_id (orders db)) db in
      with_variants (restore_stock target (variants db)) db
  | None => db
  end.

(** ** The request layer *)

(** A unit of work of the ORM session: what the database holds, and what
    this request has written and not yet committed. *)
Module Txn.

Record t := {
  committed : DB;
  working : DB
}.

Definition begin (db : DB) : t := {| committed := db; working := db |}.

Definition write (f : DB -> DB) (s : t) : t :=
  {| committed := committed s; working := f (working s) |}.

Definition commit (s : t) : t :=
  {| committed := working s; working := working s |}.

Definition rollback (s : t) : t :=
  {| committed := committed s; working := committed s |}.

(** When the request ends the session is removed: what was not
    committed is lost. *)
Definition finish (s : t) : DB := committed s.

End Txn.

Inductive Response :=
  | Redirect (endpoint : string) (arg : option string)
  | Render (template : string)
  | Abort (code : Z).

(** What the caller receives: the response and the messages flashed for
    the next page, each with its category. *)
Record Outcome := {
  response : Response;
  flashes : list (string * string)
}.

(** ** betta/blueprints/admin.py

    The handlers are read for a request that has passed
    [require_login_for_admin_pages]: an authenticated admin. *)

Module Admin.

Definition confirm_payment (utcnow : Z) (order_id : Z) (db : DB) : DB * Outcome :=
  match orders db !! order_id with
  | None => (db, {| response := Abort 404; flashes := [] |})
  | Some order =>
      let s := Txn.begin db in
      let order :=
        match last (Order.payments order) with
        | Some _ =>
            Order.with_payments
              (alter (fun payment =>
                        Payment.with_paid_at (Some utcnow)
                          (Payment.with_status "confirmed" payment))
                     (Nat.pred (length (Order.payments order)))
                     (Order.payments order))
              order
        | None =>
            let payment :=
              {| Payment.method := "transfer"; Payment.ref := None;
                 Payment.amount := Order.grand_total order;
                 Payment.status := "confirmed";
                 Payment.paid_at := Some utcnow;
                 Payment.slip_url := None |} in
            Order.with_payments (Order.payments order ++ [payment]) order
        end in
      let order := Order.with_status "paid" order in
      let s := Txn.write (fun db => with_orders (<[order_id := order]> (orders db)) db) s in
      let s := Txn.commit s in
      (Txn.finish s,
       {| response := Redirect "admin.dashboard" None;
          flashes := [("ยืนยันการชำระเงินแล้ว", "success")] |})
  end.

(** The body of the restock loop of [cancel_order]. *)
Definition restock_item (db : DB) (item : OrderItem.t) : DB :=
  match variants db !! OrderItem.variant_id item with
  | None => db
  | Some variant =>
      let variant :=
        Variant.with_stock_qty
          (Py.or_Z (Variant.stock_qty variant) 0 + OrderItem.qty item) variant in
      let db :=
        with_variants (<[OrderItem.variant_id item := variant]> (variants db)) db in
      match products db !! Variant.product_id variant with
      | Some product =>
          if negb (Py.str_eq (Product.status product) "active")
          then with_products
                 (<[Variant.product_id variant :=
                      Product.with_status "active" product]> (products db)) db
          else db
      | None => db
      end
  end.

(** The body of the other loop, for damaged goods. *)
Definition clamp_item (db : DB) (item : OrderItem.t) : DB :=
  match variants db !! OrderItem.variant_id item with
  | Some variant =>
      if Variant.stock_qty variant <? 0
      then with_variants
             (<[OrderItem.variant_id item :=
                  Variant.with_stock_qty 0 variant]> (variants db)) db
      else db
  | None => db
  end.

Definition cancel_payment (payment : Payment.t) : Payment.t :=
  Payment.with_paid_at None (Payment.with_status "canceled" payment).

Definition cancel_shipment (shipment : Shipment.t) : Shipment.t :=
  Shipment.with_received_at None
    (Shipment.with_shipped_at None
       (Shipment.with_status (Some "canceled") shipment)).

(** [form_action] is the form field [action], [None] when the form
    does not carry it. *)
Definition cancel_order (order_id : Z) (form_action : option string) (db : DB)
  : DB * Outcome :=
  match orders db !! order_id with
  | None => (db, {| response := Abort 404; flashes := [] |})
  | Some order =>
      if Py.str_eq (Order.status order) "canceled"
         || Py.str_eq (Order.status order) "canceled_damaged"
      then (db, {| response := Redirect "admin.dashboard" None;
                   flashes := [("คำสั่งซื้อนี้ถูกยกเลิกแล้ว", "info")] |})
      else
        let action := default "restock" form_action in
        let restock := Py.str_eq action "restock" in
        let damaged := Py.str_eq action "damaged" in
        if negb restock && negb damaged
        then (db, {| response := Redirect "admin.dashboard" None;
                     flashes := [("ไม่สามารถดำเนินการได้", "error")] |})
        else
          let s := Txn.begin db in
          let s :=
            Txn.write
              (fun db =>
                 fold_left (if restock then restock_item else clamp_item)
                           (Order.items order) db) s in
          let order :=
            Order.with_payments (map cancel_payment (Order.payments order)) order in
          let order :=
            Order.with_shipment (cancel_shipment <$> Order.shipment order) order in
          let order :=
            Order.with_status (if restock then "canceled" else "canceled_damaged")
                              order in
          let s := Txn.write (fun db => with_orders (<[order_id := order]> (orders db)) db) s in
          let s := Txn.commit s in
          (Txn.finish s,
           {| response := Redirect "admin.dashboard" None;
              flashes :=
                if restock
                then [("ยกเลิกคำสั่งซื้อและคืนสินค้าเข้าสู่สต็อกแล้ว", "success")]
                else [("ยกเลิกคำสั่งซื้อโดยระบุว่าสินค้าเสียหายแล้ว", "warning")] |})
  end.

(** [utcnow_date] is [strftime('%Y%m%d')] of the clock; [form_carrier]
    and [form_tracking_no] are the form fields, [None] when the form
    does not carry them. *)
Definition ship_order (utcnow : Z) (utcnow_date : string) (order_id : Z)
    (form_carrier form_tracking_no : option string) (db : DB) : DB * Outcome :=
  match orders db !! order_id with
  | None => (db, {| response := Abort 404; flashes := [] |})
  | Some order =>
      let s := Txn.begin db in
      let order := Order.with_status "shipped" order in
      let shipment :=
        match Order.shipment order with
        | None =>
            let label_url := "/static/labels/placeholder.pdf" in
            {| Shipment.carrier := Some (default "Kerry Express" form_carrier);
               Shipment.tracking_no :=
                 Some (if Py.truthy_str form_tracking_no
                       then default "" form_tracking_no
                       else "KR" +:+ utcnow_date +:+ "-" +:+ Py.format_0d 5 order_id);
               Shipment.label_url := Some label_url;
               Shipment.status := Some "shipped";
               Shipment.shipped_at := Some utcnow;
               Shipment.received_at := None |}
        | Some shipment =>
            let shipment := Shipment.with_status (Some "shipped") shipment in
            let shipment :=
              Shipment.with_carrier
                (match form_carrier with
                 | Some c => Some c
                 | None => Shipment.carrier shipment
                 end) shipment in
            let shipment :=
              Shipment.with_tracking_no
                (match form_tracking_no with
                 | Some n => Some n
                 | None => Shipment.tracking_no shipment
                 end) shipment in
            Shipment.with_shipped_at (Some utcnow) shipment
        end in
      let order := Order.with_shipment (Some shipment) order in
      let s := Txn.write (fun db => with_orders (<[order_id := order]> (orders db)) db) s in
      let s := Txn.commit s in
      (Txn.finish s,
       {| response := Redirect "admin.dashboard" None;
          flashes := [("อัปเดตสถานะการจัดส่งแล้ว", "success")] |})
  end.

End Admin.

(** ** betta/services/shipping.py *)

Module Shipping.

Record ShippingQuote := {
  method : string;
  fee : Q;
  eta_days : Z;
  international : bool
}.

Definition DOMESTIC_CARRIERS_kerry : ShippingQuote :=
  {| method := "Kerry Express"; fee := 0; eta_days := 2; international := false |}.

Definition INTERNATIONAL_BASE_dhl : ShippingQuote :=
  {| method := "DHL Express"; fee := 0; eta_days := 7; international := true |}.

(** [base_fee] is the configured [DEFAULT_SHIPPING_DOMESTIC]. *)
Definition calculate_domestic (base_fee : Q) (weight_grams : option Z) : ShippingQuote :=
  let fee :=
    match weight_grams with
    | Some w =>
        if negb (w =? 0) && (500 <? w)
        then (base_fee + inject_Z (w - 500) * (5 # 10))%Q
        else base_fee
    | None => base_fee
    end in
  let quote := DOMESTIC_CARRIERS_kerry in
  {| method := method quote; fee := Py.round2 fee; eta_days := eta_days quote;
     international := false |}.

(** [base_fee] is the configured [DEFAULT_SHIPPING_INTERNATIONAL]. *)
Definition calculate_international (base_fee : Q) (weight_grams : option Z)
  : ShippingQuote :=
  let fee :=
    match weight_grams with
    | Some w =>
        if negb (w =? 0) && (500 <? w)
        then (base_fee + inject_Z (w - 500) * (12 # 10))%Q
        else base_fee
    | None => base_fee
    end in
  let quote := INTERNATIONAL_BASE_dhl in
  {| method := method quote; fee := Py.round2 fee; eta_days := eta_days quote;
     international := true |}.

End Shipping.

(** ** The card provider *)

Module Stripe.

(** The fields of a payment intent the handlers read. *)
Record Intent := {
  id : string;
  status : string;
  amount : option Z
}.

(** The product is the exact one: by the convention on money, what the
    multiplication of two binary floats loses is outside the model. *)
Definition _to_stripe_amount (amount : Q) : Z := Py.round (amount * 100).

Section Remote.

(** The configured secret key, and the provider's answer to
    [PaymentIntent.create] for an amount in minor units, a currency
    and the order number of the metadata. *)
Variable STRIPE_SECRET_KEY : string.
Variable PaymentIntent_create : Z -> string -> string -> Py.result Intent.

(** The answer, and the answers the provider gave on the way: none
    when [init_stripe] raises before the call. *)
Definition create_stripe_payment_intent (amount : Q) (currency order_no : string)
  : Py.result Intent * list (Py.result Intent) :=
  if negb (Py.truthy_str (Some STRIPE_SECRET_KEY))
  then (Py.Raise Py.RuntimeError, [])
  else
    let answer :=
      PaymentIntent_create (_to_stripe_amount amount) (Py.lower currency) order_no in
    (answer, [answer]).

End Remote.

End Stripe.

(** ** betta/blueprints/store.py *)

Module Store.

(** What the signed cookie holds. *)
Record Session := {
  cart_id : option Z;
  session_id : option string
}.

Record World := {
  db : DB;
  session : Session
}.

Inductive HttpMethod := GET | POST.

(** The form fields [checkout] reads and uses. *)
Record Form := {
  country : option string;
  coupon : option string;
  payment_method : option string
}.

(** What the request reads from outside the database: the clock and its
    [strftime('%Y%m%d%H%M%S')], [secrets.randbelow(999)], [uuid4().hex],
    the configuration and the card provider. *)
Record Env := {
  utcnow : Z;
  utcnow_stamp : string;
  randbelow_999 : Z;
  uuid4_hex : string;
  DEFAULT_SHIPPING_DOMESTIC : Q;
  DEFAULT_SHIPPING_INTERNATIONAL : Q;
  STRIPE_SECRET_KEY : string;
  PaymentIntent_create : Z -> string -> string -> Py.result Stripe.Intent
}.

(** What [checkout] hands back, with the answers of the card provider
    to the calls it made. *)
Record Result := {
  world : World;
  outcome : Outcome;
  remote_calls : list (Py.result Stripe.Intent)
}.

Definition _get_or_create_cart (env : Env) (s : Txn.t) (sess : Session)
  : Txn.t * Session * (Z * Cart.t) :=
  let found :=
    if Py.truthy_Z (cart_id sess)
    then cart_id sess ≫= (fun i => (fun c => (i, c)) <$> carts (Txn.working s) !! i)
    else None in
  match found with
  | Some ic => (s, sess, ic)
  | None =>
      let sid :=
        if Py.truthy_str (session_id sess)
        then session_id sess else Some (uuid4_hex env) in
      let cart := {| Cart.session_id := sid; Cart.items := [] |} in
      let i := next_id (carts (Txn.working s)) in
      let s := Txn.write (fun db => with_carts (<[i := cart]> (carts db)) db) s in
      let s := Txn.commit s in
      (s, {| cart_id := Some i; session_id := sid |}, (i, cart))
  end.

(** The loop of [checkout] over the cart: one [OrderItem] per line. A
    line whose variant or product is gone raises [AttributeError]. *)
Fixpoint add_order_items (order_id : Z) (lines : list CartItem.t) (db : DB)
  : Py.result DB :=
  match lines with
  | [] => Py.Return db
  | item :: lines' =>
      match variants db !! CartItem.variant_id item with
      | None => Py.Raise (Py.OtherError "AttributeError")
      | Some variant =>
          match products db !! Variant.product_id variant with
          | None => Py.Raise (Py.OtherError "AttributeError")
          | Some product =>
              let order_item :=
                {| OrderItem.variant_id := CartItem.variant_id item;
                   OrderItem.title_snapshot :=
                     Some (Product.localized_title product "th");
                   OrderItem.attrs_snapshot := Variant.attributes_json variant;
                   OrderItem.qty := CartItem.qty item;
                   OrderItem.unit_price := CartItem.price_at item;
                   OrderItem.total_price := CartItem.total_price item |} in
              add_order_items order_id lines'
                (insert_order_item order_id order_item db)
          end
      end
  end.

(** [Order.query.filter_by(order_no=order_no).first()]. *)
Definition order_by_no (order_no : string) (db : DB) : option (Z * Order.t) :=
  snd <$> list_find (fun row => Order.order_no (snd row) = order_no)
                    (map_to_list (orders db)).

(** An exception no handler catches: the response is a 500 and the
    session goes without a commit. *)
Definition crash (s : Txn.t) (sess : Session) (calls : list (Py.result Stripe.Intent))
  : Result :=
  {| world := {| db := Txn.finish s; session := sess |};
     outcome := {| response := Abort 500; flashes := [] |};
     remote_calls := calls |}.

Definition checkout (env : Env) (method : HttpMethod) (form : Form) (w : World)
  : Result :=
  let '(s, sess, (cid, cart)) := _get_or_create_cart env (Txn.begin (db w)) (session w) in
  match Cart.items cart with
  | [] =>
      {| world := {| db := Txn.finish s; session := sess |};
         outcome := {| response := Redirect "store.product_list" None;
                       flashes := [("ตะกร้าว่าง", "error")] |};
         remote_calls := [] |}
  | _ :: _ =>
    match method with
    | GET =>
      {| world := {| db := Txn.finish s; session := sess |};
         outcome := {| response := Render "store/checkout.html"; flashes := [] |};
         remote_calls := [] |}
    | POST =>
      let country := default "TH" (country form) in
      let coupon_code := coupon form in
      let payment_method := default "promptpay" (payment_method form) in
      let subtotal := Cart.total cart in
      let shipping_quote :=
        if Py.str_eq (Py.upper country) "TH"
        then Shipping.calculate_domestic (DEFAULT_SHIPPING_DOMESTIC env) None
        else Shipping.calculate_international (DEFAULT_SHIPPING_INTERNATIONAL env) None in
      let coupon :=
        if Py.truthy_str coupon_code
        then coupon_code ≫= (fun c => (fun r => (c, r)) <$> coupons (Txn.working s) !! c)
        else None in
      let '(discount, fl) :=
        if Py.truthy_str coupon_code
        then match coupon with
             | Some (_, c) =>
                 if Coupon.is_valid (utcnow env) c subtotal None
                 then (Coupon.discount_amount c subtotal, [])
                 else (0%Q, [("คูปองไม่ถูกต้องหรือหมดอายุ", "warning")])
             | None => (0%Q, [("คูปองไม่ถูกต้องหรือหมดอายุ", "warning")])
             end
        else (0%Q, []) in
      let order_no := "BT" +:+ utcnow_stamp env +:+ Py.format_0d 3 (randbelow_999 env) in
      let order :=
        {| Order.order_no := order_no; Order.status := "pending";
           Order.payment_method := Some payment_method;
           Order.subtotal := subtotal;
           Order.shipping_fee := Shipping.fee shipping_quote;
           Order.discount := discount; Order.grand_total := 0;
           Order.currency :=
             if Py.str_eq (Py.upper country) "TH" then "THB" else "USD";
           Order.items := []; Order.payments := []; Order.shipment := None |} in
      let order_id := next_id (orders (Txn.working s)) in
      (* [db.session.flush()] sends the INSERT. The column [order_no] is
         [unique]: a number an order already has raises [IntegrityError],
         which no handler catches. *)
      match order_by_no order_no (Txn.working s) with
      | Some _ => crash s sess []
      | None =>
      let s := Txn.write (fun db => with_orders (<[order_id := order]> (orders db)) db) s in
      match add_order_items order_id (Cart.items cart) (Txn.working s) with
      | Py.Raise _ => crash s sess []
      | Py.Return db1 =>
        let s := Txn.write (fun _ => db1) s in
        let s := Txn.write (fun db => with_orders (alter Order.update_totals order_id (orders db)) db) s in
        let grand_total :=
          default 0%Q (Order.grand_total <$> orders (Txn.working s) !! order_id) in
        let payment :=
          {| Payment.method := payment_method; Payment.ref := None;
             Payment.amount := grand_total; Payment.status := "init";
             Payment.paid_at := None; Payment.slip_url := None |} in
        let s :=
          Txn.write
            (fun db =>
               with_orders
                 (alter (fun o => Order.with_payments (Order.payments o ++ [payment]) o)
                        order_id (orders db)) db) s in
        let finish_order (s : Txn.t) (calls : list (Py.result Stripe.Intent)) :=
          let s :=
            match coupon with
            | Some (code, _) =>
                Txn.write
                  (fun db =>
                     with_coupons
                       (alter (fun c => Coupon.with_used_count (Coupon.used_count c + 1) c)
                              code (coupons db)) db) s
            | None => s
            end in
          let s :=
            Txn.write
              (fun db => with_carts (alter (Cart.with_items []) cid (carts db)) db) s in
          let s := Txn.commit s in
          {| world := {| db := Txn.finish s;
                         session := {| cart_id := None; session_id := session_id sess |} |};
             outcome :=
               {| response := Redirect "store.order_status" (Some order_no);
                  flashes := fl ++ [("สร้างคำสั่งซื้อแล้ว กรุณาชำระเงิน", "success")] |};
             remote_calls := calls |} in
        if Py.str_eq payment_method "stripe"
        then
          let '(answer, calls) :=
            Stripe.create_stripe_payment_intent
              (STRIPE_SECRET_KEY env) (PaymentIntent_create env)
              grand_total
              (if Py.str_eq (Py.upper country) "TH" then "THB" else "USD")
              order_no in
          match answer with
          | Py.Raise Py.StripeError =>
              let s := Txn.rollback s in
              {| world := {| db := Txn.finish s; session := sess |};
                 outcome :=
                   {| response := Redirect "store.checkout" None;
                      flashes :=
                        fl ++ [("Unable to start Stripe payment, please try again.",
                                "error")] |};
                 remote_calls := calls |}
          | Py.Raise _ => crash s sess calls
          | Py.Return intent =>
              let mirror (payment : Payment.t) : Payment.t :=
                let payment := Payment.with_ref (Some (Stripe.id intent)) payment in
                let payment :=
                  Payment.with_status
                    (if Py.truthy_str (Some (Stripe.status intent))
                     then Stripe.status intent else Payment.status payment) payment in
                match Stripe.amount intent with
                | Some amount_value =>
                    Payment.with_amount (Py.round2 (inject_Z amount_value / 100)) payment
                | None => payment
                end in
              let s :=
                Txn.write
                  (fun db =>
                     with_orders
                       (alter (fun o =>
                                 Order.with_payments
                                   (alter mirror (Nat.pred (length (Order.payments o)))
                                          (Order.payments o)) o)
                              order_id (orders db)) db) s in
              finish_order s calls
          end
        else finish_order s []
      end
      end
    end
  end.

(** [add_to_cart]. [form_variant_id] is the form field [variant_id]
    read with [type=int]: [None] when it is missing or is not a number.
    [referrer] is [request.referrer]; its URL stands where the endpoint
    of the redirect stands otherwise. *)
Definition add_to_cart (env : Env) (form_variant_id : option Z)
    (referrer : option string) (w : World) : World * Outcome :=
  if negb (Py.truthy_Z form_variant_id)
  then (w, {| response :=
                Redirect (if Py.truthy_str referrer
                          then default "" referrer else "store.product_list") None;
              flashes := [("เลือกสินค้าที่ต้องการก่อน", "error")] |})
  else
    let variant_id := default 0 form_variant_id in
    match variants (db w) !! variant_id with
    | None => (w, {| response := Abort 404; flashes := [] |})
    | Some variant =>
        if Variant.stock_qty variant <=? 0
        then
          match products (db w) !! Variant.product_id variant with
          | None => (w, {| response := Abort 500; flashes := [] |})
          | Some product =>
              (w, {| response :=
                       Redirect "store.product_detail" (Some (Product.sku product));
                     flashes := [("สินค้าหมดแล้ว", "error")] |})
          end
        else
          let '(s, sess, (cid, cart)) :=
            _get_or_create_cart env (Txn.begin (db w)) (session w) in
          let existing :=
            list_find (fun item => CartItem.variant_id item = variant_id)
                      (Cart.items cart) in
          let lines :=
            match existing with
            | Some (i, _) =>
                alter (fun existing =>
                         {| CartItem.variant_id := CartItem.variant_id existing;
                            CartItem.qty := CartItem.qty existing + 1;
                            CartItem.price_at := CartItem.price_at existing |})
                      i (Cart.items cart)
            | None =>
                Cart.items cart
                ++ [ {| CartItem.variant_id := variant_id; CartItem.qty := 1;
                        CartItem.price_at := Variant.price variant |} ]
            end in
          let s :=
            Txn.write
              (fun db => with_carts (alter (Cart.with_items lines) cid (carts db)) db) s in
          let s := Txn.commit s in
          ({| db := Txn.finish s; session := sess |},
           {| response := Redirect "store.cart_view" None;
              flashes := [("เพิ่มสินค้าในตะกร้าแล้ว", "success")] |})
    end.

(** The price filter of [product_list]. [products] is what the query
    gave, each product with what its [primary_variant()] returns;
    [price_min] and [price_max] are the arguments read with
    [type=float], [None] for one that is missing or is not a number. *)
Definition filter_by_price (price_min price_max : option Q)
    (products : list (Product.t * option Variant.t))
  : list (Product.t * option Variant.t) :=
  if Py.truthy_Q price_min || Py.truthy_Q price_max
  then
    fold_left
      (fun filtered product =>
         match snd product with
         | None => filtered
         | Some variant =>
             let price := Variant.price variant in
             if Py.truthy_Q price_min
                && (if Qlt_le_dec price (default 0%Q price_min) then true else false)
             then filtered
             else if Py.truthy_Q price_max
                     && (if Qlt_le_dec (default 0%Q price_max) price then true else false)
             then filtered
             else filtered ++ [product]
         end)
      products []
  else products.

(** The fields [stripe_confirm_payment] reads of the intent the provider
    hands back. *)
Record RetrievedIntent := {
  intent_status : string;
  intent_amount_received : option Z;
  intent_amount : option Z
}.

(** A [jsonify] response: the HTTP status and the members of the
    object. *)
Record JsonReply := {
  code : Z;
  body : list (string * string)
}.

(** [retrieve_stripe_payment_intent] of [betta/services/payments.py]:
    the answer, and the answers the provider gave on the way. *)
Definition retrieve_stripe_payment_intent (env : Env)
    (PaymentIntent_retrieve : string -> Py.result RetrievedIntent) (intent_id : string)
  : Py.result RetrievedIntent * list (Py.result RetrievedIntent) :=
  if negb (Py.truthy_str (Some (STRIPE_SECRET_KEY env)))
  then (Py.Raise Py.RuntimeError, [])
  else
    let answer := PaymentIntent_retrieve intent_id in
    (answer, [answer]).

Definition stripe_confirm_payment (env : Env)
    (PaymentIntent_retrieve : string -> Py.result RetrievedIntent)
    (order_no : string) (db : DB)
  : DB * JsonReply * list (Py.result RetrievedIntent) :=
  match order_by_no order_no db with
  | None => (db, {| code := 404; body := [] |}, [])
  | Some (order_id, order) =>
      let payment := last (Order.payments order) in
      match payment with
      | None => (db, {| code := 400; body := [("error", "payment_not_found")] |}, [])
      | Some payment =>
          if negb (Py.str_eq (Payment.method payment) "stripe")
             || negb (Py.truthy_str (Payment.ref payment))
          then (db, {| code := 400; body := [("error", "payment_not_found")] |}, [])
          else
            let '(answer, calls) :=
              retrieve_stripe_payment_intent env PaymentIntent_retrieve
                (default "" (Payment.ref payment)) in
            match answer with
            | Py.Raise Py.StripeError =>
                (db, {| code := 502; body := [("error", "stripe_error")] |}, calls)
            | Py.Raise _ => (db, {| code := 500; body := [] |}, calls)
            | Py.Return intent =>
                let s := Txn.begin db in
                let succeeded := Py.str_eq (intent_status intent) "succeeded" in
                let payment := Payment.with_status (intent_status intent) payment in
                let payment :=
                  if succeeded
                  then
                    let payment := Payment.with_paid_at (Some (utcnow env)) payment in
                    let amount_received :=
                      if Py.truthy_Z (intent_amount_received intent)
                      then intent_amount_received intent else intent_amount intent in
                    match amount_received with
                    | Some amount_received =>
                        Payment.with_amount
                          (Py.round2 (inject_Z amount_received / 100)) payment
                    | None => payment
                    end
                  else payment in
                let order :=
                  Order.with_payments
                    (<[Nat.pred (length (Order.payments order)) := payment]>
                       (Order.payments order)) order in
                let order := if succeeded then Order.with_status "paid" order else order in
                let s :=
                  Txn.write
                    (fun db => with_orders (<[order_id := order]> (orders db)) db) s in
                let s := Txn.commit s in
                (Txn.finish s,
                 {| code := 200; body := [("status", Payment.status payment)] |}, calls)
            end
      end
  end.

(** [upload_slip]. [slip_filename] is the file name of the part [slip]
    of the request, [None] when there is no such part;
    [secure_filename] is the function of werkzeug, and
    [utcnow_timestamp] is the clock as [timestamp()] writes it with
    format [.0f]. The third component is the files [save_upload] has
    written under the upload folder. *)
Definition upload_slip (secure_filename : string -> string) (utcnow_timestamp : string)
    (order_no : string) (slip_filename : option string) (db : DB)
  : DB * Outcome * list string :=
  match order_by_no order_no db with
  | None => (db, {| response := Abort 404; flashes := [] |}, [])
  | Some (order_id, order) =>
      if negb (Py.truthy_str slip_filename)
      then (db, {| response := Redirect "store.order_status" (Some order_no);
                   flashes := [("กรุณาอัปโหลดสลิป", "error")] |}, [])
      else
        let filename :=
          secure_filename (order_no +:+ "_slip_" +:+ utcnow_timestamp +:+ ".png") in
        let url := "/static/uploads/" +:+ filename in
        let s := Txn.begin db in
        let touch (payment : Payment.t) : Payment.t :=
          Payment.with_status "init" (Payment.with_slip_url (Some url) payment) in
        let order :=
          match last (Order.payments order) with
          | Some payment =>
              Order.with_payments
                (<[Nat.pred (length (Order.payments order)) := touch payment]>
                   (Order.payments order)) order
          | None =>
              let payment :=
                {| Payment.method := "transfer"; Payment.ref := None;
                   Payment.amount := 0; Payment.status := "init";
                   Payment.paid_at := None; Payment.slip_url := None |} in
              Order.with_payments (Order.payments order ++ [touch payment]) order
          end in
        let s := Txn.write (fun db => with_orders (<[order_id := order]> (orders db)) db) s in
        let s := Txn.commit s in
        (Txn.finish s,
         {| response := Redirect "store.order_status" (Some order_no);
            flashes := [("อัปโหลดสลิปเรียบร้อย รอตรวจสอบ", "success")] |},
         [filename])
  end.

End Store.

(** ** The blog handlers of betta/blueprints/admin.py

    They read and write the table of posts only. *)

Module AdminBlog.

(** The form fields the handlers read, [None] for a field the form does
    not carry. *)
Record Form := {
  title : option string;
  slug : option string;
  content : option string;
  hero_image : option string;
  is_published : option string
}.

(** [str(n)] on an integer. *)
Definition str_of_int (n : Z) : string := Py.format_int 10 0 n.

(** [BlogPost.query.filter_by(slug=slug).first()]. *)
Definition first_by_slug (slug : string) (posts : gmap Z BlogPost.t)
  : option (Z * BlogPost.t) :=
  snd <$> list_find (fun row => BlogPost.slug (snd row) = slug) (map_to_list posts).

(** [BlogPost.query.filter(BlogPost.slug == slug, BlogPost.id != post_id).first()]. *)
Definition first_other_by_slug (slug : string) (post_id : Z) (posts : gmap Z BlogPost.t)
  : option (Z * BlogPost.t) :=
  snd <$> list_find (fun row => BlogPost.slug (snd row) = slug /\ fst row <> post_id)
                    (map_to_list posts).

(** The [while] loop of [blog_create]; [fuel] bounds its turns. *)
Fixpoint unique_slug_loop (fuel : nat) (posts : gmap Z BlogPost.t)
    (base_slug unique_slug : string) (counter : Z) : option string :=
  match fuel with
  | O => None
  | S fuel =>
      match first_by_slug unique_slug posts with
      | Some _ =>
          unique_slug_loop fuel posts base_slug
            (base_slug +:+ "-" +:+ str_of_int counter) (counter + 1)
      | None => Some unique_slug
      end
  end.

(** The [while] loop of [blog_edit]. *)
Fixpoint free_counter_loop (fuel : nat) (posts : gmap Z BlogPost.t) (post_id : Z)
    (base_slug : string) (counter : Z) : option Z :=
  match fuel with
  | O => None
  | S fuel =>
      match first_other_by_slug (base_slug +:+ "-" +:+ str_of_int counter)
                                post_id posts with
      | Some _ => free_counter_loop fuel posts post_id base_slug (counter + 1)
      | None => Some counter
      end
  end.

Section Handlers.

(** [slugify] belongs to the package python-slugify. *)
Variable slugify : string -> string.

(** [utcnow] is the clock [publish] reads and [utcnow_timestamp] is
    [int(datetime.utcnow().timestamp())]. The result is [None] when the
    fuel does not let the loop end. *)
Definition blog_create (fuel : nat) (utcnow utcnow_timestamp : Z)
    (method : Store.HttpMethod) (form : Form) (posts : gmap Z BlogPost.t)
  : option (gmap Z BlogPost.t * Outcome) :=
  match method with
  | Store.GET =>
      Some (posts, {| response := Render "admin/blog_form.html"; flashes := [] |})
  | Store.POST =>
      let title := title form in
      let slug_value :=
        if Py.truthy_str (slug form) then default "" (slug form)
        else if Py.truthy_str title then default "" title else "" in
      let content := content form in
      let hero_image := hero_image form in
      let is_published := Py.truthy_str (is_published form) in
      if negb (Py.truthy_str title) || negb (Py.truthy_str content)
      then Some (posts, {| response := Render "admin/blog_form.html";
                           flashes := [("กรุณากรอกข้อมูลให้ครบถ้วน", "error")] |})
      else
        let base_slug := slugify slug_value in
        let base_slug :=
          if negb (Py.truthy_str (Some base_slug))
          then "post-" +:+ str_of_int utcnow_timestamp else base_slug in
        match unique_slug_loop fuel posts base_slug base_slug 2 with
        | None => None
        | Some unique_slug =>
            let post :=
              {| BlogPost.title := default "" title; BlogPost.slug := unique_slug;
                 BlogPost.content := default "" content;
                 BlogPost.hero_image := hero_image;
                 BlogPost.published_at := None;
                 BlogPost.is_published := is_published |} in
            let post := if is_published then BlogPost.publish utcnow post else post in
            Some (<[next_id posts := post]> posts,
                  {| response := Redirect "admin.blog_list" None;
                     flashes := [("สร้างบทความเรียบร้อยแล้ว", "success")] |})
        end
  end.

Definition blog_edit (fuel : nat) (utcnow : Z) (post_id : Z)
    (method : Store.HttpMethod) (form : Form) (posts : gmap Z BlogPost.t)
  : option (gmap Z BlogPost.t * Outcome) :=
  match posts !! post_id with
  | None => Some (posts, {| response := Abort 404; flashes := [] |})
  | Some post =>
      match method with
      | Store.GET =>
          Some (posts, {| response := Render "admin/blog_form.html"; flashes := [] |})
      | Store.POST =>
          let title := title form in
          let slug_value :=
            if Py.truthy_str (slug form) then default "" (slug form)
            else if Py.truthy_str title then default "" title
            else BlogPost.slug post in
          let content := content form in
          let hero_image := hero_image form in
          let is_published := Py.truthy_str (is_published form) in
          if negb (Py.truthy_str title) || negb (Py.truthy_str content)
          then Some (posts, {| response := Render "admin/blog_form.html";
                               flashes := [("กรุณากรอกข้อมูลให้ครบถ้วน", "error")] |})
          else
            let base_slug :=
              if Py.truthy_str (Some (slugify slug_value))
              then slugify slug_value else BlogPost.slug post in
            let unique_slug :=
              if negb (Py.str_eq base_slug (BlogPost.slug post))
                 && bool_decide (is_Some (first_other_by_slug base_slug post_id posts))
              then
                (fun counter => base_slug +:+ "-" +:+ str_of_int counter)
                  <$> free_counter_loop fuel posts post_id base_slug 2
              else Some base_slug in
            match unique_slug with
            | None => None
            | Some unique_slug =>
                let post :=
                  {| BlogPost.title := default "" title; BlogPost.slug := unique_slug;
                     BlogPost.content := default "" content;
                     BlogPost.hero_image := hero_image;
                     BlogPost.published_at := BlogPost.published_at post;
                     BlogPost.is_published := is_published |} in
                let post :=
                  if is_published then BlogPost.publish utcnow post
                  else
                    {| BlogPost.title := BlogPost.title post;
                       BlogPost.slug := BlogPost.slug post;
                       BlogPost.content := BlogPost.content post;
                       BlogPost.hero_image := BlogPost.hero_image post;
                       BlogPost.published_at := None;
                       BlogPost.is_published := BlogPost.is_published post |} in
                Some (<[post_id := post]> posts,
                      {| response := Redirect "admin.blog_list" None;
                         flashes := [("อัปเดตบทความแล้ว", "success")] |})
            end
      end
  end.

End Handlers.

Definition blog_delete (post_id : Z) (posts : gmap Z BlogPost.t)
  : gmap Z BlogPost.t * Outcome :=
  match posts !! post_id with
  | None => (posts, {| response := Abort 404; flashes := [] |})
  | Some _ =>
      (delete post_id posts,
       {| response := Redirect "admin.blog_list" None;
          flashes := [("ลบบทความแล้ว", "info")] |})
  end.

End AdminBlog.

(** ** betta/services/settings.py *)

Module Settings.

(** A value of the configuration of the application: text or a
    number. *)
Inductive Value :=
  | Text (s : string)
  | Number (x : Q).

(** The members of a [SettingField] that [save_settings] reads. [cast]
    is [float] or absent, and [empty_value], given for the fields cast
    to [float] only, is a number. *)
Record SettingField := {
  key : string;
  label : string;
  config_key : option string;
  cast_is_float : bool;
  empty_value : option Q;
  field_default : option Value
}.

Definition text_field (key label config_key : string) (field_default : option string)
  : SettingField :=
  {| key := key; label := label; config_key := Some config_key;
     cast_is_float := false; empty_value := None;
     field_default := Text <$> field_default |}.

Definition number_field (key label config_key : string) (value : Q) : SettingField :=
  {| key := key; label := label; config_key := Some config_key;
     cast_is_float := true; empty_value := Some value;
     field_default := Some (Number value) |}.

(** The fields of each tab of [SETTINGS_SCHEMA]. *)
Definition SETTINGS_SCHEMA : gmap string (list SettingField) :=
  {[ "profile" :=
       [ text_field "profile.shop_name" "ชื่อร้าน" "SHOP_NAME" (Some "Betta Paradise");
         text_field "profile.shop_email" "อีเมลติดต่อ" "SHOP_EMAIL"
                    (Some "support@bettaparadise.test");
         text_field "profile.shop_phone" "เบอร์ติดต่อ" "SHOP_PHONE" (Some "+66-000-0000");
         text_field "profile.shop_address" "ที่อยู่" "SHOP_ADDRESS"
                    (Some "Bangkok, Thailand") ];
     "payments" :=
       [ text_field "payments.promptpay_id" "PromptPay ID" "PROMPTPAY_ID" None;
         text_field "payments.promptpay_display" "PromptPay Display Name"
                    "PROMPTPAY_DISPLAY_NAME" None;
         text_field "payments.stripe_public" "Stripe Publishable Key"
                    "STRIPE_PUBLIC_KEY" None;
         text_field "payments.stripe_secret" "Stripe Secret Key"
                    "STRIPE_SECRET_KEY" None ];
     "seo" :=
       [ text_field "seo.meta_title" "Default Meta Title" "SEO_META_TITLE" None;
         text_field "seo.meta_description" "Default Meta Description"
                    "SEO_META_DESCRIPTION" None;
         text_field "seo.og_image" "Open Graph Image URL" "SEO_OG_IMAGE" None ];
     "operations" :=
       [ text_field "ops.currency" "สกุลเงินหลัก" "CURRENCY" (Some "THB");
         number_field "ops.shipping_domestic" "ค่าส่งภายในประเทศ (บาท)"
                      "DEFAULT_SHIPPING_DOMESTIC" 150;
         number_field "ops.shipping_international" "ค่าส่งต่างประเทศ (บาท)"
                      "DEFAULT_SHIPPING_INTERNATIONAL" 650 ] ]}.

(** The table [settings] and the configuration of the application. *)
Record State := {
  settings : gmap string (option string);
  config : gmap string Value
}.

Section Save.

(** [str.strip], [float] on a string ([None] when it raises
    [ValueError]), the format [.2f] and [str] on a number belong to
    Python. *)
Variable strip : string -> string.
Variable float : string -> option Q.
Variable format_2f : Q -> string.
Variable str_of_float : Q -> string.

Definition str (v : Value) : string :=
  match v with
  | Text s => s
  | Number x => str_of_float x
  end.

(** One turn of the first loop of [save_settings], over [errors] and
    [updates]. *)
Definition check_field (form_data : gmap string string)
    (acc : list string * list (SettingField * string * Value)) (field : SettingField)
  : list string * list (SettingField * string * Value) :=
  let '(errors, updates) := acc in
  let raw_value := strip (default "" (form_data !! key field)) in
  if cast_is_float field
  then
    if Py.str_eq raw_value ""
    then
      let config_value := default 0%Q (empty_value field) in
      (errors, updates ++ [(field, format_2f config_value, Number config_value)])
    else
      match float raw_value with
      | None => (errors ++ [label field +:+ " ต้องเป็นตัวเลข"], updates)
      | Some casted => (errors, updates ++ [(field, format_2f casted, Number casted)])
      end
  else
    match field_default field with
    | Some field_default =>
        if Py.str_eq raw_value ""
        then (errors, updates ++ [(field, str field_default, field_default)])
        else (errors, updates ++ [(field, raw_value, Text raw_value)])
    | None => (errors, updates ++ [(field, raw_value, Text raw_value)])
    end.

(** One turn of its second loop. *)
Definition apply_update (st : State) (update : SettingField * string * Value) : State :=
  let '(field, stored_value, config_value) := update in
  {| settings :=
       match settings st !! key field with
       | Some _ => alter (fun _ => Some stored_value) (key field) (settings st)
       | None => <[key field := Some stored_value]> (settings st)
       end;
     config :=
       if Py.truthy_str (config_key field)
       then <[default "" (config_key field) := config_value]> (config st)
       else config st |}.

Definition save_settings (tab : string) (form_data : gmap string string) (st : State)
  : State * list string :=
  match SETTINGS_SCHEMA !! tab with
  | None => (st, ["ไม่พบหมวดการตั้งค่าที่เลือก"])
  | Some fields =>
      let '(errors, updates) := fold_left (check_field form_data) fields ([], []) in
      match errors with
      | _ :: _ => (st, errors)
      | [] => (fold_left apply_update updates st, [])
      end
  end.

End Save.

End Settings.

(** ** Reference notions of the specification

    These follow the words of the specification, not the code: the
    checksum it names, and how a reader takes a field out of a payload. *)

Module Reference.

(** The bits of a character, the most significant first. *)
Definition bits_msb_first (c : ascii) : list bool :=
  let '(Ascii b0 b1 b2 b3 b4 b5 b6 b7) := c in [b7; b6; b5; b4; b3; b2; b1; b0].

(** CRC-16/CCITT-FALSE as a 16-bit shift register fed one message bit
    at a time: polynomial 0x1021, no reflection. *)
Definition lfsr_step (reg : Z) (b : bool) : Z :=
  let feedback := xorb (Z.testbit reg 15) b in
  let reg := (2 * reg) mod 2 ^ 16 in
  if feedback then Z.lxor reg 0x1021 else reg.

(** Initial value 0xFFFF, no final XOR. *)
Definition crc16_ccitt_false (data : string) : Z :=
  fold_left lfsr_step (flat_map bits_msb_first (list_ascii_of_string data)) 0xFFFF.

(** The value of a digit character, in either case. *)
Definition digit_value (c : ascii) : option Z :=
  let n := Z.of_N (N_of_ascii c) in
  if (48 <=? n) && (n <=? 57) then Some (n - 48)
  else if (97 <=? n) && (n <=? 102) then Some (n - 87)
  else if (65 <=? n) && (n <=? 70) then Some (n - 55)
  else None.

(** The number a string of digits of base [b] denotes, after [acc]. *)
Fixpoint value_from (b acc : Z) (s : string) : option Z :=
  match s with
  | "" => Some acc
  | String c s' =>
      match digit_value c with
      | Some d => if d <? b then value_from b (acc * b + d) s' else None
      | None => None
      end
  end.

Definition dec_value (s : string) : option Z := value_from 10 0 s.
Definition hex_value (s : string) : option Z := value_from 16 0 s.

(** A payload read as a sequence of fields: a two-character tag, a
    two-digit length, and that many characters of value. *)
Fixpoint tlv_parse (fuel : nat) (s : string) : option (list (string * string)) :=
  match fuel with
  | O => None
  | S fuel' =>
      match s with
      | "" => Some []
      | _ =>
          let tag := Py.take 2 s in
          let len := Py.take 2 (Py.drop 2 s) in
          let rest := Py.drop 4 s in
          match dec_value len with
          | Some n =>
              if (String.length len =? 2)%nat
                 && (Z.to_nat n <=? String.length rest)%nat
              then (fun fields => (tag, Py.take (Z.to_nat n) rest) :: fields)
                     <$> tlv_parse fuel' (Py.drop (Z.to_nat n) rest)
              else None
          | None => None
          end
      end
  end.

Definition tlv_fields (s : string) : option (list (string * string)) :=
  tlv_parse (S (String.length s)) s.

(** The value of the first field with the given tag. *)
Definition tlv_lookup (tag : string) (s : string) : option string :=
  tlv_fields s ≫= (fun fields =>
    snd <$> find (fun f => Py.str_eq (fst f) tag) fields).

(** The amount field as the specification words it: the amount cut
    down to whole units, in six digits. *)
Definition truncated_amount_field (amount : Q) : string :=
  Py.format_0d 6 (Qfloor amount).

(** The quantity the lines of an order hold of one variant. *)
Definition restocked (variant_id : Z) (items : list OrderItem.t) : Z :=
  fold_right Z.add 0
    (map OrderItem.qty
         (filter (fun item => OrderItem.variant_id item = variant_id) items)).

(** The quantity the lines of a cart hold of one variant. *)
Definition in_cart (variant_id : Z) (lines : list CartItem.t) : Z :=
  fold_right Z.add 0
    (map CartItem.qty
         (filter (fun line => CartItem.variant_id line = variant_id) lines)).

(** A line of an order that records a line of a cart. *)
Definition records (line : CartItem.t) (item : OrderItem.t) : Prop :=
  OrderItem.variant_id item = CartItem.variant_id line
  /\ OrderItem.qty item = CartItem.qty line
  /\ OrderItem.unit_price item = CartItem.price_at line
  /\ OrderItem.total_price item = CartItem.total_price line.

(** No two posts under one slug: what the column's [unique=True]
    asks of the table. *)
Definition slugs_unique (posts : gmap Z BlogPost.t) : Prop :=
  forall i j p q,
    posts !! i = Some p -> posts !! j = Some q ->
    BlogPost.slug p = BlogPost.slug q -> i = j.

(** The names [blog_create] tries, in order: the base, then the base
    followed by [-2], [-3] and so on. [blog_edit] tries the same
    without the first. *)
Definition slug_candidate (base_slug : string) (i : nat) : string :=
  match i with
  | O => base_slug
  | S i => base_slug +:+ "-" +:+ AdminBlog.str_of_int (Z.of_nat i + 2)
  end.

(** The slugs in use, and those in use by the posts other than one. *)
Definition slugs (posts : gmap Z BlogPost.t) : list string :=
  (fun row => BlogPost.slug (snd row)) <$> map_to_list posts.

Definition slugs_of_others (post_id : Z) (posts : gmap Z BlogPost.t) : list string :=
  (fun row => BlogPost.slug (snd row))
    <$> filter (fun row => fst row <> post_id) (map_to_list posts).

(** What the body of the loop of the price filter decides for one
    product. *)
Definition kept_by_price (price_min price_max : option Q)
    (product : Product.t * option Variant.t) : bool :=
  match snd product with
  | None => false
  | Some variant =>
      negb (Py.truthy_Q price_min
            && (if Qlt_le_dec (Variant.price variant) (default 0%Q price_min)
                then true else false))
      && negb (Py.truthy_Q price_max
               && (if Qlt_le_dec (default 0%Q price_max) (Variant.price variant)
                   then true else false))
  end.

(** The character of 8 bits that a code point has as its low byte. *)
Definition low_byte (code : Z) : ascii := ascii_of_N (Z.to_N (code mod 256)).

End Reference.

(** ** The loop of [_crc16], one shift at a time

    The code puts a whole character in the high byte of the register
    and then shifts eight times. To compare it with the reference
    register, the part of the character not yet consumed is followed on
    its own. *)

Module CrcLoop.

(** What is left of the character after [k] shifts. *)
Definition advance (k : nat) (m : Z) : Z :=
  Nat.iter k (fun m => Z.land (Z.shiftl m 1) 0xFFFF) m.

(** The bits that have left it, in the order they left. *)
Definition fed_bits (k : nat) (m : Z) : list bool :=
  map (fun i => Z.testbit (advance i m) 15) (seq 0 k).

End CrcLoop.

(** ** Sample data *)

Module Samples.

Definition coupon_percent_150 : Coupon.t :=
  {| Coupon.type := "percent"; Coupon.value := 150;
     Coupon.min_subtotal := None; Coupon.max_uses := None;
     Coupon.used_count := 0; Coupon.start_at := None; Coupon.end_at := None;
     Coupon.is_active := true |}.

Definition coupon_percent_20 : Coupon.t :=
  {| Coupon.type := "percent"; Coupon.value := 20;
     Coupon.min_subtotal := None; Coupon.max_uses := None;
     Coupon.used_count := 0; Coupon.start_at := None; Coupon.end_at := None;
     Coupon.is_active := true |}.

Definition coupon_cap (cap used : Z) : Coupon.t :=
  {| Coupon.type := "fixed"; Coupon.value := 50;
     Coupon.min_subtotal := None; Coupon.max_uses := Some cap;
     Coupon.used_count := used; Coupon.start_at := None; Coupon.end_at := None;
     Coupon.is_active := true |}.

Definition product_sold : Product.t :=
  {| Product.sku := "BETTA-20240101-01"; Product.title_th := None;
     Product.title_en := Some "Koi HM Betta #01"; Product.status := "sold" |}.

Definition variant_stock (n : Z) : Variant.t :=
  {| Variant.product_id := 1; Variant.price := 900; Variant.stock_qty := n;
     Variant.weight_grams := None; Variant.attributes_json := Some "{}" |}.

Definition item_qty (n : Z) : OrderItem.t :=
  {| OrderItem.variant_id := 7; OrderItem.title_snapshot := Some "Koi HM Betta #01";
     OrderItem.attrs_snapshot := Some "{}"; OrderItem.qty := n;
     OrderItem.unit_price := 900; OrderItem.total_price := 900 * inject_Z n |}.

Definition payment_init : Payment.t :=
  {| Payment.method := "promptpay"; Payment.ref := None; Payment.amount := 1050;
     Payment.status := "init"; Payment.paid_at := None; Payment.slip_url := None |}.

Definition shipment_sent : Shipment.t :=
  {| Shipment.carrier := Some "Kerry Express";
     Shipment.tracking_no := Some "KR20240102-00001";
     Shipment.label_url := Some "/static/labels/placeholder.pdf";
     Shipment.status := Some "shipped"; Shipment.shipped_at := Some 1704153600;
     Shipment.received_at := None |}.

Definition order_with (status : string) (items : list OrderItem.t)
    (payments : list Payment.t) (shipment : option Shipment.t) : Order.t :=
  {| Order.order_no := "BT20240101120000042"; Order.status := status;
     Order.payment_method := Some "promptpay"; Order.subtotal := 900;
     Order.shipping_fee := 150; Order.discount := 0; Order.grand_total := 1050;
     Order.currency := "THB"; Order.items := items; Order.payments := payments;
     Order.shipment := shipment |}.

Definition db_with (stock : Z) (order : Order.t) : DB :=
  {| products := {[ 1 := product_sold ]};
     variants := {[ 7 := variant_stock stock ]};
     carts := ∅;
     orders := {[ 1 := order ]};
     coupons := ∅ |}.

Definition world_with_cart : Store.World :=
  {| Store.db :=
       {| products := {[ 1 := Product.with_status "active" product_sold ]};
          variants := {[ 7 := variant_stock 1 ]};
          carts := {[ 3 := {| Cart.session_id := Some "5f2c";
                              Cart.items :=
                                [ {| CartItem.variant_id := 7; CartItem.qty := 1;
                                     CartItem.price_at := 900 |} ] |} ]};
          orders := ∅;
          coupons := {[ "WELCOME" := coupon_percent_20 ]} |};
     Store.session := {| Store.cart_id := Some 3; Store.session_id := Some "5f2c" |} |}.

Definition form_stripe : Store.Form :=
  {| Store.country := Some "TH"; Store.coupon := Some "WELCOME";
     Store.payment_method := Some "stripe" |}.

(** The card provider refuses every creation. *)
Definition env_provider_down : Store.Env :=
  {| Store.utcnow := 1704110400; Store.utcnow_stamp := "20240101120000";
     Store.randbelow_999 := 42; Store.uuid4_hex := "00000000000000000000000000000000";
     Store.DEFAULT_SHIPPING_DOMESTIC := 150;
     Store.DEFAULT_SHIPPING_INTERNATIONAL := 650;
     Store.STRIPE_SECRET_KEY := "sk_test";
     Store.PaymentIntent_create := fun _ _ _ => Py.Raise Py.StripeError |}.

Definition promptpay_10_60 : Payments.PromptPayPayload :=
  {| Payments.promptpay_id := "0812345678"; Payments.amount := 106 # 10;
     Payments.merchant_name := "Betta Shop" |}.

Definition form_promptpay : Store.Form :=
  {| Store.country := Some "TH"; Store.coupon := Some "WELCOME";
     Store.payment_method := None |}.

(** The world of [world_with_cart] with a cart of three of a variant in
    stock once, and as coupon one that is switched off. *)
Definition world_overselling : Store.World :=
  {| Store.db :=
       {| products := {[ 1 := Product.with_status "active" product_sold ]};
          variants := {[ 7 := variant_stock 1 ]};
          carts := {[ 3 := {| Cart.session_id := Some "5f2c";
                              Cart.items :=
                                [ {| CartItem.variant_id := 7; CartItem.qty := 3;
                                     CartItem.price_at := 900 |} ] |} ]};
          orders := {[ 1 := order_with "paid" [] [] None ]};
          coupons :=
            {[ "WELCOME" :=
                 {| Coupon.type := "percent"; Coupon.value := 20;
                    Coupon.min_subtotal := None; Coupon.max_uses := None;
                    Coupon.used_count := 4; Coupon.start_at := None;
                    Coupon.end_at := None; Coupon.is_active := false |} ]} |};
     Store.session := {| Store.cart_id := Some 3; Store.session_id := Some "5f2c" |} |}.

(** A payment by card waiting for the provider. *)
Definition payment_card : Payment.t :=
  {| Payment.method := "stripe"; Payment.ref := Some "pi_3OxT";
     Payment.amount := 1050; Payment.status := "requires_payment_method";
     Payment.paid_at := None; Payment.slip_url := None |}.

Definition intent_succeeded : Store.RetrievedIntent :=
  {| Store.intent_status := "succeeded";
     Store.intent_amount_received := Some 105000;
     Store.intent_amount := Some 105000 |}.

Definition post_care : BlogPost.t :=
  {| BlogPost.title := "Betta care"; BlogPost.slug := "betta-care";
     BlogPost.content := "Change the water weekly.";
     BlogPost.hero_image := None; BlogPost.published_at := Some 1704110400;
     BlogPost.is_published := true |}.

Definition form_care : AdminBlog.Form :=
  {| AdminBlog.title := Some "Betta care"; AdminBlog.slug := Some "betta-care";
     AdminBlog.content := Some "Feed twice a day.";
     AdminBlog.hero_image := None; AdminBlog.is_published := Some "on" |}.

(** The intent the card provider makes for 870.00. *)
Definition intent_created : Stripe.Intent :=
  {| Stripe.id := "pi_3OxT"; Stripe.status := "requires_payment_method";
     Stripe.amount := Some 87000 |}.

(** The card provider accepts every creation. *)
Definition env_provider_up : Store.Env :=
  {| Store.utcnow := 1704110400; Store.utcnow_stamp := "20240101120000";
     Store.randbelow_999 := 42; Store.uuid4_hex := "00000000000000000000000000000000";
     Store.DEFAULT_SHIPPING_DOMESTIC := 150;
     Store.DEFAULT_SHIPPING_INTERNATIONAL := 650;
     Store.STRIPE_SECRET_KEY := "sk_test";
     Store.PaymentIntent_create := fun _ _ _ => Py.Return intent_created |}.

(** Two days later, with another random suffix: the order number made
    is [BT20240103093000007]. The card provider still refuses. *)
Definition env_later : Store.Env :=
  {| Store.utcnow := 1704274200; Store.utcnow_stamp := "20240103093000";
     Store.randbelow_999 := 7; Store.uuid4_hex := "00000000000000000000000000000000";
     Store.DEFAULT_SHIPPING_DOMESTIC := 150;
     Store.DEFAULT_SHIPPING_INTERNATIONAL := 650;
     Store.STRIPE_SECRET_KEY := "sk_test";
     Store.PaymentIntent_create := fun _ _ _ => Py.Raise Py.StripeError |}.

(** A second post, under the slug the first would take next. *)
Definition post_care_again : BlogPost.t :=
  {| BlogPost.title := "Betta care, again"; BlogPost.slug := "betta-care-2";
     BlogPost.content := "Keep the water warm.";
     BlogPost.hero_image := None; BlogPost.published_at := None;
     BlogPost.is_published := false |}.

Definition posts_two : gmap Z BlogPost.t :=
  <[2 := post_care_again]> {[ 1 := post_care ]}.

Definition variant_json (text : option string) : Variant.t :=
  {| Variant.product_id := 1; Variant.price := 900; Variant.stock_qty := 1;
     Variant.weight_grams := None; Variant.attributes_json := text |}.

(** An array in an array, a thousand deep: JSON that is well formed
    and nested beyond the recursion limit of the interpreter. *)
Definition deeply_nested : string :=
  Py.replicate_char 1000 "[" +:+ Py.replicate_char 1000 "]".

(** A stand-in for [json.loads] that answers as CPython does on the
    four texts it tells apart: the empty object, an array of one number,
    the deeply nested array, on which the decoder raises
    [RecursionError], and a text that is not JSON. *)
Definition loads_sample (s : string) : Py.result json :=
  if Py.str_eq s "{}" then Py.Return (JObject ∅)
  else if Py.str_eq s "[1]" then Py.Return (JArray [JNumber "1"])
  else if Py.str_eq s deeply_nested then Py.Raise (Py.OtherError "RecursionError")
  else Py.Raise Py.JSONDecodeError.

End Samples.

(** * Properties *)

(** ** Strings and the numbers they denote *)

Lemma string_app_cons (c : ascii) (s t : string) :
  String c s +:+ t = String c (s +:+ t).
Proof. reflexivity. Qed.

Lemma string_length_app (s t : string) :
  String.length (s +:+ t) = (String.length s + String.length t)%nat.
Proof.
  induction s as [|c s IH]; [reflexivity|].
  rewrite !string_app_cons. simpl. f_equal. exact IH.
Qed.

Lemma string_app_assoc (s t u : string) : (s +:+ t) +:+ u = s +:+ (t +:+ u).
Proof.
  induction s as [|c s IH]; [reflexivity|].
  rewrite !string_app_cons. simpl. f_equal. exact IH.
Qed.

Lemma length_replicate_char (n : nat) (c : ascii) :
  String.length (Py.replicate_char n c) = n.
Proof. induction n as [|n IH]; simpl; [reflexivity | by rewrite IH]. Qed.

Lemma length_pad_left (width : nat) (c : ascii) (s : string) :
  String.length (Py.pad_left width c s) = Nat.max width (String.length s).
Proof.
  unfold Py.pad_left. rewrite string_length_app, length_replicate_char. lia.
Qed.

Lemma take_app_length (s t : string) : Py.take (String.length s) (s +:+ t) = s.
Proof.
  induction s as [|c s IH]; [by destruct t|].
  rewrite string_app_cons. simpl. f_equal. exact IH.
Qed.

Lemma drop_app_length (s t : string) : Py.drop (String.length s) (s +:+ t) = t.
Proof.
  induction s as [|c s IH]; [reflexivity|].
  rewrite string_app_cons. simpl. exact IH.
Qed.

Lemma take_app_exact (n : nat) (s t : string) :
  String.length s = n -> Py.take n (s +:+ t) = s.
Proof. intros <-. apply take_app_length. Qed.

Lemma drop_app_exact (n : nat) (s t : string) :
  String.length s = n -> Py.drop n (s +:+ t) = t.
Proof. intros <-. apply drop_app_length. Qed.

Lemma upper_app (s t : string) : Py.upper (s +:+ t) = Py.upper s +:+ Py.upper t.
Proof.
  induction s as [|c s IH]; [reflexivity|].
  rewrite string_app_cons. simpl. rewrite string_app_cons. f_equal. exact IH.
Qed.

Lemma length_upper (s : string) : String.length (Py.upper s) = String.length s.
Proof. induction s as [|c s IH]; simpl; [reflexivity | by rewrite IH]. Qed.

Lemma digit_value_digit_char (d : Z) :
  0 <= d < 16 -> Reference.digit_value (Py.digit_char d) = Some d.
Proof.
  intros Hd.
  assert (d = 0 \/ d = 1 \/ d = 2 \/ d = 3 \/ d = 4 \/ d = 5 \/ d = 6 \/ d = 7
          \/ d = 8 \/ d = 9 \/ d = 10 \/ d = 11 \/ d = 12 \/ d = 13 \/ d = 14
          \/ d = 15) as Hcases by lia.
  repeat (destruct Hcases as [-> | Hcases]; [reflexivity|]).
  subst d. reflexivity.
Qed.

Lemma digit_value_upper_char (c : ascii) :
  Reference.digit_value (Py.upper_char c) = Reference.digit_value c.
Proof. destruct c as [[] [] [] [] [] [] [] []]; reflexivity. Qed.

Lemma value_from_upper (b acc : Z) (s : string) :
  Reference.value_from b acc (Py.upper s) = Reference.value_from b acc s.
Proof.
  revert acc. induction s as [|c s IH]; intros acc; simpl; [reflexivity|].
  rewrite digit_value_upper_char. destruct (Reference.digit_value c); [|reflexivity].
  case_match; [apply IH | reflexivity].
Qed.

Section Digits.

(** The base of the numeral: ten for the amount, sixteen for the
    checksum. *)
Variable b : Z.
Hypothesis base_range : 2 <= b <= 16.

Lemma value_from_zeros (k : nat) (s : string) :
  Reference.value_from b 0 (Py.replicate_char k "0" +:+ s) = Reference.value_from b 0 s.
Proof.
  induction k as [|k IH]; [reflexivity|].
  simpl Py.replicate_char. rewrite string_app_cons.
  cbn [Reference.value_from].
  change (Reference.digit_value "0") with (Some 0). cbn iota.
  destruct (Z.ltb_spec 0 b); [|lia]. exact IH.
Qed.

(** Dropping the last digit of a number of [k + 1] digits leaves [k]. *)
Lemma div_base_range (k : nat) (n : Z) :
  0 <= n < b ^ Z.of_nat (S (S k)) -> 0 <= n / b < b ^ Z.of_nat (S k).
Proof.
  intros Hn. split; [apply Z.div_pos; lia|].
  apply Z.div_lt_upper_bound; [lia|].
  replace (Z.of_nat (S (S k))) with (Z.succ (Z.of_nat (S k))) in Hn by lia.
  rewrite Z.pow_succ_r in Hn by lia. lia.
Qed.

Lemma value_from_last_digit (n : Z) (acc : string) :
  0 <= n ->
  Reference.value_from b (n / b) (String (Py.digit_char (n mod b)) acc)
  = Reference.value_from b n acc.
Proof.
  intros Hn. pose proof (Z.mod_pos_bound n b ltac:(lia)) as Hmod.
  cbn [Reference.value_from]. rewrite digit_value_digit_char by lia.
  destruct (Z.ltb_spec (n mod b) b); [|lia].
  f_equal. rewrite (Z.div_mod n b) at 3 by lia. lia.
Qed.

(** Reading back the digits [format] writes gives the number. *)
Lemma value_from_digits_aux (fuel : nat) (n : Z) (acc : string) :
  0 <= n < b ^ Z.of_nat (S fuel) ->
  Reference.value_from b 0 (Py.digits_aux b fuel n acc) = Reference.value_from b n acc.
Proof.
  assert (forall n acc, 0 <= n < b ->
            Reference.value_from b 0 (String (Py.digit_char (n mod b)) acc)
            = Reference.value_from b n acc) as Hone.
  { intros m acc' Hm. rewrite <- (value_from_last_digit m acc') by lia.
    by rewrite Z.div_small. }
  revert n acc. induction fuel as [|fuel IH]; intros n acc Hn.
  - simpl. apply Hone. change (Z.of_nat 1) with 1 in Hn. lia.
  - cbn [Py.digits_aux]. destruct (Z.ltb_spec n b) as [Hlt|Hge].
    + apply Hone. lia.
    + rewrite IH by (by apply div_base_range).
      apply value_from_last_digit. lia.
Qed.

Lemma digits_fuel_enough (n : Z) :
  0 <= n -> n < b ^ Z.of_nat (S (Z.to_nat (Z.log2 n))).
Proof.
  intros Hn.
  destruct (Z.eq_dec n 0) as [->|Hnz].
  - simpl. lia.
  - pose proof (Z.log2_spec n ltac:(lia)) as [_ Hlog].
    pose proof (Z.log2_nonneg n).
    replace (Z.of_nat (S (Z.to_nat (Z.log2 n)))) with (Z.succ (Z.log2 n)) by lia.
    eapply Z.lt_le_trans; [exact Hlog|].
    apply Z.pow_le_mono_l. lia.
Qed.

Lemma value_from_digits (n : Z) :
  0 <= n -> Reference.value_from b 0 (Py.digits b n) = Some n.
Proof.
  intros Hn. unfold Py.digits.
  rewrite value_from_digits_aux; [reflexivity|].
  split; [exact Hn | by apply digits_fuel_enough].
Qed.

(** A number below [b ^ k] is written in at most [k] digits. *)
Lemma length_digits_aux (fuel : nat) (k : nat) (n : Z) (acc : string) :
  0 <= n < b ^ Z.of_nat (S k) ->
  (String.length (Py.digits_aux b fuel n acc) <= S k + String.length acc)%nat.
Proof.
  revert k n acc. induction fuel as [|fuel IH]; intros k n acc Hn.
  - simpl. lia.
  - cbn [Py.digits_aux]. destruct (Z.ltb_spec n b) as [Hlt|Hge].
    + simpl. lia.
    + destruct k as [|k].
      * change (Z.of_nat 1) with 1 in Hn. lia.
      * specialize (IH k (n / b) (String (Py.digit_char (n mod b)) acc)
                       (div_base_range k n Hn)).
        simpl String.length in IH. lia.
Qed.

(** Below [b ^ width], [format] fills the width exactly and the text
    denotes the number. *)
Lemma format_int_exact (width : nat) (n : Z) :
  0 <= n < b ^ Z.of_nat (S width) ->
  String.length (Py.format_int b (S width) n) = S width
  /\ Reference.value_from b 0 (Py.format_int b (S width) n) = Some n.
Proof.
  intros Hn. unfold Py.format_int.
  destruct (Z.ltb_spec n 0) as [|_]; [lia|]. split.
  - rewrite length_pad_left.
    pose proof (length_digits_aux (Z.to_nat (Z.log2 n)) width n "" Hn) as Hlen.
    unfold Py.digits. simpl String.length in Hlen. lia.
  - unfold Py.pad_left. rewrite value_from_zeros.
    apply value_from_digits; lia.
Qed.

End Digits.

(** ** The checksum of the payload *)

Lemma mask16_mod (a : Z) : Z.land a 0xFFFF = a mod 2 ^ 16.
Proof. change 0xFFFF with (Z.ones 16). apply Z.land_ones. lia. Qed.

Lemma testbit_mask16 (a n : Z) :
  0 <= n -> Z.testbit (Z.land a 0xFFFF) n = Z.testbit a n && (n <? 16).
Proof.
  intros Hn. change 0xFFFF with (Z.ones 16). rewrite Z.land_spec. f_equal.
  destruct (Z.ltb_spec n 16).
  - apply Z.ones_spec_low. lia.
  - apply Z.ones_spec_high. lia.
Qed.

Lemma testbit_poly_high (n : Z) : 16 <= n -> Z.testbit Payments.poly n = false.
Proof. intros Hn. apply Z.bits_above_log2; [done|]. vm_compute Z.log2. lia. Qed.

Lemma top_bit_test (x : Z) : (Z.land x 0x8000 =? 0) = negb (Z.testbit x 15).
Proof.
  change 0x8000 with (Z.shiftl 1 15).
  destruct (Z.testbit x 15) eqn:Hb; simpl.
  - apply Z.eqb_neq. intros H.
    assert (Z.testbit (Z.land x (Z.shiftl 1 15)) 15 = true) as Hbit
      by (rewrite Z.land_spec, Hb; reflexivity).
    rewrite H in Hbit. discriminate.
  - apply Z.eqb_eq. apply Z.bits_inj'. intros n Hn.
    rewrite Z.land_spec, Z.bits_0.
    destruct (Z.eq_dec n 15) as [->|Hne].
    + by rewrite Hb.
    + rewrite Z.shiftl_spec by lia.
      destruct (Z.ltb_spec n 15).
      * rewrite (Z.testbit_neg_r 1) by lia. apply andb_false_r.
      * rewrite (Z.bits_above_log2 1 (n - 15)) by (simpl; lia). apply andb_false_r.
Qed.

(** Two registers are equal when they agree at every bit [n]; the bits
    of masks, shifts and exclusive-ors are pushed down to the operands. *)
Ltac bit_by_bit n :=
  apply Z.bits_inj'; intros n ?;
  repeat (rewrite ?Z.lxor_spec, ?testbit_mask16, ?Z.shiftl_spec by lia).

Ltac case_bits :=
  repeat match goal with
         | |- context [Z.testbit ?a ?i] => destruct (Z.testbit a i)
         end;
  reflexivity.

(** The loop of the code keeps the bits not yet fed in the register; one
    pass is one step of the reference register on the bit that leaves. *)
Lemma crc_shift_lxor (y m : Z) :
  Payments.crc_shift (Z.lxor y m)
  = Z.lxor (Reference.lfsr_step y (Z.testbit m 15)) (Z.land (Z.shiftl m 1) 0xFFFF).
Proof.
  unfold Payments.crc_shift, Reference.lfsr_step.
  rewrite top_bit_test, Z.lxor_spec.
  replace ((2 * y) mod 2 ^ 16) with (Z.land (Z.shiftl y 1) 0xFFFF)
    by (rewrite mask16_mod, Z.shiftl_mul_pow2 by lia; f_equal; lia).
  destruct (xorb (Z.testbit y 15) (Z.testbit m 15)); simpl;
    bit_by_bit n;
    destruct (Z.ltb_spec n 16);
    rewrite ?testbit_poly_high by lia;
    unfold Payments.poly; simpl Z.testbit;
    case_bits.
Qed.

Lemma fed_bits_succ (k : nat) (m : Z) :
  CrcLoop.fed_bits (S k) m
  = CrcLoop.fed_bits k m ++ [Z.testbit (CrcLoop.advance k m) 15].
Proof. unfold CrcLoop.fed_bits. rewrite seq_S, map_app. reflexivity. Qed.

Lemma iter_crc_shift (k : nat) (y m : Z) :
  Nat.iter k Payments.crc_shift (Z.lxor y m)
  = Z.lxor (fold_left Reference.lfsr_step (CrcLoop.fed_bits k m) y)
           (CrcLoop.advance k m).
Proof.
  induction k as [|k IH].
  - reflexivity.
  - rewrite fed_bits_succ, fold_left_app. simpl.
    rewrite IH. apply crc_shift_lxor.
Qed.

(** A character placed in the high byte feeds its eight bits, the most
    significant first, and nothing of it is left after eight shifts. *)
Lemma char_in_high_byte (c : ascii) :
  CrcLoop.fed_bits 8 (Z.shiftl (Py.ord c) 8) = Reference.bits_msb_first c
  /\ CrcLoop.advance 8 (Z.shiftl (Py.ord c) 8) = 0.
Proof.
  destruct c as [[] [] [] [] [] [] [] []]; split; vm_compute; reflexivity.
Qed.

Lemma crc_char_bits (crc : Z) (c : ascii) :
  Payments.crc_char crc c
  = fold_left Reference.lfsr_step (Reference.bits_msb_first c) crc.
Proof.
  unfold Payments.crc_char. rewrite iter_crc_shift.
  destruct (char_in_high_byte c) as [-> ->]. apply Z.lxor_0_r.
Qed.

Lemma fold_crc_char_bits (l : list ascii) (crc : Z) :
  fold_left Payments.crc_char l crc
  = fold_left Reference.lfsr_step (flat_map Reference.bits_msb_first l) crc.
Proof.
  revert crc. induction l as [|c l IH]; intros crc; simpl; [reflexivity|].
  rewrite fold_left_app, IH, crc_char_bits. reflexivity.
Qed.

(** The register the code ends with is the checksum of the
    specification. *)
Lemma crc16_register_is_ccitt_false (data : string) :
  Payments.crc16_register data = Reference.crc16_ccitt_false data.
Proof. apply fold_crc_char_bits. Qed.

Lemma crc_shift_range (crc : Z) : 0 <= Payments.crc_shift crc < 2 ^ 16.
Proof. unfold Payments.crc_shift. rewrite mask16_mod. apply Z.mod_pos_bound. lia. Qed.

Lemma crc16_register_range (data : string) :
  0 <= Payments.crc16_register data < 2 ^ 16.
Proof.
  unfold Payments.crc16_register.
  assert (forall l crc, 0 <= crc < 2 ^ 16 ->
            0 <= fold_left Payments.crc_char l crc < 2 ^ 16) as Hfold.
  { induction l as [|c l IH]; intros crc Hcrc; simpl; [exact Hcrc|].
    apply IH. unfold Payments.crc_char. simpl. apply crc_shift_range. }
  apply Hfold. lia.
Qed.

(** C6: the text [encode] returns is a body that ends with the trailer
    tag ["6304"], followed by exactly four hexadecimal characters; these
    denote the CRC-16/CCITT-FALSE checksum of the whole body. *)
Theorem encode_crc_trailer (self : Payments.PromptPayPayload) :
  exists body trailer,
    Payments.encode self = body +:+ trailer
    /\ (exists payload, body = payload +:+ "6304")
    /\ String.length trailer = 4%nat
    /\ Reference.hex_value trailer = Some (Reference.crc16_ccitt_false body).
Proof.
  exists (Payments.encode_payload self +:+ "6304"),
         (Py.upper (Payments._crc16 (Payments.encode_payload self +:+ "6304"))).
  pose proof (crc16_register_range (Payments.encode_payload self +:+ "6304")) as Hrange.
  destruct (format_int_exact 16 ltac:(lia) 3
              (Payments.crc16_register (Payments.encode_payload self +:+ "6304"))
              Hrange) as [Hlen Hval].
  split; [|split; [|split]].
  - unfold Payments.encode. symmetry. apply string_app_assoc.
  - eexists. reflexivity.
  - rewrite length_upper. exact Hlen.
  - unfold Reference.hex_value. rewrite value_from_upper.
    rewrite <- crc16_register_is_ccitt_false. exact Hval.
Qed.

Example crc16_check_value :
  Payments._crc16 "123456789" = "29b1"
  /\ Reference.crc16_ccitt_false "123456789" = 0x29B1.
Proof. split; reflexivity. Qed.

(** ** The amount field of the payload *)

Lemma string_app_nil_r (s : string) : s +:+ "" = s.
Proof.
  induction s as [|c s IH]; [reflexivity|].
  rewrite string_app_cons. f_equal. exact IH.
Qed.

(** One field read off the front of a payload. *)
Lemma tlv_parse_step (fuel : nat) (tag len v rest : string) :
  String.length tag = 2%nat ->
  String.length len = 2%nat ->
  Reference.dec_value len = Some (Z.of_nat (String.length v)) ->
  Reference.tlv_parse (S fuel) (tag +:+ len +:+ v +:+ rest)
  = (fun fields => (tag, v) :: fields) <$> Reference.tlv_parse fuel rest.
Proof.
  intros Htag Hlen Hval.
  destruct tag as [|a [|b [|? ?]]]; try discriminate.
  destruct len as [|c [|d [|? ?]]]; try discriminate.
  change (Reference.tlv_parse (S fuel)
            (String a (String b (String c (String d (v +:+ rest)))))
          = (fun fields => (String a (String b ""), v) :: fields)
              <$> Reference.tlv_parse fuel rest).
  cbn [Reference.tlv_parse Py.take Py.drop].
  rewrite Hval, Nat2Z.id. cbn [String.length Nat.eqb andb].
  rewrite take_app_length, drop_app_length.
  destruct (Nat.leb_spec (String.length v) (String.length (v +:+ rest))) as [_|Hbad];
    [reflexivity|].
  rewrite string_length_app in Hbad. lia.
Qed.

(** The payload is seven fields. *)
Lemma encode_fields (self : Payments.PromptPayPayload) :
  Payments.encode self
  = "00" +:+ "02" +:+ "01"
    +:+ "01" +:+ "02" +:+ "11"
    +:+ "29" +:+ "37"
        +:+ ("0016A000000677010111" +:+ "0113"
             +:+ Py.format_rjust0 13 (Payments.promptpay_id self))
    +:+ "58" +:+ "02" +:+ "TH"
    +:+ "53" +:+ "03" +:+ "764"
    +:+ "54" +:+ "06" +:+ Payments._to_promptpay_amount (Payments.amount self)
    +:+ "63" +:+ "04"
        +:+ Py.upper (Payments._crc16 (Payments.encode_payload self +:+ "6304"))
    +:+ "".
Proof.
  unfold Payments.encode. rewrite string_app_nil_r.
  set (crc := Py.upper _). unfold Payments.encode_payload.
  rewrite !string_app_assoc. reflexivity.
Qed.

Lemma py_round_nonneg (x : Q) : (0 <= x)%Q -> 0 <= Py.round x.
Proof.
  intros Hx. unfold Py.round.
  pose proof (Qfloor_resp_le 0 x Hx) as Hfloor. change (Qfloor 0) with 0 in Hfloor.
  repeat case_match; lia.
Qed.

(** [round] is within a half of its argument. *)
Lemma py_round_nearest (x : Q) :
  (x - (1 # 2) <= inject_Z (Py.round x) <= x + (1 # 2))%Q.
Proof.
  unfold Py.round.
  pose proof (Qfloor_le x) as Hlo. pose proof (Qlt_floor x) as Hhi.
  rewrite inject_Z_plus in Hhi. change (inject_Z 1) with 1%Q in Hhi.
  destruct (x - inject_Z (Qfloor x) ?= 1 # 2)%Q eqn:Hcmp.
  - apply Qeq_alt in Hcmp.
    destruct (Z.even (Qfloor x)); rewrite ?inject_Z_plus;
      change (inject_Z 1) with 1%Q; split; lra.
  - apply Qlt_alt in Hcmp. split; lra.
  - apply Qgt_alt in Hcmp. rewrite inject_Z_plus.
    change (inject_Z 1) with 1%Q. split; lra.
Qed.

(** On a tie the even neighbour is taken. *)
Lemma py_round_tie_even (x : Q) (k : Z) :
  (x == inject_Z k + (1 # 2))%Q -> Z.even (Py.round x) = true.
Proof.
  intros Hx. unfold Py.round.
  pose proof (Qfloor_le x) as Hlo. pose proof (Qlt_floor x) as Hhi.
  assert (Qfloor x = k) as Hk.
  { assert (inject_Z (Qfloor x) < inject_Z (k + 1))%Q as H1
      by (rewrite inject_Z_plus; change (inject_Z 1) with 1%Q; lra).
    assert (inject_Z k < inject_Z (Qfloor x + 1))%Q as H2 by lra.
    rewrite <- Zlt_Qlt in H1, H2. lia. }
  rewrite Hk.
  assert ((x - inject_Z k ?= 1 # 2)%Q = Eq) as -> by (apply Qeq_alt; lra).
  destruct (Z.even k) eqn:He; [exact He|].
  rewrite Z.even_add, He. reflexivity.
Qed.

(** More fuel does not change what a payload parses to. *)
Lemma tlv_parse_more_fuel (fuel fuel' : nat) (s : string)
    (fields : list (string * string)) :
  (fuel <= fuel')%nat ->
  Reference.tlv_parse fuel s = Some fields ->
  Reference.tlv_parse fuel' s = Some fields.
Proof.
  revert fuel' s fields. induction fuel as [|fuel IH]; intros fuel' s fields Hle Hparse.
  - discriminate.
  - destruct fuel' as [|fuel']; [lia|].
    cbn [Reference.tlv_parse] in *.
    destruct s as [|c s]; [exact Hparse|].
    destruct (Reference.dec_value _) as [n|]; [|discriminate].
    destruct (_ && _); [|discriminate].
    destruct (Reference.tlv_parse fuel _) as [rest|] eqn:Hrest; [|discriminate].
    rewrite (IH fuel' _ rest ltac:(lia) Hrest). exact Hparse.
Qed.

(** A well-formed field in front of a payload that parses. *)
Lemma tlv_fields_cons (tag len v rest : string) (fields : list (string * string)) :
  String.length tag = 2%nat ->
  String.length len = 2%nat ->
  Reference.dec_value len = Some (Z.of_nat (String.length v)) ->
  Reference.tlv_fields rest = Some fields ->
  Reference.tlv_fields (tag +:+ len +:+ v +:+ rest) = Some ((tag, v) :: fields).
Proof.
  intros Htag Hlen Hval Hrest. unfold Reference.tlv_fields in *.
  rewrite tlv_parse_step by assumption.
  assert (S (String.length rest) <= String.length (tag +:+ len +:+ v +:+ rest))%nat
    as Hfuel by (rewrite !string_length_app; lia).
  rewrite (tlv_parse_more_fuel _ _ _ _ Hfuel Hrest). reflexivity.
Qed.

(** C2, as stated, fails: an amount of 10.6 is written 000011, where
    cutting it down to whole units would give 000010. *)
Lemma amount_field_not_truncated :
  Reference.tlv_lookup "54" (Payments.encode Samples.promptpay_10_60)
  <> Some (Reference.truncated_amount_field (Payments.amount Samples.promptpay_10_60)).
Proof. vm_compute. discriminate. Qed.

(** Why the amended claim bounds the amount and the identifier: the
    width of [06d] is a minimum, and an identifier longer than its slot
    breaks the length announced by tag 29. *)
Example amount_field_wider_than_six :
  Payments._to_promptpay_amount 1234567 = "1234567".
Proof. reflexivity. Qed.

Example long_identifier_breaks_fields :
  Reference.tlv_fields
    (Payments.encode {| Payments.promptpay_id := "123456789012345";
                        Payments.amount := 10;
                        Payments.merchant_name := "Betta Shop" |})
  = None.
Proof. reflexivity. Qed.

Example amount_field_10_60 :
  Reference.tlv_lookup "54" (Payments.encode Samples.promptpay_10_60) = Some "000011"
  /\ Reference.truncated_amount_field (106 # 10) = "000010".
Proof. split; reflexivity. Qed.

(** C2, amended: for a payee identifier of at most 13 characters and a
    non-negative amount that rounds below one million, the amount field
    (tag 54) is six decimal digits that denote the amount rounded to the
    nearest whole unit, a tie going to the even one. *)
Theorem amount_field_rounded (self : Payments.PromptPayPayload) :
  (String.length (Payments.promptpay_id self) <= 13)%nat ->
  (0 <= Payments.amount self)%Q ->
  Py.round (Payments.amount self) < 1000000 ->
  exists field units,
    Reference.tlv_lookup "54" (Payments.encode self) = Some field
    /\ String.length field = 6%nat
    /\ Reference.dec_value field = Some units
    /\ (Payments.amount self - (1 # 2) <= inject_Z units
        <= Payments.amount self + (1 # 2))%Q
    /\ (forall k, (Payments.amount self == inject_Z k + (1 # 2))%Q ->
                  Z.even units = true).
Proof.
  intros Hid Hpos Hbig.
  pose proof (py_round_nonneg _ Hpos) as Hnonneg.
  destruct (format_int_exact 10 ltac:(lia) 5 (Py.round (Payments.amount self))
              ltac:(change (10 ^ Z.of_nat 6) with 1000000; lia))
    as [Hlen Hval].
  destruct (format_int_exact 16 ltac:(lia) 3
              (Payments.crc16_register (Payments.encode_payload self +:+ "6304"))
              (crc16_register_range _)) as [Hcrc _].
  exists (Payments._to_promptpay_amount (Payments.amount self)),
         (Py.round (Payments.amount self)).
  split; [|split; [exact Hlen | split; [exact Hval | split]]].
  - unfold Reference.tlv_lookup. rewrite encode_fields.
    match goal with
    | |- Reference.tlv_fields ?s ≫= _ = _ =>
        assert (Reference.tlv_fields s
                = Some [("00", "01"); ("01", "11");
                        ("29", "0016A000000677010111" +:+ "0113"
                               +:+ Py.format_rjust0 13 (Payments.promptpay_id self));
                        ("58", "TH"); ("53", "764");
                        ("54", Payments._to_promptpay_amount (Payments.amount self));
                        ("63", Py.upper (Payments._crc16
                                           (Payments.encode_payload self +:+ "6304")))])
          as ->; [|reflexivity]
    end.
    apply tlv_fields_cons; [reflexivity | reflexivity | reflexivity |].
    apply tlv_fields_cons; [reflexivity | reflexivity | reflexivity |].
    apply tlv_fields_cons; [reflexivity | reflexivity | |].
    { rewrite !string_length_app. unfold Py.format_rjust0.
      rewrite length_pad_left.
      replace (Nat.max 13 (String.length (Payments.promptpay_id self))) with 13%nat by lia.
      reflexivity. }
    apply tlv_fields_cons; [reflexivity | reflexivity | reflexivity |].
    apply tlv_fields_cons; [reflexivity | reflexivity | reflexivity |].
    apply tlv_fields_cons; [reflexivity | reflexivity | |].
    { unfold Payments._to_promptpay_amount, Py.format_0d. by rewrite Hlen. }
    apply tlv_fields_cons; [reflexivity | reflexivity | | reflexivity].
    rewrite length_upper. unfold Payments._crc16, Py.format_0x. by rewrite Hcrc.
  - apply py_round_nearest.
  - intros k. apply py_round_tie_even.
Qed.

Lemma amount_field_rounded_witness :
  exists field units,
    Reference.tlv_lookup "54" (Payments.encode Samples.promptpay_10_60) = Some field
    /\ String.length field = 6%nat
    /\ Reference.dec_value field = Some units
    /\ (Payments.amount Samples.promptpay_10_60 - (1 # 2) <= inject_Z units
        <= Payments.amount Samples.promptpay_10_60 + (1 # 2))%Q
    /\ (forall k, (Payments.amount Samples.promptpay_10_60 == inject_Z k + (1 # 2))%Q ->
                  Z.even units = true).
Proof.
  apply (amount_field_rounded Samples.promptpay_10_60).
  - simpl. lia.
  - vm_compute. discriminate.
  - reflexivity.
Defined.

(** ** Coupons *)

Lemma py_min_le_r (a b : Q) : (Py.min a b <= b)%Q.
Proof.
  unfold Py.min. destruct (Qlt_le_dec b a) as [H|H].
  - apply Qle_refl.
  - exact H.
Qed.

(** The percentage branch stays within the subtotal exactly when
    [subtotal * (value - 100)] is not positive. *)
Lemma percent_discount_le_iff (subtotal value : Q) :
  (subtotal * (value / 100) <= subtotal <-> subtotal * (value - 100) <= 0)%Q.
Proof.
  assert (E : (subtotal * (value / 100) == subtotal * value * (1 # 100))%Q)
    by (field).
  rewrite E. split; intros H; nra.
Qed.

(** C1, as stated, fails: a percentage coupon of 150 on a subtotal of
    100 gives a discount of 150. *)
Lemma discount_amount_exceeds_subtotal :
  ~ (Coupon.discount_amount Samples.coupon_percent_150 100 <= 100)%Q.
Proof. vm_compute. intros H. apply H. reflexivity. Qed.

(** C1, amended: a coupon of any other type than ["percent"] never
    discounts more than the subtotal; a percentage coupon does not as
    long as the subtotal is not negative and the percentage is at most
    100. *)
Theorem discount_amount_le_subtotal (c : Coupon.t) (subtotal : Q) :
  (Coupon.type c = "percent" -> (0 <= subtotal)%Q /\ (Coupon.value c <= 100)%Q) ->
  (Coupon.discount_amount c subtotal <= subtotal)%Q.
Proof.
  intros H. unfold Coupon.discount_amount, Py.str_eq.
  destruct (String.eqb_spec (Coupon.type c) "percent") as [E|E].
  - destruct (H E) as [H0 H100].
    apply percent_discount_le_iff. nra.
  - apply py_min_le_r.
Qed.

Lemma discount_amount_le_subtotal_witness :
  (Coupon.discount_amount Samples.coupon_percent_20 100 <= 100)%Q.
Proof.
  apply (discount_amount_le_subtotal Samples.coupon_percent_20 100).
  intros _. split; vm_compute; discriminate.
Defined.

(** C3, as stated, fails at a cap of 0: the coupon has been used 0
    times, which is at the cap, and it is still valid. *)
Lemma is_valid_cap_zero :
  Coupon.max_uses (Samples.coupon_cap 0 0) = Some 0
  /\ 0 <= Coupon.used_count (Samples.coupon_cap 0 0)
  /\ Coupon.is_valid 0 (Samples.coupon_cap 0 0) 100 (Some 0) <> false.
Proof. split; [reflexivity | split; [reflexivity | discriminate]]. Qed.

(** C3, amended: a cap that is set and is not 0, once reached, makes the
    coupon invalid for every subtotal and every time. *)
Theorem is_valid_cap_reached (utcnow : Z) (c : Coupon.t) (cap : Z)
    (subtotal : Q) (now : option Z) :
  Coupon.max_uses c = Some cap ->
  cap <> 0 ->
  cap <= Coupon.used_count c ->
  Coupon.is_valid utcnow c subtotal now = false.
Proof.
  intros Hcap Hnz Hused. unfold Coupon.is_valid.
  rewrite Hcap. simpl.
  destruct (Z.eqb_spec cap 0) as [|_]; [contradiction|].
  destruct (Z.leb_spec cap (Coupon.used_count c)) as [_|]; [|lia].
  simpl. repeat case_match; reflexivity.
Qed.

Lemma is_valid_cap_reached_witness :
  Coupon.is_valid 0 (Samples.coupon_cap 3 3) 100 None = false.
Proof.
  apply (is_valid_cap_reached 0 (Samples.coupon_cap 3 3) 3 100 None).
  - reflexivity.
  - discriminate.
  - discriminate.
Defined.

(** ** Variant attributes *)

(** C10 as the specification words it fails twice. Reading
    [attributes] raises when [json.loads] raises something else than
    [JSONDecodeError], as it does on text nested beyond the recursion
    limit; and what it returns for JSON that is not an object is not a
    map. *)
Lemma attributes_raises :
  Variant.attributes Samples.loads_sample
    (Samples.variant_json (Some Samples.deeply_nested))
  = Py.Raise (Py.OtherError "RecursionError")
  /\ Variant.attributes Samples.loads_sample (Samples.variant_json (Some "[1]"))
     = Py.Return (JArray [JNumber "1"])
  /\ (forall m, JArray [JNumber "1"] <> JObject m).
Proof. split; [|split]; [vm_compute; reflexivity | reflexivity | discriminate]. Qed.

(** C10, amended: whatever [json.loads] does, reading [attributes]
    returns the empty map when [attributes_json] is absent or empty and
    when [json.loads] rejects the text with [JSONDecodeError]; it
    returns what [json.loads] returns, as it is, when it returns; and it
    raises only what [json.loads] raises other than [JSONDecodeError],
    which it does not catch. *)
Theorem attributes_outcome (json_loads : string -> Py.result json) (self : Variant.t) :
  (Variant.attributes_json self = None \/ Variant.attributes_json self = Some "" ->
   Variant.attributes json_loads self = Py.Return (JObject ∅))
  /\ (forall s,
        Variant.attributes_json self = Some s -> s <> "" ->
        (json_loads s = Py.Raise Py.JSONDecodeError ->
         Variant.attributes json_loads self = Py.Return (JObject ∅))
        /\ (forall parsed,
              json_loads s = Py.Return parsed ->
              Variant.attributes json_loads self = Py.Return parsed)
        /\ (forall e,
              json_loads s = Py.Raise e -> e <> Py.JSONDecodeError ->
              Variant.attributes json_loads self = Py.Raise e))
  /\ (forall e,
        Variant.attributes json_loads self = Py.Raise e ->
        e <> Py.JSONDecodeError
        /\ exists s, Variant.attributes_json self = Some s /\ s <> ""
                     /\ json_loads s = Py.Raise e).
Proof.
  unfold Variant.attributes.
  destruct (Variant.attributes_json self) as [[|c s]|]; simpl.
  - split; [done|]. split; [by intros ? [= <-]|]. discriminate.
  - split; [by intros [|]|]. split.
    + intros ? [= <-] _.
      split; [by intros ->|]. split; [by intros parsed ->|].
      intros e -> Hne. by destruct e.
    + intros e Hraise.
      destruct (json_loads (String c s)) as [v|e'] eqn:Hloads; [done|].
      destruct e'; try done; injection Hraise as <-;
        (split; [done|]); by exists (String c s).
  - split; [done|]. split; [discriminate|]. discriminate.
Qed.

(** ** The stock ledger *)

Lemma with_stock_qty_same (v : Variant.t) (n : Z) :
  n = Variant.stock_qty v -> Variant.with_stock_qty n v = v.
Proof. intros ->. destruct v; reflexivity. Qed.

Lemma with_stock_qty_twice (v : Variant.t) (n m : Z) :
  Variant.with_stock_qty n (Variant.with_stock_qty m v) = Variant.with_stock_qty n v.
Proof. reflexivity. Qed.

Lemma reduce_stock_lookup (target : OrderItem.t) (table : gmap Z Variant.t) (v : Variant.t) :
  table !! OrderItem.variant_id target = Some v ->
  reduce_stock target table !! OrderItem.variant_id target
  = Some (Variant.with_stock_qty (Variant.stock_qty v - OrderItem.qty target) v).
Proof.
  intros Hv. unfold reduce_stock.
  destruct (Z.eqb_spec (OrderItem.qty target) 0) as [E|E]; simpl.
  - rewrite Hv, E, with_stock_qty_same; [reflexivity | lia].
  - rewrite lookup_alter_eq, Hv. reflexivity.
Qed.

Lemma restore_stock_lookup (target : OrderItem.t) (table : gmap Z Variant.t) (v : Variant.t) :
  table !! OrderItem.variant_id target = Some v ->
  restore_stock target table !! OrderItem.variant_id target
  = Some (Variant.with_stock_qty (Variant.stock_qty v + OrderItem.qty target) v).
Proof.
  intros Hv. unfold restore_stock.
  destruct (Z.eqb_spec (OrderItem.qty target) 0) as [E|E]; simpl.
  - rewrite Hv, E, with_stock_qty_same; [reflexivity | lia].
  - rewrite lookup_alter_eq, Hv. reflexivity.
Qed.

(** The listeners leave every other variant alone. *)
Lemma reduce_stock_other (target : OrderItem.t) (table : gmap Z Variant.t) (i : Z) :
  i <> OrderItem.variant_id target ->
  reduce_stock target table !! i = table !! i.
Proof.
  intros Hi. unfold reduce_stock. case_match; [|reflexivity].
  apply lookup_alter_ne. congruence.
Qed.

Lemma restore_stock_other (target : OrderItem.t) (table : gmap Z Variant.t) (i : Z) :
  i <> OrderItem.variant_id target ->
  restore_stock target table !! i = table !! i.
Proof.
  intros Hi. unfold restore_stock. case_match; [|reflexivity].
  apply lookup_alter_ne. congruence.
Qed.

Lemma restore_reduce_stock (target : OrderItem.t) (table : gmap Z Variant.t) :
  restore_stock target (reduce_stock target table) = table.
Proof.
  apply map_eq. intros i.
  destruct (decide (i = OrderItem.variant_id target)) as [->|Hi].
  - destruct (table !! OrderItem.variant_id target) as [v|] eqn:Hv.
    + erewrite restore_stock_lookup by (apply reduce_stock_lookup; eassumption).
      simpl. rewrite with_stock_qty_twice, with_stock_qty_same; [reflexivity | lia].
    + unfold restore_stock, reduce_stock.
      repeat case_match; rewrite ?lookup_alter_eq, ?Hv; simpl;
        rewrite ?lookup_alter_eq, ?Hv; reflexivity.
  - rewrite restore_stock_other, reduce_stock_other by assumption. reflexivity.
Qed.

Lemma delete_after_append {A} (l : list A) (x : A) : delete (length l) (l ++ [x]) = l.
Proof. induction l as [|a l IH]; simpl; [reflexivity | by rewrite IH]. Qed.

(** C5: an [OrderItem] of quantity N inserted for a variant moves its
    [stock_qty] from s to s - N; one deleted moves it from s to s + N;
    and deleting the item just inserted gives the database back as it
    was, so [stock_qty] is s again. *)
Theorem stock_ledger_round_trip (db : DB) (order_id : Z) (order : Order.t)
    (target : OrderItem.t) (v : Variant.t) :
  orders db !! order_id = Some order ->
  variants db !! OrderItem.variant_id target = Some v ->
  variants (insert_order_item order_id target db) !! OrderItem.variant_id target
  = Some (Variant.with_stock_qty (Variant.stock_qty v - OrderItem.qty target) v)
  /\ (forall i, Order.items order !! i = Some target ->
        variants (delete_order_item order_id i db) !! OrderItem.variant_id target
        = Some (Variant.with_stock_qty (Variant.stock_qty v + OrderItem.qty target) v))
  /\ delete_order_item order_id (length (Order.items order))
       (insert_order_item order_id target db) = db.
Proof.
  intros Ho Hv. split; [|split].
  - unfold insert_order_item. simpl. by apply reduce_stock_lookup.
  - intros i Hi. unfold delete_order_item. rewrite Ho. simpl. rewrite Hi.
    simpl. by apply restore_stock_lookup.
  - unfold delete_order_item, insert_order_item. simpl.
    rewrite lookup_alter_eq, Ho. simpl.
    rewrite lookup_app_r, Nat.sub_diag by lia. simpl.
    rewrite restore_reduce_stock.
    rewrite alter_alter_eq.
    rewrite alter_id.
    + destruct db; reflexivity.
    + intros o Ho'. simpl. assert (o = order) as -> by congruence.
      rewrite delete_after_append. destruct order; reflexivity.
Qed.

Lemma stock_ledger_round_trip_witness :
  variants (insert_order_item 1 (Samples.item_qty 3)
              (Samples.db_with 5 (Samples.order_with "pending" [] [] None))) !! 7
  = Some (Samples.variant_stock 2)
  /\ delete_order_item 1 0%nat
       (insert_order_item 1 (Samples.item_qty 3)
          (Samples.db_with 5 (Samples.order_with "pending" [] [] None)))
     = Samples.db_with 5 (Samples.order_with "pending" [] [] None).
Proof.
  destruct (stock_ledger_round_trip
              (Samples.db_with 5 (Samples.order_with "pending" [] [] None)) 1
              (Samples.order_with "pending" [] [] None)
              (Samples.item_qty 3) (Samples.variant_stock 5)
              eq_refl eq_refl) as (Hins & _ & Hback).
  split; [exact Hins | exact Hback].
Defined.

(** ** Admin: cancelling and confirming *)

(** C8: cancelling an order that is already [canceled] or
    [canceled_damaged] returns the database as it was, whatever the
    action asked for, and flashes one message of category [info]. *)
Theorem cancel_order_already_canceled (db : DB) (order_id : Z) (order : Order.t)
    (form_action : option string) :
  orders db !! order_id = Some order ->
  Order.status order = "canceled" \/ Order.status order = "canceled_damaged" ->
  exists message,
    Admin.cancel_order order_id form_action db
    = (db, {| response := Redirect "admin.dashboard" None;
              flashes := [(message, "info")] |}).
Proof.
  intros Ho Hs. unfold Admin.cancel_order. rewrite Ho.
  eexists. destruct Hs as [-> | ->]; reflexivity.
Qed.

Lemma cancel_order_already_canceled_witness :
  fst (Admin.cancel_order 1 (Some "restock")
         (Samples.db_with 0
            (Samples.order_with "canceled_damaged" [Samples.item_qty 1]
               [Samples.payment_init] (Some Samples.shipment_sent))))
  = Samples.db_with 0
      (Samples.order_with "canceled_damaged" [Samples.item_qty 1]
         [Samples.payment_init] (Some Samples.shipment_sent)).
Proof.
  destruct (cancel_order_already_canceled
              (Samples.db_with 0
                 (Samples.order_with "canceled_damaged" [Samples.item_qty 1]
                    [Samples.payment_init] (Some Samples.shipment_sent)))
              1
              (Samples.order_with "canceled_damaged" [Samples.item_qty 1]
                 [Samples.payment_init] (Some Samples.shipment_sent))
              (Some "restock") eq_refl (or_intror eq_refl)) as [message H].
  rewrite H. reflexivity.
Defined.

Lemma alter_last {A} (f : A -> A) (l : list A) (x : A) :
  alter f (Nat.pred (length (l ++ [x]))) (l ++ [x]) = l ++ [f x].
Proof.
  rewrite length_app. simpl. rewrite Nat.add_1_r. simpl.
  induction l as [|a l IH]; simpl; [reflexivity|].
  f_equal. exact IH.
Qed.

(** C9: whatever the status of the order, confirming its payment sets
    the status to [paid]; the last payment becomes [confirmed] with the
    time of the call as [paid_at]; with no payment yet, a confirmed
    [transfer] payment of the grand total is created. *)
Theorem confirm_payment_unconditional (utcnow : Z) (db : DB) (order_id : Z)
    (order : Order.t) :
  orders db !! order_id = Some order ->
  exists order',
    orders (fst (Admin.confirm_payment utcnow order_id db)) !! order_id = Some order'
    /\ Order.status order' = "paid"
    /\ (Order.payments order = [] ->
        Order.payments order'
        = [ {| Payment.method := "transfer"; Payment.ref := None;
               Payment.amount := Order.grand_total order;
               Payment.status := "confirmed";
               Payment.paid_at := Some utcnow; Payment.slip_url := None |} ])
    /\ (forall earlier latest,
          Order.payments order = earlier ++ [latest] ->
          Order.payments order'
          = earlier ++ [ Payment.with_paid_at (Some utcnow)
                           (Payment.with_status "confirmed" latest) ]).
Proof.
  intros Ho. unfold Admin.confirm_payment. rewrite Ho. simpl.
  rewrite lookup_insert_eq. eexists. split; [reflexivity|].
  split; [reflexivity|]. split.
  - intros ->. reflexivity.
  - intros earlier latest ->. rewrite last_snoc. simpl.
    exact (alter_last
             (fun payment => Payment.with_paid_at (Some utcnow)
                               (Payment.with_status "confirmed" payment))
             earlier latest).
Qed.

Lemma confirm_payment_unconditional_witness :
  Order.status <$>
    orders (fst (Admin.confirm_payment 1704240000 1
                   (Samples.db_with 1
                      (Samples.order_with "canceled" [Samples.item_qty 1]
                         [Samples.payment_init] None)))) !! 1
  = Some "paid".
Proof.
  destruct (confirm_payment_unconditional 1704240000
              (Samples.db_with 1
                 (Samples.order_with "canceled" [Samples.item_qty 1]
                    [Samples.payment_init] None))
              1
              (Samples.order_with "canceled" [Samples.item_qty 1]
                 [Samples.payment_init] None)
              eq_refl) as (order' & Hlookup & Hstatus & _).
  rewrite Hlookup. simpl. rewrite Hstatus. reflexivity.
Defined.

(** ** Cancelling with restock *)

Lemma or_Z_zero (x : Z) : Py.or_Z x 0 = x.
Proof. unfold Py.or_Z. destruct (Z.eqb_spec x 0); congruence. Qed.

Lemma product_with_status_same (p : Product.t) :
  Product.status p = "active" -> Product.with_status "active" p = p.
Proof. intros H. destruct p; simpl in *. by rewrite H. Qed.

(** One line of the restock loop, seen from a variant. *)
Lemma restock_item_variants (db : DB) (item : OrderItem.t) (i : Z) :
  variants (Admin.restock_item db item) !! i
  = (fun v =>
       if decide (OrderItem.variant_id item = i)
       then Variant.with_stock_qty (Variant.stock_qty v + OrderItem.qty item) v
       else v) <$> variants db !! i.
Proof.
  unfold Admin.restock_item.
  destruct (variants db !! OrderItem.variant_id item) as [v|] eqn:Hv.
  - assert (variants
              (with_variants
                 (<[OrderItem.variant_id item :=
                      Variant.with_stock_qty
                        (Py.or_Z (Variant.stock_qty v) 0 + OrderItem.qty item) v]>
                    (variants db)) db) !! i
            = (fun v =>
                 if decide (OrderItem.variant_id item = i)
                 then Variant.with_stock_qty (Variant.stock_qty v + OrderItem.qty item) v
                 else v) <$> variants db !! i) as Hgoal.
    { simpl. rewrite lookup_insert. case_decide as Hi.
      - subst i. rewrite Hv. simpl. by rewrite or_Z_zero.
      - by destruct (variants db !! i). }
    simpl in *. repeat case_match; exact Hgoal.
  - case_decide as Hi.
    + subst i. by rewrite Hv.
    + by destruct (variants db !! i).
Qed.

(** One line of the restock loop, seen from a product: it is left as it
    was or set to [active]. *)
Lemma restock_item_products (db : DB) (item : OrderItem.t) (i : Z) (p : Product.t) :
  products db !! i = Some p ->
  products (Admin.restock_item db item) !! i = Some p
  \/ products (Admin.restock_item db item) !! i = Some (Product.with_status "active" p).
Proof.
  intros Hp. unfold Admin.restock_item.
  destruct (variants db !! OrderItem.variant_id item) as [v|]; [|by left].
  simpl. destruct (products db !! Variant.product_id v) as [q|] eqn:Hq; [|by left].
  case_match; [|by left]. simpl.
  destruct (decide (Variant.product_id v = i)) as [<-|Hi].
  - right. rewrite lookup_insert_eq. congruence.
  - left. by rewrite lookup_insert_ne.
Qed.

(** The product of the variant of the line is [active] afterwards. *)
Lemma restock_item_activates (db : DB) (item : OrderItem.t) (v : Variant.t)
    (p : Product.t) :
  variants db !! OrderItem.variant_id item = Some v ->
  products db !! Variant.product_id v = Some p ->
  products (Admin.restock_item db item) !! Variant.product_id v
  = Some (Product.with_status "active" p).
Proof.
  intros Hv Hp. unfold Admin.restock_item. rewrite Hv. simpl. rewrite Hp.
  unfold Py.str_eq. destruct (String.eqb_spec (Product.status p) "active") as [E|E]; simpl.
  - by rewrite product_with_status_same.
  - by rewrite lookup_insert_eq.
Qed.

Lemma restock_loop_variants (items : list OrderItem.t) (db : DB) (i : Z) :
  variants (fold_left Admin.restock_item items db) !! i
  = (fun v => Variant.with_stock_qty
                (Variant.stock_qty v + Reference.restocked i items) v)
      <$> variants db !! i.
Proof.
  revert db. induction items as [|item items IH]; intros db; simpl.
  - destruct (variants db !! i) as [v|]; simpl; [|reflexivity].
    unfold Reference.restocked. simpl. by rewrite with_stock_qty_same by lia.
  - rewrite IH, restock_item_variants.
    destruct (variants db !! i) as [v|]; simpl; [|reflexivity].
    unfold Reference.restocked. rewrite filter_cons.
    case_decide; simpl; unfold Variant.with_stock_qty; simpl; do 2 f_equal; lia.
Qed.

(** A product that is [active] stays as it is through the loop. *)
Lemma restock_loop_keeps_active (items : list OrderItem.t) (db : DB) (i : Z)
    (p : Product.t) :
  products db !! i = Some p ->
  Product.status p = "active" ->
  products (fold_left Admin.restock_item items db) !! i = Some p.
Proof.
  revert db. induction items as [|item items IH]; intros db Hp Hs; simpl; [done|].
  apply IH; [|done].
  destruct (restock_item_products db item i p Hp) as [H|H]; [done|].
  by rewrite H, product_with_status_same.
Qed.

Lemma restock_loop_activates (items : list OrderItem.t) (db : DB)
    (item : OrderItem.t) (v : Variant.t) (p : Product.t) :
  item ∈ items ->
  variants db !! OrderItem.variant_id item = Some v ->
  products db !! Variant.product_id v = Some p ->
  products (fold_left Admin.restock_item items db) !! Variant.product_id v
  = Some (Product.with_status "active" p).
Proof.
  revert db v p. induction items as [|item0 items IH]; intros db v p Hin Hv Hp.
  - by apply elem_of_nil in Hin.
  - simpl. apply elem_of_cons in Hin as [->|Hin].
    + apply restock_loop_keeps_active; [|done].
      by apply restock_item_activates.
    + pose proof (restock_item_variants db item0 (OrderItem.variant_id item)) as Hv'.
      rewrite Hv in Hv'. simpl in Hv'.
      set (v' := if decide (OrderItem.variant_id item0 = OrderItem.variant_id item)
                 then Variant.with_stock_qty (Variant.stock_qty v + OrderItem.qty item0) v
                 else v) in Hv'.
      assert (Variant.product_id v' = Variant.product_id v) as Hid
        by (unfold v'; by case_decide).
      destruct (restock_item_products db item0 _ p Hp) as [Hp'|Hp'];
        rewrite <- Hid in Hp' |- *;
        rewrite (IH (Admin.restock_item db item0) v' _ Hin Hv' Hp'); done.
Qed.

(** C7: cancelling with restock an order that is not yet canceled
    gives back to every variant the quantities of the lines that refer
    to it, leaves the product of each such variant [active], cancels
    every payment and clears its [paid_at], cancels the shipment when
    there is one, and sets the order to [canceled]. The action is
    restock when the form asks for it or carries no action. *)
Theorem cancel_order_restock (db : DB) (order_id : Z) (order : Order.t)
    (form_action : option string) :
  orders db !! order_id = Some order ->
  Order.status order <> "canceled" ->
  Order.status order <> "canceled_damaged" ->
  form_action = None \/ form_action = Some "restock" ->
  let db' := fst (Admin.cancel_order order_id form_action db) in
  (forall i v,
      variants db !! i = Some v ->
      variants db' !! i
      = Some (Variant.with_stock_qty
                (Variant.stock_qty v + Reference.restocked i (Order.items order)) v))
  /\ (forall item v p,
        item ∈ Order.items order ->
        variants db !! OrderItem.variant_id item = Some v ->
        products db !! Variant.product_id v = Some p ->
        products db' !! Variant.product_id v = Some (Product.with_status "active" p))
  /\ exists order',
       orders db' !! order_id = Some order'
       /\ Order.status order' = "canceled"
       /\ Order.items order' = Order.items order
       /\ Order.payments order'
          = map (fun p => Payment.with_paid_at None (Payment.with_status "canceled" p))
                (Order.payments order)
       /\ Forall (fun p => Payment.status p = "canceled" /\ Payment.paid_at p = None)
                 (Order.payments order')
       /\ Order.shipment order'
          = (fun s => Shipment.with_received_at None
                        (Shipment.with_shipped_at None
                           (Shipment.with_status (Some "canceled") s)))
              <$> Order.shipment order.
Proof.
  intros Ho Hc Hd Haction db'.
  assert (Admin.cancel_order order_id form_action db
          = (with_orders
               (<[order_id :=
                    Order.with_status "canceled"
                      (Order.with_shipment
                         (Admin.cancel_shipment <$> Order.shipment order)
                         (Order.with_payments
                            (map Admin.cancel_payment (Order.payments order))
                            order))]>
                  (orders (fold_left Admin.restock_item (Order.items order) db)))
               (fold_left Admin.restock_item (Order.items order) db),
             {| response := Redirect "admin.dashboard" None;
                flashes := [("ยกเลิกคำสั่งซื้อและคืนสินค้าเข้าสู่สต็อกแล้ว", "success")] |}))
    as Hrun.
  { unfold Admin.cancel_order, Py.str_eq. rewrite Ho.
    apply String.eqb_neq in Hc, Hd. rewrite Hc, Hd. simpl.
    destruct Haction as [-> | ->]; reflexivity. }
  subst db'. rewrite Hrun. simpl. split; [|split].
  - intros i v Hv. rewrite restock_loop_variants, Hv. reflexivity.
  - intros item v p Hin Hv Hp. by apply (restock_loop_activates _ _ item).
  - eexists. rewrite lookup_insert_eq. split; [reflexivity|].
    simpl. repeat split.
    apply Forall_forall. intros p Hp.
    apply list_elem_of_fmap in Hp as (q & -> & _). by split.
Qed.

Lemma cancel_order_restock_witness :
  Variant.stock_qty <$>
    variants (fst (Admin.cancel_order 1 (Some "restock")
                     (Samples.db_with 0
                        (Samples.order_with "paid" [Samples.item_qty 1]
                           [Samples.payment_init] (Some Samples.shipment_sent))))) !! 7
  = Some 1.
Proof.
  destruct (cancel_order_restock
              (Samples.db_with 0
                 (Samples.order_with "paid" [Samples.item_qty 1]
                    [Samples.payment_init] (Some Samples.shipment_sent)))
              1
              (Samples.order_with "paid" [Samples.item_qty 1]
                 [Samples.payment_init] (Some Samples.shipment_sent))
              (Some "restock") eq_refl) as (Hstock & _ & _).
  - discriminate.
  - discriminate.
  - right. reflexivity.
  - rewrite (Hstock 7 (Samples.variant_stock 0) eq_refl). reflexivity.
Defined.

(** ** Checkout and the card provider *)

(** A cart that has lines was found, not created: nothing was written
    and the cookie is as it was. *)
Lemma get_or_create_cart_found (env : Store.Env) (db0 : DB) (sess0 : Store.Session)
    (s : Txn.t) (sess : Store.Session) (cid : Z) (cart : Cart.t) :
  Store._get_or_create_cart env (Txn.begin db0) sess0 = (s, sess, (cid, cart)) ->
  Cart.items cart <> [] ->
  s = Txn.begin db0 /\ sess = sess0.
Proof.
  unfold Store._get_or_create_cart. intros Hcart Hitems.
  repeat case_match; simplify_eq; done.
Qed.

(** C4: when the card provider answers the creation of the payment
    intent with an error, [checkout] leaves the world as it found it:
    the database holds no new order, item or payment, no stock or coupon
    counter has moved, the cart and the cookie are as before; and the
    caller is sent back to the checkout page with an error message. *)
Theorem checkout_remote_failure (env : Store.Env) (method : Store.HttpMethod)
    (form : Store.Form) (w : Store.World) :
  In (Py.Raise Py.StripeError)
     (Store.remote_calls (Store.checkout env method form w)) ->
  Store.world (Store.checkout env method form w) = w
  /\ response (Store.outcome (Store.checkout env method form w))
     = Redirect "store.checkout" None
  /\ exists earlier,
       flashes (Store.outcome (Store.checkout env method form w))
       = earlier ++ [("Unable to start Stripe payment, please try again.", "error")].
Proof.
  unfold Store.checkout. destruct w as [db0 sess0]. simpl.
  destruct (Store._get_or_create_cart env (Txn.begin db0) sess0)
    as [[s sess] [cid cart]] eqn:Hcart.
  destruct (Cart.items cart) as [|line lines] eqn:Hitems; [intros []|].
  destruct (get_or_create_cart_found _ _ _ _ _ _ _ Hcart) as [-> ->];
    [congruence|].
  destruct method; [intros []|].
  match goal with
  | |- context [let '(_, _) := ?c in _] => destruct c as [discount fl]
  end.
  match goal with
  | |- context [Store.order_by_no ?a ?b] => destruct (Store.order_by_no a b)
  end; [intros []|].
  match goal with
  | |- context [Store.add_order_items ?a ?b ?c] =>
      destruct (Store.add_order_items a b c) as [db1|e]
  end; [|intros []].
  destruct (Py.str_eq (default "promptpay" (Store.payment_method form)) "stripe");
    [|intros []].
  unfold Stripe.create_stripe_payment_intent.
  destruct (negb (Py.truthy_str (Some (Store.STRIPE_SECRET_KEY env))));
    [intros []|].
  match goal with
  | |- context [Store.PaymentIntent_create ?a ?b ?c ?d] =>
      destruct (Store.PaymentIntent_create a b c d) as [intent|e]
  end.
  - simpl. intros [Hin|[]]. discriminate.
  - destruct e; simpl; intros [Hin|[]]; try discriminate.
    split; [reflexivity|]. split; [reflexivity|]. by eexists.
Qed.

Lemma checkout_remote_failure_witness :
  Store.world
    (Store.checkout Samples.env_provider_down Store.POST Samples.form_stripe
       Samples.world_with_cart)
  = Samples.world_with_cart.
Proof.
  apply (checkout_remote_failure Samples.env_provider_down Store.POST
           Samples.form_stripe Samples.world_with_cart).
  vm_compute. left. reflexivity.
Defined.

(** * Further properties of the same code *)

(** ** Coupons: when a coupon is valid *)

(** X1: a coupon is valid exactly when it is active, the time is inside
    the window (a missing bound does not bind), the subtotal reaches
    the minimum (a missing or zero minimum does not bind) and the uses
    are below the cap (a missing or zero cap does not bind). *)
Theorem is_valid_iff (utcnow : Z) (c : Coupon.t) (subtotal : Q) (now : option Z) :
  Coupon.is_valid utcnow c subtotal now = true
  <-> Coupon.is_active c = true
      /\ (forall s, Coupon.start_at c = Some s -> s <= default utcnow now)
      /\ (forall e, Coupon.end_at c = Some e -> default utcnow now <= e)
      /\ (forall m, Coupon.min_subtotal c = Some m -> ~ (m == 0)%Q -> (m <= subtotal)%Q)
      /\ (forall k, Coupon.max_uses c = Some k -> k <> 0 -> Coupon.used_count c < k).
Proof.
  unfold Coupon.is_valid, Py.truthy_Q, Py.truthy_Z.
  destruct (Coupon.is_active c); simpl; [|split; [discriminate | intros [? _]; discriminate]].
  destruct (Coupon.start_at c) as [s|]; [destruct (Z.ltb_spec (default utcnow now) s)|].
  1: { split; [discriminate | intros (_ & Hs & _); specialize (Hs s eq_refl); lia]. }
  all: destruct (Coupon.end_at c) as [e|]; [destruct (Z.ltb_spec e (default utcnow now))|].
  1,4: split; [discriminate | intros (_ & _ & He & _); specialize (He e eq_refl); lia].
  all: destruct (Coupon.min_subtotal c) as [m|];
    [destruct (Qeq_bool m 0) eqn:Hm0; simpl; [|destruct (Qlt_le_dec subtotal m)]|]; simpl.
  all: try (split; [discriminate |
                    intros (_ & _ & _ & Hm & _);
                    apply Qeq_bool_neq in Hm0; specialize (Hm m eq_refl Hm0);
                    exfalso; eapply Qlt_not_le; eassumption]).
  all: destruct (Coupon.max_uses c) as [k|];
    [destruct (Z.eqb_spec k 0); simpl; [|destruct (Z.leb_spec k (Coupon.used_count c))]|];
    simpl.
  all: try (split; [discriminate |
                    intros (_ & _ & _ & _ & Hk); specialize (Hk k eq_refl); lia]).
  all: split; [intros _|reflexivity].
  all: repeat split; try discriminate; intros; simplify_eq; try lia; try assumption.
  all: try (apply Qeq_bool_iff in Hm0; contradiction).
Qed.

(** X2: a coupon of non-negative value never gives a negative discount
    on a non-negative subtotal, whatever its type. *)
Theorem discount_amount_nonneg (c : Coupon.t) (subtotal : Q) :
  (0 <= Coupon.value c)%Q -> (0 <= subtotal)%Q ->
  (0 <= Coupon.discount_amount c subtotal)%Q.
Proof.
  intros Hv Hs. unfold Coupon.discount_amount.
  destruct (Py.str_eq (Coupon.type c) "percent").
  - assert (subtotal * (Coupon.value c / 100) == subtotal * Coupon.value c * (1 # 100))%Q
      as -> by field.
    nra.
  - unfold Py.min. destruct (Qlt_le_dec subtotal (Coupon.value c)); assumption.
Qed.

Lemma discount_amount_nonneg_witness :
  (0 <= Coupon.discount_amount (Samples.coupon_cap 3 0) 30)%Q.
Proof.
  apply (discount_amount_nonneg (Samples.coupon_cap 3 0) 30);
    vm_compute; discriminate.
Defined.

(** ** Rounding *)

(** [round] keeps the order. *)
Lemma py_round_mono (x y : Q) : (x <= y)%Q -> Py.round x <= Py.round y.
Proof.
  intros Hxy.
  pose proof (Qfloor_resp_le x y Hxy) as Hfloor.
  pose proof (Qfloor_le x) as Hx. pose proof (Qfloor_le y) as Hy.
  unfold Py.round.
  destruct (Z.eq_dec (Qfloor x) (Qfloor y)) as [E|E].
  - rewrite E in *.
    destruct (Qcompare_spec (x - inject_Z (Qfloor y)) (1 # 2));
      destruct (Qcompare_spec (y - inject_Z (Qfloor y)) (1 # 2));
      repeat case_match; try lia; exfalso; lra.
  - repeat case_match; lia.
Qed.

Lemma round2_mono (x y : Q) : (x <= y)%Q -> (Py.round2 x <= Py.round2 y)%Q.
Proof.
  intros Hxy. unfold Py.round2.
  assert (Py.round (x * 100) <= Py.round (y * 100)) as H by (apply py_round_mono; lra).
  rewrite Zle_Qle in H.
  unfold Qdiv. apply Qmult_le_compat_r; [exact H | vm_compute; discriminate].
Qed.

(** ** Shipping quotes *)

(** X3: a domestic parcel of unknown weight or of at most 500 g costs
    the base fee rounded to two places; the fee never goes down when
    the weight goes up; and the carrier is always Kerry Express, two
    days. *)
Theorem calculate_domestic_fee (base_fee : Q) :
  (forall w, w <= 500 ->
     Shipping.fee (Shipping.calculate_domestic base_fee (Some w)) = Py.round2 base_fee)
  /\ Shipping.fee (Shipping.calculate_domestic base_fee None) = Py.round2 base_fee
  /\ (forall w1 w2, w1 <= w2 ->
        (Shipping.fee (Shipping.calculate_domestic base_fee (Some w1))
         <= Shipping.fee (Shipping.calculate_domestic base_fee (Some w2)))%Q)
  /\ (forall w, 500 < w ->
        Shipping.fee (Shipping.calculate_domestic base_fee (Some w))
        = Py.round2 (base_fee + inject_Z (w - 500) * (5 # 10)))
  /\ (forall w, Shipping.method (Shipping.calculate_domestic base_fee w) = "Kerry Express"
                /\ Shipping.eta_days (Shipping.calculate_domestic base_fee w) = 2).
Proof.
  split; [|split; [reflexivity|split; [|split]]].
  - intros w Hw. unfold Shipping.calculate_domestic. simpl.
    destruct (Z.ltb_spec 500 w); [lia|]. by rewrite andb_false_r.
  - intros w1 w2 Hw. unfold Shipping.calculate_domestic. simpl.
    apply round2_mono.
    assert (inject_Z (w1 - 500) <= inject_Z (w2 - 500))%Q as Hle
      by (rewrite <- Zle_Qle; lia).
    destruct (Z.eqb_spec w1 0), (Z.eqb_spec w2 0), (Z.ltb_spec 500 w1),
      (Z.ltb_spec 500 w2); simpl; try lia; try lra.
    all: assert (0 <= inject_Z (w2 - 500))%Q
      by (change 0%Q with (inject_Z 0); rewrite <- Zle_Qle; lia).
    all: lra.
  - intros w Hw. unfold Shipping.calculate_domestic. simpl.
    destruct (Z.eqb_spec w 0), (Z.ltb_spec 500 w); simpl; try lia. reflexivity.
  - intros w. repeat split.
Qed.

(** X4: the same for an international parcel, at 1.2 per gram above
    500 g, by DHL Express in seven days. *)
Theorem calculate_international_fee (base_fee : Q) :
  (forall w, w <= 500 ->
     Shipping.fee (Shipping.calculate_international base_fee (Some w))
     = Py.round2 base_fee)
  /\ Shipping.fee (Shipping.calculate_international base_fee None) = Py.round2 base_fee
  /\ (forall w1 w2, w1 <= w2 ->
        (Shipping.fee (Shipping.calculate_international base_fee (Some w1))
         <= Shipping.fee (Shipping.calculate_international base_fee (Some w2)))%Q)
  /\ (forall w, 500 < w ->
        Shipping.fee (Shipping.calculate_international base_fee (Some w))
        = Py.round2 (base_fee + inject_Z (w - 500) * (12 # 10)))
  /\ (forall w,
        Shipping.method (Shipping.calculate_international base_fee w) = "DHL Express"
        /\ Shipping.eta_days (Shipping.calculate_international base_fee w) = 7
        /\ Shipping.international (Shipping.calculate_international base_fee w) = true).
Proof.
  split; [|split; [reflexivity|split; [|split]]].
  - intros w Hw. unfold Shipping.calculate_international. simpl.
    destruct (Z.ltb_spec 500 w); [lia|]. by rewrite andb_false_r.
  - intros w1 w2 Hw. unfold Shipping.calculate_international. simpl.
    apply round2_mono.
    assert (inject_Z (w1 - 500) <= inject_Z (w2 - 500))%Q as Hle
      by (rewrite <- Zle_Qle; lia).
    destruct (Z.eqb_spec w1 0), (Z.eqb_spec w2 0), (Z.ltb_spec 500 w1),
      (Z.ltb_spec 500 w2); simpl; try lia; try lra.
    all: assert (0 <= inject_Z (w2 - 500))%Q
      by (change 0%Q with (inject_Z 0); rewrite <- Zle_Qle; lia).
    all: lra.
  - intros w Hw. unfold Shipping.calculate_international. simpl.
    destruct (Z.eqb_spec w 0), (Z.ltb_spec 500 w); simpl; try lia. reflexivity.
  - intros w. repeat split.
Qed.

(** ** What the checksum detects *)

(** The bits of the register after one pass of the loop. *)
Lemma testbit_crc_shift (x n : Z) :
  0 <= n ->
  Z.testbit (Payments.crc_shift x) n
  = xorb (Z.testbit x (n - 1)) (Z.testbit x 15 && Z.testbit Payments.poly n)
    && (n <? 16).
Proof.
  intros Hn. unfold Payments.crc_shift. rewrite top_bit_test.
  destruct (Z.testbit x 15); simpl;
    repeat (rewrite ?Z.lxor_spec, ?testbit_mask16, ?Z.shiftl_spec by lia);
    by rewrite ?xorb_false_r.
Qed.

Lemma in_range_bits (x : Z) :
  0 <= x < 2 ^ 16 -> forall n, 16 <= n -> Z.testbit x n = false.
Proof.
  intros Hx n Hn. destruct (Z.eq_dec x 0) as [->|Hnz]; [apply Z.bits_0|].
  apply Z.bits_above_log2; [lia|].
  assert (Z.log2 x < 16) by (apply Z.log2_lt_pow2; lia). lia.
Qed.

(** One pass loses nothing of a 16-bit register. *)
Lemma crc_shift_inj (x y : Z) :
  0 <= x < 2 ^ 16 -> 0 <= y < 2 ^ 16 ->
  Payments.crc_shift x = Payments.crc_shift y -> x = y.
Proof.
  intros Hx Hy Heq.
  assert (forall n, 0 <= n ->
            Z.testbit (Payments.crc_shift x) n = Z.testbit (Payments.crc_shift y) n)
    as Hbits by (intros; by rewrite Heq).
  assert (Z.testbit x 15 = Z.testbit y 15) as Htop.
  { pose proof (Hbits 0 ltac:(lia)) as H0.
    rewrite !testbit_crc_shift in H0 by lia.
    change (0 - 1) with (-1) in H0. rewrite !Z.testbit_neg_r in H0 by lia.
    change (Z.testbit Payments.poly 0) with true in H0. simpl in H0.
    by rewrite !andb_true_r in H0. }
  apply Z.bits_inj'. intros n Hn.
  destruct (Z.lt_ge_cases n 15) as [Hlow|Hhigh].
  - pose proof (Hbits (n + 1) ltac:(lia)) as H1.
    rewrite !testbit_crc_shift in H1 by lia.
    replace (n + 1 - 1) with n in H1 by lia. rewrite Htop in H1.
    destruct (Z.ltb_spec (n + 1) 16); [|lia]. rewrite !andb_true_r in H1.
    by apply xorb_move_l_r_2 in H1; rewrite H1, xorb_assoc, xorb_nilpotent, xorb_false_r.
  - destruct (Z.eq_dec n 15) as [->|Hne]; [exact Htop|].
    rewrite !in_range_bits by (assumption || lia). reflexivity.
Qed.

Lemma iter_crc_shift_range (k : nat) (x : Z) :
  0 <= x < 2 ^ 16 -> 0 <= Nat.iter k Payments.crc_shift x < 2 ^ 16.
Proof. intros Hx. destruct k; [exact Hx | apply crc_shift_range]. Qed.

Lemma iter_crc_shift_inj (k : nat) (x y : Z) :
  0 <= x < 2 ^ 16 -> 0 <= y < 2 ^ 16 ->
  Nat.iter k Payments.crc_shift x = Nat.iter k Payments.crc_shift y -> x = y.
Proof.
  intros Hx Hy. induction k as [|k IH]; [done|]. simpl. intros Heq.
  apply IH. by apply crc_shift_inj; [apply iter_crc_shift_range.. |].
Qed.

(** A character put in the high byte keeps the register within 16
    bits. *)
Lemma lxor_high_byte_range (crc : Z) (c : ascii) :
  0 <= crc < 2 ^ 16 -> 0 <= Z.lxor crc (Z.shiftl (Py.ord c) 8) < 2 ^ 16.
Proof.
  intros Hcrc.
  assert (0 <= Z.shiftl (Py.ord c) 8 < 2 ^ 16) as Hm.
  { unfold Py.ord. pose proof (N_ascii_bounded c) as Hb.
    rewrite Z.shiftl_mul_pow2 by lia. lia. }
  assert (Z.lxor crc (Z.shiftl (Py.ord c) 8)
          = Z.land (Z.lxor crc (Z.shiftl (Py.ord c) 8)) 0xFFFF) as ->.
  { apply Z.bits_inj'. intros n Hn. rewrite testbit_mask16 by lia.
    destruct (Z.ltb_spec n 16); [by rewrite andb_true_r|].
    rewrite Z.lxor_spec, !in_range_bits by (assumption || lia). reflexivity. }
  rewrite mask16_mod. apply Z.mod_pos_bound. lia.
Qed.

(** The step for one character loses nothing either: equal results come
    from equal registers and equal characters. *)
Lemma crc_char_inj (crc crc' : Z) (c c' : ascii) :
  0 <= crc < 2 ^ 16 -> 0 <= crc' < 2 ^ 16 ->
  Payments.crc_char crc c = Payments.crc_char crc' c' ->
  Z.lxor crc (Z.shiftl (Py.ord c) 8) = Z.lxor crc' (Z.shiftl (Py.ord c') 8).
Proof.
  intros Hcrc Hcrc'. unfold Payments.crc_char.
  apply iter_crc_shift_inj; by apply lxor_high_byte_range.
Qed.

Lemma crc_char_range (crc : Z) (c : ascii) : 0 <= Payments.crc_char crc c < 2 ^ 16.
Proof. unfold Payments.crc_char. simpl. apply crc_shift_range. Qed.

Lemma fold_crc_char_range (l : list ascii) (crc : Z) :
  0 <= crc < 2 ^ 16 -> 0 <= fold_left Payments.crc_char l crc < 2 ^ 16.
Proof.
  revert crc. induction l as [|c l IH]; intros crc Hcrc; simpl; [exact Hcrc|].
  apply IH, crc_char_range.
Qed.

Lemma fold_crc_char_inj (l : list ascii) (crc crc' : Z) :
  0 <= crc < 2 ^ 16 -> 0 <= crc' < 2 ^ 16 ->
  fold_left Payments.crc_char l crc = fold_left Payments.crc_char l crc' ->
  crc = crc'.
Proof.
  revert crc crc'. induction l as [|c l IH]; intros crc crc' Hcrc Hcrc'; simpl; [done|].
  intros Heq. apply IH in Heq; [|apply crc_char_range..].
  apply crc_char_inj in Heq; [|assumption..].
  apply (f_equal (Z.lxor (Z.shiftl (Py.ord c) 8))) in Heq.
  rewrite !(Z.lxor_comm (Z.shiftl _ _)), !Z.lxor_assoc, !Z.lxor_nilpotent,
    !Z.lxor_0_r in Heq. exact Heq.
Qed.

Lemma list_ascii_of_string_app (s t : string) :
  list_ascii_of_string (s +:+ t) = list_ascii_of_string s ++ list_ascii_of_string t.
Proof.
  induction s as [|c s IH]; [reflexivity|].
  rewrite string_app_cons. simpl. f_equal. exact IH.
Qed.

(** *** Characters beyond 8 bits *)

(** One pass of the loop reads the low 16 bits of the register only. *)
Lemma crc_shift_low16 (x : Z) :
  Payments.crc_shift (Z.land x 0xFFFF) = Payments.crc_shift x.
Proof.
  apply Z.bits_inj'. intros n Hn. rewrite !testbit_crc_shift by lia.
  rewrite (testbit_mask16 x 15) by lia. change (15 <? 16) with true.
  rewrite andb_true_r.
  destruct (Z.eq_dec n 0) as [->|Hnz].
  - change (0 - 1) with (-1). by rewrite !Z.testbit_neg_r by lia.
  - rewrite (testbit_mask16 x (n - 1)) by lia.
    destruct (Z.ltb_spec n 16) as [Hlow|Hhigh]; [|by rewrite !andb_false_r].
    destruct (Z.ltb_spec (n - 1) 16); [|lia]. by rewrite (andb_true_r (Z.testbit x (n - 1))).
Qed.

Lemma ord_low_byte (code : Z) : Py.ord (Reference.low_byte code) = code mod 256.
Proof.
  unfold Py.ord, Reference.low_byte.
  pose proof (Z.mod_pos_bound code 256 ltac:(lia)) as Hbound.
  rewrite N_ascii_embedding by lia. apply Z2N.id. lia.
Qed.

(** So the body of the loop reads the low byte of a character only. *)
Lemma crc_code_low_byte (crc code : Z) :
  Payments.crc_code crc code = Payments.crc_char crc (Reference.low_byte code).
Proof.
  unfold Payments.crc_code, Payments.crc_char. cbv zeta.
  rewrite !(Nat.iter_succ_r 7). f_equal.
  rewrite <- (crc_shift_low16 (Z.lxor crc (Z.shiftl code 8))).
  rewrite <- (crc_shift_low16 (Z.lxor crc (Z.shiftl (Py.ord _) 8))).
  f_equal. rewrite ord_low_byte.
  apply Z.bits_inj'. intros n Hn. rewrite !testbit_mask16 by lia.
  destruct (Z.ltb_spec n 16) as [Hlow|Hhigh]; [|by rewrite !andb_false_r].
  rewrite !andb_true_r, !Z.lxor_spec, !Z.shiftl_spec by lia. f_equal.
  destruct (Z.lt_ge_cases n 8) as [Hbelow|Habove].
  - by rewrite !Z.testbit_neg_r by lia.
  - change 256 with (2 ^ 8). rewrite Z.mod_pow2_bits_low by lia. reflexivity.
Qed.

Lemma crc16_register_codes_low_byte (data : list Z) :
  Payments.crc16_register_codes data
  = Payments.crc16_register (string_of_list_ascii (Reference.low_byte <$> data)).
Proof.
  unfold Payments.crc16_register_codes, Payments.crc16_register.
  rewrite list_ascii_of_string_of_list_ascii. generalize 0xFFFF.
  induction data as [|code data IH]; intros crc; [reflexivity|].
  simpl. by rewrite crc_code_low_byte, IH.
Qed.

(** X6: [_crc16] reads of each character its low byte only, so it
    tells apart two texts that differ in one character exactly when the
    two characters differ in their low byte. Within the characters of 8
    bits (the digits and letters of a payload among them) every
    substitution of one character changes the checksum, wherever it is;
    beyond them two characters equal modulo 256, as U+0E01 and U+0001,
    give the same checksum. The text is given by the code points of its
    characters; on a text of 8-bit characters the checksum is the one of
    [_crc16] on a [string]. *)
Theorem crc16_detects_substitution (before after : list Z) (c c' : Z) :
  (Payments._crc16_codes (before ++ c :: after)
   = Payments._crc16_codes (before ++ c' :: after)
   <-> c mod 256 = c' mod 256)
  /\ (forall data : string,
        Payments._crc16_codes (Py.ord <$> list_ascii_of_string data)
        = Payments._crc16 data).
Proof.
  split.
  - unfold Payments._crc16_codes. rewrite !crc16_register_codes_low_byte.
    rewrite !fmap_app, !fmap_cons. split.
    + intros Heq. unfold Py.format_0x in Heq.
      pose proof (format_int_exact 16 ltac:(lia) 3 _
                    (crc16_register_range
                       (string_of_list_ascii
                          ((Reference.low_byte <$> before)
                           ++ Reference.low_byte c :: (Reference.low_byte <$> after)))))
        as [_ Hv].
      pose proof (format_int_exact 16 ltac:(lia) 3 _
                    (crc16_register_range
                       (string_of_list_ascii
                          ((Reference.low_byte <$> before)
                           ++ Reference.low_byte c' :: (Reference.low_byte <$> after)))))
        as [_ Hv'].
      rewrite Heq in Hv. rewrite Hv' in Hv. injection Hv as Hreg.
      unfold Payments.crc16_register in Hreg.
      rewrite !list_ascii_of_string_of_list_ascii, !fold_left_app in Hreg.
      simpl in Hreg.
      pose proof (fold_crc_char_range (Reference.low_byte <$> before) 0xFFFF ltac:(lia))
        as Hr.
      apply fold_crc_char_inj in Hreg; [|apply crc_char_range..].
      apply crc_char_inj in Hreg; [|assumption..].
      apply (f_equal (Z.lxor (fold_left Payments.crc_char
                                (Reference.low_byte <$> before) 0xFFFF))) in Hreg.
      rewrite <- !Z.lxor_assoc, !Z.lxor_nilpotent, !Z.lxor_0_l in Hreg.
      rewrite !ord_low_byte, !Z.shiftl_mul_pow2 in Hreg by lia. lia.
    + intros Hlow. unfold Reference.low_byte. by rewrite Hlow.
  - intros data. unfold Payments._crc16_codes, Payments._crc16. f_equal.
    unfold Payments.crc16_register_codes, Payments.crc16_register. generalize 0xFFFF.
    induction (list_ascii_of_string data) as [|char l IH]; intros crc; [reflexivity|].
    simpl. apply IH.
Qed.

(** The characters U+0E01 and U+0001 have the same low byte. *)
Example crc16_low_byte_collision :
  Payments._crc16_codes [0x0E01] = "f1d1" /\ Payments._crc16_codes [0x01] = "f1d1".
Proof. split; reflexivity. Qed.

(** ** The payload read back *)

Lemma length_format_rjust0_13 (s : string) :
  (String.length s <= 13)%nat -> String.length (Py.format_rjust0 13 s) = 13%nat.
Proof. intros Hs. unfold Py.format_rjust0. rewrite length_pad_left. lia. Qed.

Lemma length_crc16 (data : string) : String.length (Payments._crc16 data) = 4%nat.
Proof.
  unfold Payments._crc16, Py.format_0x.
  apply (format_int_exact 16 ltac:(lia) 3 _ (crc16_register_range data)).
Qed.

(** X7: for an identifier of at most 13 characters and a non-negative
    amount that rounds below one million, the text [encode] returns is
    84 characters that read as seven well-formed fields, in this order:
    format 01, static QR 11, the PromptPay account (whose own two
    fields are the application id and the identifier, zero-filled on
    the left to 13 characters), country TH, currency 764, the amount
    and the checksum. *)
Theorem encode_reads_back (self : Payments.PromptPayPayload) :
  (String.length (Payments.promptpay_id self) <= 13)%nat ->
  (0 <= Payments.amount self)%Q ->
  Py.round (Payments.amount self) < 1000000 ->
  String.length (Payments.encode self) = 84%nat
  /\ (exists account amount crc,
        Reference.tlv_fields (Payments.encode self)
        = Some [("00", "01"); ("01", "11"); ("29", account); ("58", "TH");
                ("53", "764"); ("54", amount); ("63", crc)]
        /\ Reference.tlv_fields account
           = Some [("00", "A000000677010111");
                   ("01", Py.format_rjust0 13 (Payments.promptpay_id self))]).
Proof.
  intros Hid Hpos Hbig.
  pose proof (py_round_nonneg _ Hpos) as Hnonneg.
  destruct (format_int_exact 10 ltac:(lia) 5 (Py.round (Payments.amount self))
              ltac:(change (10 ^ Z.of_nat 6) with 1000000; lia))
    as [Hlen _].
  pose proof (length_format_rjust0_13 _ Hid) as Hlid.
  split.
  - rewrite encode_fields. rewrite !string_length_app, length_upper, length_crc16.
    unfold Payments._to_promptpay_amount, Py.format_0d. rewrite Hlen, Hlid.
    reflexivity.
  - eexists _, _, _. split.
    + rewrite encode_fields.
      apply tlv_fields_cons; [reflexivity | reflexivity | reflexivity |].
      apply tlv_fields_cons; [reflexivity | reflexivity | reflexivity |].
      apply tlv_fields_cons; [reflexivity | reflexivity | |].
      { rewrite !string_length_app, Hlid. reflexivity. }
      apply tlv_fields_cons; [reflexivity | reflexivity | reflexivity |].
      apply tlv_fields_cons; [reflexivity | reflexivity | reflexivity |].
      apply tlv_fields_cons; [reflexivity | reflexivity | |].
      { unfold Payments._to_promptpay_amount, Py.format_0d. by rewrite Hlen. }
      apply tlv_fields_cons; [reflexivity | reflexivity | | reflexivity].
      by rewrite length_upper, length_crc16.
    + change ("0016A000000677010111" +:+ "0113"
              +:+ Py.format_rjust0 13 (Payments.promptpay_id self))
        with ("00" +:+ "16" +:+ "A000000677010111"
              +:+ "01" +:+ "13" +:+ Py.format_rjust0 13 (Payments.promptpay_id self)).
      rewrite <- (string_app_nil_r (Py.format_rjust0 13 _)) at 1.
      apply tlv_fields_cons; [reflexivity | reflexivity | reflexivity |].
      apply tlv_fields_cons; [reflexivity | reflexivity | | reflexivity].
      by rewrite Hlid.
Qed.

Lemma encode_reads_back_witness :
  String.length (Payments.encode Samples.promptpay_10_60) = 84%nat.
Proof.
  apply (encode_reads_back Samples.promptpay_10_60).
  - simpl. lia.
  - vm_compute. discriminate.
  - reflexivity.
Defined.

(** ** Cancelling damaged goods, and cancelling twice *)

(** One line of the loop for damaged goods, seen from a variant. *)
Lemma clamp_item_variants (db : DB) (item : OrderItem.t) (i : Z) :
  variants (Admin.clamp_item db item) !! i
  = (fun v =>
       if decide (OrderItem.variant_id item = i)
       then (if Variant.stock_qty v <? 0 then Variant.with_stock_qty 0 v else v)
       else v) <$> variants db !! i.
Proof.
  unfold Admin.clamp_item.
  destruct (variants db !! OrderItem.variant_id item) as [v|] eqn:Hv.
  - destruct (Z.ltb_spec (Variant.stock_qty v) 0) as [Hneg|Hpos]; simpl.
    + rewrite lookup_insert. case_decide as Hi.
      * subst i. rewrite Hv. simpl.
        destruct (Z.ltb_spec (Variant.stock_qty v) 0); [done | lia].
      * by destruct (variants db !! i).
    + case_decide as Hi.
      * subst i. rewrite Hv. simpl.
        destruct (Z.ltb_spec (Variant.stock_qty v) 0); [lia | done].
      * by destruct (variants db !! i).
  - case_decide as Hi.
    + subst i. by rewrite Hv.
    + by destruct (variants db !! i).
Qed.

Lemma clamp_loop_variants (items : list OrderItem.t) (db : DB) (i : Z) :
  variants (fold_left Admin.clamp_item items db) !! i
  = (fun v =>
       if bool_decide (i ∈ map OrderItem.variant_id items)
          && (Variant.stock_qty v <? 0)
       then Variant.with_stock_qty 0 v else v) <$> variants db !! i.
Proof.
  revert db. induction items as [|item items IH]; intros db; simpl.
  - by destruct (variants db !! i).
  - rewrite IH, clamp_item_variants.
    destruct (variants db !! i) as [v|]; simpl; [|reflexivity]. f_equal.
    destruct (decide (OrderItem.variant_id item = i)) as [Hi|Hi].
    + subst i.
      rewrite (bool_decide_eq_true_2 (_ ∈ _ :: _)) by (apply elem_of_cons; by left).
      destruct (Z.ltb_spec (Variant.stock_qty v) 0); simpl.
      * by rewrite andb_false_r.
      * destruct (Z.ltb_spec (Variant.stock_qty v) 0); [lia|].
        by rewrite andb_false_r.
    + destruct (decide (i ∈ map OrderItem.variant_id items)) as [Hin|Hin].
      * rewrite (bool_decide_eq_true_2 (_ ∈ _ :: _)) by (apply elem_of_cons; by right).
        by rewrite bool_decide_eq_true_2.
      * rewrite (bool_decide_eq_false_2 (_ ∈ _ :: _))
          by (intros [?|?]%elem_of_cons; congruence).
        by rewrite bool_decide_eq_false_2.
Qed.

Lemma clamp_loop_products (items : list OrderItem.t) (db : DB) :
  products (fold_left Admin.clamp_item items db) = products db.
Proof.
  revert db. induction items as [|item items IH]; intros db; simpl; [done|].
  rewrite IH. unfold Admin.clamp_item. by repeat case_match.
Qed.

(** X8: cancelling damaged goods gives nothing back to the stock: a
    variant on a line of the order whose stock is negative is put at 0,
    every other stock is left as it is, and no product changes; the
    payments are canceled with [paid_at] cleared, the shipment is
    canceled, the order becomes [canceled_damaged], and the message is a
    warning. *)
Theorem cancel_order_damaged (db : DB) (order_id : Z) (order : Order.t) :
  orders db !! order_id = Some order ->
  Order.status order <> "canceled" ->
  Order.status order <> "canceled_damaged" ->
  let result := Admin.cancel_order order_id (Some "damaged") db in
  (forall i v,
      variants db !! i = Some v ->
      variants (fst result) !! i
      = Some (if bool_decide (i ∈ map OrderItem.variant_id (Order.items order))
                 && (Variant.stock_qty v <? 0)
              then Variant.with_stock_qty 0 v else v))
  /\ products (fst result) = products db
  /\ (exists order',
        orders (fst result) !! order_id = Some order'
        /\ Order.status order' = "canceled_damaged"
        /\ Order.items order' = Order.items order
        /\ Order.payments order'
           = map (fun p => Payment.with_paid_at None (Payment.with_status "canceled" p))
                 (Order.payments order)
        /\ Order.shipment order'
           = (fun s => Shipment.with_received_at None
                         (Shipment.with_shipped_at None
                            (Shipment.with_status (Some "canceled") s)))
               <$> Order.shipment order)
  /\ (exists message, flashes (snd result) = [(message, "warning")]).
Proof.
  intros Ho Hc Hd result.
  assert (result
          = (with_orders
               (<[order_id :=
                    Order.with_status "canceled_damaged"
                      (Order.with_shipment
                         (Admin.cancel_shipment <$> Order.shipment order)
                         (Order.with_payments
                            (map Admin.cancel_payment (Order.payments order))
                            order))]>
                  (orders (fold_left Admin.clamp_item (Order.items order) db)))
               (fold_left Admin.clamp_item (Order.items order) db),
             {| response := Redirect "admin.dashboard" None;
                flashes := [("ยกเลิกคำสั่งซื้อโดยระบุว่าสินค้าเสียหายแล้ว", "warning")] |}))
    as ->.
  { unfold result, Admin.cancel_order, Py.str_eq. rewrite Ho.
    apply String.eqb_neq in Hc, Hd. rewrite Hc, Hd. reflexivity. }
  simpl. split; [|split; [|split]].
  - intros i v Hv. by rewrite clamp_loop_variants, Hv.
  - apply clamp_loop_products.
  - eexists. rewrite lookup_insert_eq. repeat split.
  - by eexists.
Qed.

Lemma cancel_order_damaged_witness :
  Variant.stock_qty <$>
    variants (fst (Admin.cancel_order 1 (Some "damaged")
                     (Samples.db_with (-1)
                        (Samples.order_with "paid" [Samples.item_qty 1]
                           [Samples.payment_init] None)))) !! 7
  = Some 0.
Proof.
  destruct (cancel_order_damaged
              (Samples.db_with (-1)
                 (Samples.order_with "paid" [Samples.item_qty 1]
                    [Samples.payment_init] None))
              1
              (Samples.order_with "paid" [Samples.item_qty 1]
                 [Samples.payment_init] None)
              eq_refl) as (Hstock & _).
  - discriminate.
  - discriminate.
  - rewrite (Hstock 7 (Samples.variant_stock (-1)) eq_refl). reflexivity.
Defined.

(** X9: an action that is neither [restock] nor [damaged] is refused:
    the database is returned as it was and the message is an error. *)
Theorem cancel_order_invalid_action (db : DB) (order_id : Z) (order : Order.t)
    (action : string) :
  orders db !! order_id = Some order ->
  Order.status order <> "canceled" ->
  Order.status order <> "canceled_damaged" ->
  action <> "restock" -> action <> "damaged" ->
  exists message,
    Admin.cancel_order order_id (Some action) db
    = (db, {| response := Redirect "admin.dashboard" None;
              flashes := [(message, "error")] |}).
Proof.
  intros Ho Hc Hd Hr Hg. unfold Admin.cancel_order, Py.str_eq. rewrite Ho.
  apply String.eqb_neq in Hc, Hd, Hr, Hg. rewrite Hc, Hd. simpl.
  rewrite Hr, Hg. by eexists.
Qed.

Lemma cancel_order_invalid_action_witness :
  fst (Admin.cancel_order 1 (Some "")
         (Samples.db_with 0 (Samples.order_with "paid" [Samples.item_qty 1] [] None)))
  = Samples.db_with 0 (Samples.order_with "paid" [Samples.item_qty 1] [] None).
Proof.
  destruct (cancel_order_invalid_action
              (Samples.db_with 0 (Samples.order_with "paid" [Samples.item_qty 1] [] None))
              1 (Samples.order_with "paid" [Samples.item_qty 1] [] None) ""
              eq_refl) as [message H]; try discriminate.
  rewrite H. reflexivity.
Defined.

(** After an accepted cancellation the order is in a canceled state. *)
Lemma cancel_order_leaves_canceled (db : DB) (order_id : Z) (order : Order.t)
    (form_action : option string) :
  orders db !! order_id = Some order ->
  form_action = None \/ form_action = Some "restock" \/ form_action = Some "damaged" ->
  exists order',
    orders (fst (Admin.cancel_order order_id form_action db)) !! order_id = Some order'
    /\ (Order.status order' = "canceled" \/ Order.status order' = "canceled_damaged").
Proof.
  intros Ho Haction. unfold Admin.cancel_order, Py.str_eq. rewrite Ho.
  destruct (String.eqb_spec (Order.status order) "canceled") as [Hc|Hc]; simpl.
  { exists order. by split; [|left]. }
  destruct (String.eqb_spec (Order.status order) "canceled_damaged") as [Hd|Hd]; simpl.
  { exists order. by split; [|right]. }
  destruct Haction as [-> | [-> | ->]]; simpl; rewrite lookup_insert_eq;
    eexists; (split; [reflexivity|]); simpl; auto.
Qed.

(** X10: cancelling twice is cancelling once: after an accepted
    cancellation, a second one, whatever its action, returns the database
    of the first, so nothing is given back to the stock a second time,
    and its message is of category [info]. *)
Theorem cancel_order_twice (db : DB) (order_id : Z) (order : Order.t)
    (first second : option string) :
  orders db !! order_id = Some order ->
  first = None \/ first = Some "restock" \/ first = Some "damaged" ->
  exists message,
    Admin.cancel_order order_id second (fst (Admin.cancel_order order_id first db))
    = (fst (Admin.cancel_order order_id first db),
       {| response := Redirect "admin.dashboard" None;
          flashes := [(message, "info")] |}).
Proof.
  intros Ho Hfirst.
  destruct (cancel_order_leaves_canceled db order_id order first Ho Hfirst)
    as (order' & Ho' & Hs).
  unfold Admin.cancel_order at 1. rewrite Ho'.
  eexists. destruct Hs as [-> | ->]; reflexivity.
Qed.

Lemma cancel_order_twice_witness :
  Variant.stock_qty <$>
    variants
      (fst (Admin.cancel_order 1 (Some "restock")
              (fst (Admin.cancel_order 1 (Some "restock")
                      (Samples.db_with 0
                         (Samples.order_with "paid" [Samples.item_qty 1] [] None))))))
    !! 7
  = Some 1.
Proof.
  destruct (cancel_order_twice
              (Samples.db_with 0 (Samples.order_with "paid" [Samples.item_qty 1] [] None))
              1 (Samples.order_with "paid" [Samples.item_qty 1] [] None)
              (Some "restock") (Some "restock") eq_refl
              (or_intror (or_introl eq_refl))) as [message H].
  rewrite H. reflexivity.
Defined.

(** ** Shipping an order *)

(** X11: whatever the status of the order, [ship_order] sets it to
    [shipped] and leaves it a shipment of status [shipped] whose
    [shipped_at] is the time of the call; lines, payments, stock and the
    other orders are left alone. A first shipment takes the carrier of
    the form or Kerry Express, and the tracking number of the form or,
    when that is missing or empty, KR, the date, a dash and the order id
    on five digits. A shipment that exists keeps its carrier and its
    tracking number unless the form carries them. *)
Theorem ship_order_ships (utcnow : Z) (utcnow_date : string) (db : DB) (order_id : Z)
    (order : Order.t) (form_carrier form_tracking_no : option string) :
  orders db !! order_id = Some order ->
  let db' := fst (Admin.ship_order utcnow utcnow_date order_id
                    form_carrier form_tracking_no db) in
  variants db' = variants db
  /\ (forall j, j <> order_id -> orders db' !! j = orders db !! j)
  /\ exists order' shipment',
       orders db' !! order_id = Some order'
       /\ Order.status order' = "shipped"
       /\ Order.items order' = Order.items order
       /\ Order.payments order' = Order.payments order
       /\ Order.shipment order' = Some shipment'
       /\ Shipment.status shipment' = Some "shipped"
       /\ Shipment.shipped_at shipment' = Some utcnow
       /\ (Order.shipment order = None ->
           Shipment.carrier shipment' = Some (default "Kerry Express" form_carrier)
           /\ (Py.truthy_str form_tracking_no = true ->
               Shipment.tracking_no shipment' = form_tracking_no)
           /\ (Py.truthy_str form_tracking_no = false ->
               Shipment.tracking_no shipment'
               = Some ("KR" +:+ utcnow_date +:+ "-" +:+ Py.format_0d 5 order_id)))
       /\ (forall old, Order.shipment order = Some old ->
             (form_carrier = None -> Shipment.carrier shipment' = Shipment.carrier old)
             /\ (form_tracking_no = None ->
                 Shipment.tracking_no shipment' = Shipment.tracking_no old)
             /\ Shipment.label_url shipment' = Shipment.label_url old
             /\ Shipment.received_at shipment' = Shipment.received_at old).
Proof.
  intros Ho db'. subst db'. unfold Admin.ship_order. rewrite Ho. simpl.
  split; [reflexivity|]. split; [intros j Hj; by rewrite lookup_insert_ne|].
  rewrite lookup_insert_eq. eexists _, _. split; [reflexivity|]. simpl.
  repeat (split; [reflexivity|]). 
  destruct (Order.shipment order) as [old|]; simpl.
  - repeat (split; [reflexivity|]). split; [discriminate|].
    intros ? [= <-]. repeat split; by intros ->.
  - repeat (split; [reflexivity|]). split; [|discriminate].
    intros _. split; [reflexivity|].
    destruct form_tracking_no as [[|? ?]|]; simpl; split; (discriminate || reflexivity || done).
Qed.

Lemma ship_order_ships_witness :
  Order.status <$>
    orders (fst (Admin.ship_order 1704240000 "20240103" 1 None None
                   (Samples.db_with 0
                      (Samples.order_with "canceled" [Samples.item_qty 1] [] None)))) !! 1
  = Some "shipped".
Proof.
  destruct (ship_order_ships 1704240000 "20240103"
              (Samples.db_with 0
                 (Samples.order_with "canceled" [Samples.item_qty 1] [] None))
              1 (Samples.order_with "canceled" [Samples.item_qty 1] [] None)
              None None eq_refl)
    as (_ & _ & order' & shipment' & Hlookup & Hstatus & _).
  rewrite Hlookup. simpl. by rewrite Hstatus.
Defined.

Section DigitsOfAnySize.

Variable b : Z.
Hypothesis base_range : 2 <= b <= 16.

(** Whatever the width, the text [format] writes for a non-negative
    number denotes it. *)
Lemma format_int_value (width : nat) (n : Z) :
  0 <= n -> Reference.value_from b 0 (Py.format_int b width n) = Some n.
Proof.
  intros Hn. unfold Py.format_int. destruct (Z.ltb_spec n 0); [lia|].
  unfold Py.pad_left. rewrite value_from_zeros by assumption.
  by apply value_from_digits.
Qed.

Lemma format_int_inj (width : nat) (n m : Z) :
  0 <= n -> 0 <= m ->
  Py.format_int b width n = Py.format_int b width m -> n = m.
Proof.
  intros Hn Hm Heq.
  pose proof (format_int_value width n Hn) as Hv.
  rewrite Heq, (format_int_value width m Hm) in Hv. congruence.
Qed.

End DigitsOfAnySize.

(** X12: on one day, the tracking numbers [ship_order] makes up for
    two different orders are different. *)
Theorem fallback_tracking_no_distinct (utcnow : Z) (utcnow_date : string) (db : DB)
    (id1 id2 : Z) (order1 order2 : Order.t) (carrier1 carrier2 : option string) :
  0 <= id1 -> 0 <= id2 -> id1 <> id2 ->
  orders db !! id1 = Some order1 -> Order.shipment order1 = None ->
  orders db !! id2 = Some order2 -> Order.shipment order2 = None ->
  ((orders (fst (Admin.ship_order utcnow utcnow_date id1 carrier1 None db)) !! id1
     ≫= Order.shipment) ≫= Shipment.tracking_no)
  <> ((orders (fst (Admin.ship_order utcnow utcnow_date id2 carrier2 None db)) !! id2
        ≫= Order.shipment) ≫= Shipment.tracking_no).
Proof.
  intros H1 H2 Hne Ho1 Hs1 Ho2 Hs2.
  unfold Admin.ship_order. rewrite Ho1, Ho2. simpl.
  rewrite !lookup_insert_eq. simpl. rewrite Hs1, Hs2. simpl.
  intros [= Heq]. apply Hne.
  apply (format_int_inj 10 ltac:(lia) 5 id1 id2 H1 H2).
  repeat (apply String.app_inj in Heq). exact Heq.
Qed.

Lemma fallback_tracking_no_distinct_witness :
  ((orders (fst (Admin.ship_order 1704240000 "20240103" 1 None None
                  (with_orders (<[2 := Samples.order_with "paid" [] [] None]>
                                  {[ 1 := Samples.order_with "paid" [] [] None ]})
                     (Samples.db_with 0 (Samples.order_with "paid" [] [] None))))) !! 1
     ≫= Order.shipment) ≫= Shipment.tracking_no)
  <> ((orders (fst (Admin.ship_order 1704240000 "20240103" 2 None None
                     (with_orders (<[2 := Samples.order_with "paid" [] [] None]>
                                     {[ 1 := Samples.order_with "paid" [] [] None ]})
                        (Samples.db_with 0 (Samples.order_with "paid" [] [] None))))) !! 2
        ≫= Order.shipment) ≫= Shipment.tracking_no).
Proof.
  apply (fallback_tracking_no_distinct 1704240000 "20240103" _ 1 2
           (Samples.order_with "paid" [] [] None)
           (Samples.order_with "paid" [] [] None) None None);
    (lia || reflexivity).
Defined.

(** X13: cancelling with restock an order that has been shipped undoes
    what shipping wrote: the order is [canceled], its shipment is
    [canceled] with no [shipped_at], and the tracking number stays on
    record. *)
Theorem ship_then_cancel (utcnow : Z) (utcnow_date : string) (db : DB) (order_id : Z)
    (order : Order.t) (form_carrier form_tracking_no : option string) :
  orders db !! order_id = Some order ->
  let shipped := fst (Admin.ship_order utcnow utcnow_date order_id
                        form_carrier form_tracking_no db) in
  let canceled := fst (Admin.cancel_order order_id (Some "restock") shipped) in
  exists order1 shipment1 order2 shipment2,
    orders shipped !! order_id = Some order1
    /\ Order.shipment order1 = Some shipment1
    /\ orders canceled !! order_id = Some order2
    /\ Order.status order2 = "canceled"
    /\ Order.shipment order2 = Some shipment2
    /\ Shipment.status shipment2 = Some "canceled"
    /\ Shipment.shipped_at shipment2 = None
    /\ Shipment.tracking_no shipment2 = Shipment.tracking_no shipment1
    /\ Shipment.carrier shipment2 = Shipment.carrier shipment1.
Proof.
  intros Ho shipped canceled. subst canceled shipped.
  unfold Admin.ship_order. rewrite Ho. simpl.
  unfold Admin.cancel_order. simpl. rewrite !lookup_insert_eq. simpl.
  eexists _, _, _, _. split; [reflexivity|]. split; [reflexivity|].
  rewrite ?lookup_insert_eq. split; [reflexivity|]. repeat split.
Qed.

Lemma ship_then_cancel_witness :
  Order.status <$>
    orders
      (fst (Admin.cancel_order 1 (Some "restock")
              (fst (Admin.ship_order 1704240000 "20240103" 1 None None
                      (Samples.db_with 0
                         (Samples.order_with "paid" [Samples.item_qty 1] [] None))))))
    !! 1
  = Some "canceled".
Proof.
  destruct (ship_then_cancel 1704240000 "20240103"
              (Samples.db_with 0 (Samples.order_with "paid" [Samples.item_qty 1] [] None))
              1 (Samples.order_with "paid" [Samples.item_qty 1] [] None)
              None None eq_refl)
    as (o1 & s1 & o2 & s2 & _ & _ & Hlookup & Hstatus & _).
  rewrite Hlookup. simpl. by rewrite Hstatus.
Defined.

(** ** Primary keys *)

(** No row has a key above the largest key. *)
Lemma next_id_above {A} (m : gmap Z A) (k : Z) : is_Some (m !! k) -> k < next_id m.
Proof.
  unfold next_id. revert k.
  apply (map_fold_weak_ind
           (fun r (m : gmap Z A) => forall k, is_Some (m !! k) -> k < 1 + r)).
  - intros k [x Hx]. by rewrite lookup_empty in Hx.
  - intros i x m' r Hi IH k Hk.
    destruct (decide (i = k)) as [->|Hne]; [lia|].
    rewrite lookup_insert_ne in Hk by done. specialize (IH k Hk). lia.
Qed.

(** The key an insert receives is free. *)
Lemma next_id_fresh {A} (m : gmap Z A) : m !! next_id m = None.
Proof.
  destruct (m !! next_id m) eqn:H; [|done].
  pose proof (next_id_above m (next_id m) ltac:(by eexists)). lia.
Qed.

(** ** The lines of a new order *)

Lemma reduce_stock_at (target : OrderItem.t) (table : gmap Z Variant.t) (i : Z) :
  reduce_stock target table !! i
  = (fun v =>
       if decide (OrderItem.variant_id target = i)
       then Variant.with_stock_qty (Variant.stock_qty v - OrderItem.qty target) v
       else v) <$> table !! i.
Proof.
  destruct (decide (OrderItem.variant_id target = i)) as [<-|Hne].
  - destruct (table !! OrderItem.variant_id target) as [v|] eqn:Hv.
    + by rewrite (reduce_stock_lookup _ _ v).
    + unfold reduce_stock. case_match; rewrite ?lookup_alter_eq, Hv; done.
  - rewrite reduce_stock_other by done. by destruct (table !! i).
Qed.

(** What the loop of [checkout] over the cart leaves when it ends
    without an exception: every variant has lost what the cart held of
    it, the order has one line more for each line of the cart, and
    nothing else has moved. *)
Lemma add_order_items_return (order_id : Z) (lines : list CartItem.t) (db db' : DB) :
  Store.add_order_items order_id lines db = Py.Return db' ->
  (forall i,
      variants db' !! i
      = (fun v => Variant.with_stock_qty
                    (Variant.stock_qty v - Reference.in_cart i lines) v)
          <$> variants db !! i)
  /\ products db' = products db
  /\ carts db' = carts db
  /\ coupons db' = coupons db
  /\ exists items,
       Forall2 Reference.records lines items
       /\ orders db'
          = alter (fun o => Order.with_items (Order.items o ++ items) o)
                  order_id (orders db).
Proof.
  revert db. induction lines as [|line lines IH]; intros db Hrun; simpl in Hrun.
  - injection Hrun as <-. split; [|split; [|split; [|split]]]; try reflexivity.
    + intros i. destruct (variants db !! i) as [v|]; simpl; [|done].
      unfold Reference.in_cart. simpl. by rewrite with_stock_qty_same by lia.
    + exists []. split; [constructor|].
      symmetry. apply alter_id. intros o _. rewrite app_nil_r. by destruct o.
  - destruct (variants db !! CartItem.variant_id line) as [variant|] eqn:Hv;
      [|discriminate].
    destruct (products db !! Variant.product_id variant) as [product|] eqn:Hp;
      [|discriminate].
    apply IH in Hrun as (Hvar & Hprod & Hcarts & Hcoupons & items & Hitems & Horders).
    split; [|split; [|split; [|split]]]; try assumption.
    + intros i. rewrite Hvar. unfold insert_order_item. simpl.
      rewrite reduce_stock_at. simpl.
      destruct (variants db !! i) as [v|]; simpl; [|done].
      unfold Reference.in_cart. rewrite filter_cons.
      case_decide; simpl; unfold Variant.with_stock_qty; simpl; do 2 f_equal; lia.
    + match type of Hprod with
      | context [insert_order_item _ ?item _] => exists (item :: items)
      end.
      split.
      * constructor; [|exact Hitems]. repeat split.
      * rewrite Horders. unfold insert_order_item. simpl.
        rewrite alter_alter_eq. apply alter_ext. intros o _. simpl.
        by rewrite <- app_assoc.
Qed.

(** The loop raises only when a line names a variant that is gone or
    whose product is gone; the stock is never looked at. *)
Lemma add_order_items_returns (order_id : Z) (lines : list CartItem.t) (db : DB) :
  (forall line, line ∈ lines ->
     exists v p, variants db !! CartItem.variant_id line = Some v
                 /\ products db !! Variant.product_id v = Some p) ->
  exists db', Store.add_order_items order_id lines db = Py.Return db'.
Proof.
  revert db. induction lines as [|line lines IH]; intros db Hlines; simpl.
  - by eexists.
  - destruct (Hlines line ltac:(by left)) as (v & p & Hv & Hp).
    rewrite Hv, Hp. apply IH. intros line' Hin.
    destruct (Hlines line' ltac:(by right)) as (v' & p' & Hv' & Hp').
    unfold insert_order_item. simpl. rewrite reduce_stock_at, Hv'. simpl.
    eexists _, p'. split; [reflexivity|]. by case_decide.
Qed.

(** ** Checkout that succeeds *)

Lemma alter_alter_lookup {A} (f g : A -> A) (m : gmap Z A) (i : Z) (x : A) :
  m !! i = Some x -> alter f i (alter g i m) = <[i := f (g x)]> m.
Proof.
  intros Hx. rewrite alter_alter_eq. apply map_eq. intros j.
  destruct (decide (i = j)) as [<-|Hne].
  - by rewrite lookup_alter_eq, lookup_insert_eq, Hx.
  - by rewrite lookup_alter_ne, lookup_insert_ne.
Qed.

Lemma get_or_create_cart_finds (env : Store.Env) (s : Txn.t) (sess : Store.Session)
    (cid : Z) (cart : Cart.t) :
  Store.cart_id sess = Some cid -> cid <> 0 ->
  carts (Txn.working s) !! cid = Some cart ->
  Store._get_or_create_cart env s sess = (s, sess, (cid, cart)).
Proof.
  intros Hcid Hnz Hcart. unfold Store._get_or_create_cart.
  rewrite Hcid. simpl. destruct (Z.eqb_spec cid 0); [done|]. simpl.
  by rewrite Hcart.
Qed.

(** The query by number finds nothing when no order has the number. *)
Lemma order_by_no_none (order_no : string) (db : DB) :
  (forall j o, orders db !! j = Some o -> Order.order_no o <> order_no) ->
  Store.order_by_no order_no db = None.
Proof.
  intros Hfresh. unfold Store.order_by_no.
  rewrite fmap_None, list_find_None, Forall_forall.
  intros [j o] Hrow. apply (Hfresh j o). by apply elem_of_map_to_list.
Qed.

(** The run of [checkout] for a cart that is found with lines whose
    variants and products exist, under a number no order has, paid
    otherwise than by card. *)
Lemma checkout_run (env : Store.Env) (form : Store.Form) (w : Store.World)
    (cid : Z) (cart : Cart.t) :
  Store.cart_id (Store.session w) = Some cid -> cid <> 0 ->
  carts (Store.db w) !! cid = Some cart ->
  Cart.items cart <> [] ->
  (forall line, line ∈ Cart.items cart ->
     exists v p, variants (Store.db w) !! CartItem.variant_id line = Some v
                 /\ products (Store.db w) !! Variant.product_id v = Some p) ->
  default "promptpay" (Store.payment_method form) <> "stripe" ->
  (forall j o, orders (Store.db w) !! j = Some o ->
     Order.order_no o
     <> "BT" +:+ Store.utcnow_stamp env +:+ Py.format_0d 3 (Store.randbelow_999 env)) ->
  let order_id := next_id (orders (Store.db w)) in
  let domestic := Py.str_eq (Py.upper (default "TH" (Store.country form))) "TH" in
  let coupon :=
    if Py.truthy_str (Store.coupon form)
    then Store.coupon form
           ≫= (fun c => (fun r => (c, r)) <$> coupons (Store.db w) !! c)
    else None in
  let valid :=
    match coupon with
    | Some (_, c) => Coupon.is_valid (Store.utcnow env) c (Cart.total cart) None
    | None => false
    end in
  let discount :=
    match coupon with
    | Some (_, c) => if valid then Coupon.discount_amount c (Cart.total cart) else 0%Q
    | None => 0%Q
    end in
  let order_no :=
    "BT" +:+ Store.utcnow_stamp env +:+ Py.format_0d 3 (Store.randbelow_999 env) in
  let order0 :=
    {| Order.order_no := order_no; Order.status := "pending";
       Order.payment_method := Some (default "promptpay" (Store.payment_method form));
       Order.subtotal := Cart.total cart;
       Order.shipping_fee :=
         Shipping.fee
           (if domestic
            then Shipping.calculate_domestic (Store.DEFAULT_SHIPPING_DOMESTIC env) None
            else Shipping.calculate_international
                   (Store.DEFAULT_SHIPPING_INTERNATIONAL env) None);
       Order.discount := discount; Order.grand_total := 0;
       Order.currency := if domestic then "THB" else "USD";
       Order.items := []; Order.payments := []; Order.shipment := None |} in
  exists db1 order1,
    Store.add_order_items order_id (Cart.items cart)
      (with_orders (<[order_id := order0]> (orders (Store.db w))) (Store.db w))
    = Py.Return db1
    /\ orders db1 !! order_id = Some order1
    /\ let order2 := Order.update_totals order1 in
       let payment :=
         {| Payment.method := default "promptpay" (Store.payment_method form);
            Payment.ref := None; Payment.amount := Order.grand_total order2;
            Payment.status := "init"; Payment.paid_at := None;
            Payment.slip_url := None |} in
       let order3 := Order.with_payments (Order.payments order2 ++ [payment]) order2 in
       Store.checkout env Store.POST form w
       = {| Store.world :=
              {| Store.db :=
                   with_carts (alter (Cart.with_items []) cid (carts db1))
                     (with_coupons
                        (match coupon with
                         | Some (code, _) =>
                             alter (fun c => Coupon.with_used_count
                                               (Coupon.used_count c + 1) c)
                                   code (coupons db1)
                         | None => coupons db1
                         end)
                        (with_orders (<[order_id := order3]> (orders db1)) db1));
                 Store.session :=
                   {| Store.cart_id := None;
                      Store.session_id := Store.session_id (Store.session w) |} |};
            Store.outcome :=
              {| response := Redirect "store.order_status" (Some order_no);
                 flashes :=
                   (if Py.truthy_str (Store.coupon form) && negb valid
                    then [("คูปองไม่ถูกต้องหรือหมดอายุ", "warning")] else [])
                   ++ [("สร้างคำสั่งซื้อแล้ว กรุณาชำระเงิน", "success")] |};
            Store.remote_calls := [] |}.
Proof.
  intros Hcid Hnz Hcart Hitems Hlines Hmethod Hfresh order_id domestic coupon valid
    discount order_no order0.
  apply order_by_no_none in Hfresh.
  destruct (add_order_items_returns order_id (Cart.items cart)
              (with_orders (<[order_id := order0]> (orders (Store.db w))) (Store.db w)))
    as [db1 Hadd].
  { intros line Hin. destruct (Hlines line Hin) as (v & p & Hv & Hp).
    exists v, p. simpl. by split. }
  destruct (add_order_items_return _ _ _ _ Hadd)
    as (_ & _ & _ & _ & items & _ & Horders).
  assert (orders db1 !! order_id
          = Some (Order.with_items (Order.items order0 ++ items) order0)) as Ho1.
  { rewrite Horders. simpl. by rewrite lookup_alter_eq, lookup_insert_eq. }
  exists db1, (Order.with_items (Order.items order0 ++ items) order0).
  split; [exact Hadd|]. split; [exact Ho1|].
  unfold Store.checkout.
  rewrite (get_or_create_cart_finds env (Txn.begin (Store.db w)) _ cid cart Hcid Hnz Hcart).
  destruct (Cart.items cart) as [|line lines] eqn:Hcartitems; [done|].
  cbn [Txn.working Txn.write Txn.begin Txn.committed Txn.commit Txn.finish].
  fold order_id. fold domestic. fold coupon.
  assert ((if Py.truthy_str (Store.coupon form)
           then match coupon with
                | Some (_, c) =>
                    if Coupon.is_valid (Store.utcnow env) c (Cart.total cart) None
                    then (Coupon.discount_amount c (Cart.total cart), [])
                    else (0%Q, [("คูปองไม่ถูกต้องหรือหมดอายุ", "warning")])
                | None => (0%Q, [("คูปองไม่ถูกต้องหรือหมดอายุ", "warning")])
                end
           else (0%Q, []))
          = (discount,
             if Py.truthy_str (Store.coupon form) && negb valid
             then [("คูปองไม่ถูกต้องหรือหมดอายุ", "warning")] else [])) as ->.
  { subst discount valid coupon.
    destruct (Py.truthy_str (Store.coupon form)); simpl; [|done].
    destruct (Store.coupon form ≫= _) as [[code c]|]; simpl; [|done].
    by destruct (Coupon.is_valid _ _ _ _). }
  cbn beta iota zeta. rewrite Hfresh. fold order_no. fold order0.
  rewrite Hadd. cbn beta iota zeta.
  apply String.eqb_neq in Hmethod. unfold Py.str_eq at 1. rewrite Hmethod.
  clearbody coupon.
  destruct coupon as [[code c]|];
    cbn [Txn.working Txn.write Txn.begin Txn.committed Txn.commit Txn.finish
         Store.world Store.outcome Store.remote_calls response flashes];
    simpl; rewrite lookup_alter_eq, Ho1; simpl;
    rewrite (alter_alter_lookup _ _ _ _ _ Ho1); reflexivity.
Qed.

Lemma or_Q_zero (x : Q) : (Py.or_Q x 0 == x)%Q.
Proof.
  unfold Py.or_Q. destruct (Qeq_bool x 0) eqn:H; [|reflexivity].
  apply Qeq_bool_iff in H. by rewrite H.
Qed.

Lemma records_total_price (lines : list CartItem.t) (items : list OrderItem.t) :
  Forall2 Reference.records lines items ->
  map OrderItem.total_price items = map CartItem.total_price lines.
Proof.
  induction 1 as [|line item lines items (_ & _ & _ & Hp) _ IH]; simpl; [done|].
  by rewrite Hp, IH.
Qed.

Section CheckoutPlaced.

Variable env : Store.Env.
Variable form : Store.Form.
Variable w : Store.World.
Variable cid : Z.
Variable cart : Cart.t.

(** The cookie names a cart that exists and has lines; every line names
    a variant that exists, of a product that exists; the payment is not
    by card; and no order has the number that the clock and the random
    suffix make. *)
Hypothesis cookie : Store.cart_id (Store.session w) = Some cid.
Hypothesis cookie_nonzero : cid <> 0.
Hypothesis cart_found : carts (Store.db w) !! cid = Some cart.
Hypothesis cart_has_lines : Cart.items cart <> [].
Hypothesis lines_exist :
  forall line, line ∈ Cart.items cart ->
    exists v p, variants (Store.db w) !! CartItem.variant_id line = Some v
                /\ products (Store.db w) !! Variant.product_id v = Some p.
Hypothesis not_by_card : default "promptpay" (Store.payment_method form) <> "stripe".
Hypothesis number_is_new :
  forall j o, orders (Store.db w) !! j = Some o ->
    Order.order_no o
    <> "BT" +:+ Store.utcnow_stamp env +:+ Py.format_0d 3 (Store.randbelow_999 env).

(** X14: such a checkout places one new order, under a key no order
    had, and touches no other order: the order is [pending], has one
    line for each line of the cart, in order, with its quantity and
    prices, a subtotal equal to the total of the cart and a grand total
    of subtotal plus shipping fee minus discount, a single payment of
    status [init] for the grand total and no shipment. The cart is left
    without lines, the cookie forgets it, and the caller is sent to the
    page of the order. *)
Theorem checkout_places_order :
  let result := Store.checkout env Store.POST form w in
  let order_id := next_id (orders (Store.db w)) in
  orders (Store.db w) !! order_id = None
  /\ (forall j, j <> order_id ->
        orders (Store.db (Store.world result)) !! j = orders (Store.db w) !! j)
  /\ (exists order,
        orders (Store.db (Store.world result)) !! order_id = Some order
        /\ Order.status order = "pending"
        /\ Forall2 Reference.records (Cart.items cart) (Order.items order)
        /\ Order.subtotal order = Cart.total cart
        /\ (Order.grand_total order
            == Order.subtotal order + Order.shipping_fee order - Order.discount order)%Q
        /\ Order.payments order
           = [ {| Payment.method := default "promptpay" (Store.payment_method form);
                  Payment.ref := None; Payment.amount := Order.grand_total order;
                  Payment.status := "init"; Payment.paid_at := None;
                  Payment.slip_url := None |} ]
        /\ Order.shipment order = None
        /\ response (Store.outcome result)
           = Redirect "store.order_status" (Some (Order.order_no order)))
  /\ carts (Store.db (Store.world result)) !! cid = Some (Cart.with_items [] cart)
  /\ Store.cart_id (Store.session (Store.world result)) = None
  /\ products (Store.db (Store.world result)) = products (Store.db w).
Proof.
  intros result order_id.
  destruct (checkout_run env form w cid cart cookie cookie_nonzero cart_found
              cart_has_lines lines_exist not_by_card number_is_new)
    as (db1 & order1 & Hadd & Ho1 & Hrun).
  subst result. rewrite Hrun. clear Hrun. fold order_id in Hadd, Ho1.
  destruct (add_order_items_return _ _ _ _ Hadd)
    as (_ & Hprod & Hcarts & _ & items & Hitems & Horders).
  simpl in Hprod, Hcarts, Horders.
  rewrite Horders, lookup_alter_eq, lookup_insert_eq in Ho1. injection Ho1 as <-.
  split; [apply next_id_fresh|]. simpl. split; [|split; [|split; [|split]]].
  - intros j Hj. rewrite lookup_insert_ne by done.
    rewrite Horders, lookup_alter_ne, lookup_insert_ne by done. reflexivity.
  - eexists. rewrite lookup_insert_eq. split; [reflexivity|]. simpl.
    split; [reflexivity|]. split; [exact Hitems|].
    split; [by rewrite (records_total_price _ _ Hitems)|].
    split; [by rewrite !or_Q_zero|]. repeat split.
  - by rewrite lookup_alter_eq, Hcarts, cart_found.
  - reflexivity.
  - exact Hprod.
Qed.

(** X15: the stock is never looked at: every variant loses what the
    cart held of it, below zero if the cart held more than the stock. *)
Theorem checkout_takes_stock :
  forall i,
    variants (Store.db (Store.world (Store.checkout env Store.POST form w))) !! i
    = (fun v => Variant.with_stock_qty
                  (Variant.stock_qty v - Reference.in_cart i (Cart.items cart)) v)
        <$> variants (Store.db w) !! i.
Proof.
  intros i.
  destruct (checkout_run env form w cid cart cookie cookie_nonzero cart_found
              cart_has_lines lines_exist not_by_card number_is_new)
    as (db1 & order1 & Hadd & _ & ->).
  destruct (add_order_items_return _ _ _ _ Hadd) as (Hvar & _).
  simpl. by rewrite Hvar.
Qed.

(** X16: a coupon code that names a coupon counts as a use whether or
    not the coupon is valid: its [used_count] goes up by one, while the
    discount of the order is the one of the coupon only when it is
    valid, and is 0 with a warning otherwise. No other coupon is
    touched. *)
Theorem checkout_counts_coupon :
  let result := Store.checkout env Store.POST form w in
  (forall code c,
      Store.coupon form = Some code -> code <> "" ->
      coupons (Store.db w) !! code = Some c ->
      coupons (Store.db (Store.world result)) !! code
      = Some (Coupon.with_used_count (Coupon.used_count c + 1) c)
      /\ (exists order,
            orders (Store.db (Store.world result)) !! next_id (orders (Store.db w))
            = Some order
            /\ Order.discount order
               = if Coupon.is_valid (Store.utcnow env) c (Cart.total cart) None
                 then Coupon.discount_amount c (Cart.total cart) else 0%Q)
      /\ (Coupon.is_valid (Store.utcnow env) c (Cart.total cart) None = false ->
          exists message, (message, "warning") ∈ flashes (Store.outcome result)))
  /\ (forall code, Store.coupon form <> Some code ->
        coupons (Store.db (Store.world result)) !! code
        = coupons (Store.db w) !! code).
Proof.
  intros result.
  destruct (checkout_run env form w cid cart cookie cookie_nonzero cart_found
              cart_has_lines lines_exist not_by_card number_is_new)
    as (db1 & order1 & Hadd & Ho1 & Hrun).
  subst result. rewrite Hrun. clear Hrun.
  destruct (add_order_items_return _ _ _ _ Hadd)
    as (_ & _ & _ & Hcoupons & items & _ & Horders).
  simpl in Hcoupons, Horders.
  rewrite Horders, lookup_alter_eq, lookup_insert_eq in Ho1. injection Ho1 as <-.
  simpl. split.
  - intros code c Hcode Hne Hc. rewrite Hcode.
    assert (Py.truthy_str (Some code) = true) as -> by (by destruct code).
    simpl. rewrite Hc. simpl. split; [|split].
    + by rewrite lookup_alter_eq, Hcoupons, Hc.
    + eexists. rewrite lookup_insert_eq. split; [reflexivity|]. reflexivity.
    + intros ->. simpl. eexists. by left.
  - intros code Hcode. rewrite <- Hcoupons.
    destruct (Py.truthy_str (Store.coupon form)); [|done].
    destruct (Store.coupon form) as [code'|] eqn:Hform; simpl; [|done].
    destruct (coupons db1 !! code'); simpl; [|done].
    rewrite lookup_alter_ne; [done | congruence].
Qed.

End CheckoutPlaced.

Lemma world_overselling_lines_exist :
  forall line,
    line ∈ [ {| CartItem.variant_id := 7; CartItem.qty := 3; CartItem.price_at := 900 |} ] ->
    exists v p,
      variants (Store.db Samples.world_overselling) !! CartItem.variant_id line = Some v
      /\ products (Store.db Samples.world_overselling) !! Variant.product_id v = Some p.
Proof.
  intros line Hin. apply list_elem_of_singleton in Hin. subst line.
  eexists _, _. split; reflexivity.
Qed.

Lemma world_overselling_number_is_new :
  forall j o,
    orders (Store.db Samples.world_overselling) !! j = Some o ->
    Order.order_no o
    <> "BT" +:+ Store.utcnow_stamp Samples.env_later
       +:+ Py.format_0d 3 (Store.randbelow_999 Samples.env_later).
Proof.
  intros j o Hrow Heq.
  change (orders (Store.db Samples.world_overselling))
    with ({[ 1 := Samples.order_with "paid" [] [] None ]} : gmap Z Order.t) in Hrow.
  apply lookup_singleton_Some in Hrow as [_ <-]. vm_compute in Heq. discriminate.
Qed.

Lemma checkout_places_order_witness :
  carts (Store.db (Store.world
                     (Store.checkout Samples.env_later Store.POST
                        Samples.form_promptpay Samples.world_overselling))) !! 3
  = Some {| Cart.session_id := Some "5f2c"; Cart.items := [] |}.
Proof.
  destruct (checkout_places_order Samples.env_later Samples.form_promptpay
              Samples.world_overselling 3
              {| Cart.session_id := Some "5f2c";
                 Cart.items := [ {| CartItem.variant_id := 7; CartItem.qty := 3;
                                    CartItem.price_at := 900 |} ] |}
              eq_refl ltac:(discriminate) eq_refl ltac:(discriminate)
              world_overselling_lines_exist ltac:(discriminate)
              world_overselling_number_is_new)
    as (_ & _ & _ & Hcart & _).
  exact Hcart.
Defined.

Lemma checkout_takes_stock_witness :
  Variant.stock_qty <$>
    variants (Store.db (Store.world
                          (Store.checkout Samples.env_later Store.POST
                             Samples.form_promptpay Samples.world_overselling))) !! 7
  = Some (-2).
Proof.
  rewrite (checkout_takes_stock Samples.env_later Samples.form_promptpay
             Samples.world_overselling 3
             {| Cart.session_id := Some "5f2c";
                Cart.items := [ {| CartItem.variant_id := 7; CartItem.qty := 3;
                                   CartItem.price_at := 900 |} ] |}
             eq_refl ltac:(discriminate) eq_refl ltac:(discriminate)
             world_overselling_lines_exist ltac:(discriminate)
             world_overselling_number_is_new 7).
  reflexivity.
Defined.

Lemma checkout_counts_coupon_witness :
  Coupon.used_count <$>
    coupons (Store.db (Store.world
                         (Store.checkout Samples.env_later Store.POST
                            Samples.form_promptpay Samples.world_overselling)))
    !! "WELCOME"
  = Some 5.
Proof.
  destruct (checkout_counts_coupon Samples.env_later Samples.form_promptpay
              Samples.world_overselling 3
              {| Cart.session_id := Some "5f2c";
                 Cart.items := [ {| CartItem.variant_id := 7; CartItem.qty := 3;
                                    CartItem.price_at := 900 |} ] |}
              eq_refl ltac:(discriminate) eq_refl ltac:(discriminate)
              world_overselling_lines_exist ltac:(discriminate)
              world_overselling_number_is_new)
    as [Hcount _].
  destruct (Hcount "WELCOME" _ eq_refl ltac:(discriminate) eq_refl) as [Hused _].
  rewrite Hused. reflexivity.
Defined.

(** ** An order number that is taken *)

(** X30: the order number is made of the clock, to the second, and a
    random suffix below 999, and the column is unique. When an order
    already has the number made, the checkout of a cart with lines ends
    in an error no handler catches: nothing is written (no order, no
    stock taken, no coupon counted, the cart and the cookie as they
    were), the answer is a 500, and the card provider is not asked. *)
Theorem checkout_number_taken (env : Store.Env) (form : Store.Form) (w : Store.World)
    (cid : Z) (cart : Cart.t) (j : Z) (o : Order.t) :
  Store.cart_id (Store.session w) = Some cid -> cid <> 0 ->
  carts (Store.db w) !! cid = Some cart ->
  Cart.items cart <> [] ->
  orders (Store.db w) !! j = Some o ->
  Order.order_no o
  = "BT" +:+ Store.utcnow_stamp env +:+ Py.format_0d 3 (Store.randbelow_999 env) ->
  let result := Store.checkout env Store.POST form w in
  Store.world result = w
  /\ response (Store.outcome result) = Abort 500
  /\ Store.remote_calls result = [].
Proof.
  intros Hcid Hnz Hcart Hitems Hrow Hnumber result. subst result.
  destruct (list_find_elem_of
              (fun row : Z * Order.t =>
                 Order.order_no (snd row)
                 = "BT" +:+ Store.utcnow_stamp env
                   +:+ Py.format_0d 3 (Store.randbelow_999 env))
              (map_to_list (orders (Store.db w))) (j, o)) as [found Hfound].
  { by apply elem_of_map_to_list. }
  { exact Hnumber. }
  unfold Store.checkout.
  rewrite (get_or_create_cart_finds env (Txn.begin (Store.db w)) _ cid cart Hcid Hnz Hcart).
  destruct (Cart.items cart) as [|line lines]; [done|].
  cbn [Txn.working Txn.write Txn.begin Txn.committed Txn.commit Txn.finish].
  destruct (if Py.truthy_str (Store.coupon form) then _ else _) as [discount fl].
  unfold Store.order_by_no. rewrite Hfound. simpl. by destruct w.
Qed.

Lemma checkout_number_taken_witness :
  Store.world
    (Store.checkout Samples.env_provider_down Store.POST Samples.form_promptpay
       Samples.world_overselling)
  = Samples.world_overselling.
Proof.
  apply (checkout_number_taken Samples.env_provider_down Samples.form_promptpay
           Samples.world_overselling 3
           {| Cart.session_id := Some "5f2c";
              Cart.items := [ {| CartItem.variant_id := 7; CartItem.qty := 3;
                                 CartItem.price_at := 900 |} ] |}
           1 (Samples.order_with "paid" [] [] None)
           eq_refl ltac:(discriminate) eq_refl ltac:(discriminate) eq_refl eq_refl).
Defined.

(** ** Adding to the cart *)

Lemma in_cart_cons (i : Z) (line : CartItem.t) (lines : list CartItem.t) :
  Reference.in_cart i (line :: lines)
  = (if decide (CartItem.variant_id line = i) then CartItem.qty line else 0)
    + Reference.in_cart i lines.
Proof.
  unfold Reference.in_cart. rewrite filter_cons. by case_decide.
Qed.

Lemma in_cart_app (i : Z) (lines more : list CartItem.t) :
  Reference.in_cart i (lines ++ more)
  = Reference.in_cart i lines + Reference.in_cart i more.
Proof.
  induction lines as [|line lines IH]; [reflexivity|].
  rewrite <- app_comm_cons, !in_cart_cons, IH. lia.
Qed.

(** One more of the line at [k]. *)
Lemma in_cart_alter (f : CartItem.t -> CartItem.t) (i : Z) (k : nat)
    (line : CartItem.t) (lines : list CartItem.t) :
  lines !! k = Some line ->
  CartItem.variant_id (f line) = CartItem.variant_id line ->
  Reference.in_cart i (alter f k lines)
  = Reference.in_cart i lines
    + (if decide (CartItem.variant_id line = i)
       then CartItem.qty (f line) - CartItem.qty line else 0).
Proof.
  revert k. induction lines as [|head lines IH]; intros k Hk Hid; [done|].
  destruct k as [|k]; simpl in Hk.
  - injection Hk as ->. change (alter f 0%nat (line :: lines)) with (f line :: lines).
    rewrite !in_cart_cons, Hid. case_decide; lia.
  - change (alter f (S k) (head :: lines)) with (head :: alter f k lines).
    rewrite !in_cart_cons, (IH k Hk Hid). lia.
Qed.

(** The lines [add_to_cart] leaves in a cart that held [lines]. *)
Lemma add_to_cart_lines (variant_id : Z) (price : Q) (lines : list CartItem.t) :
  let lines' :=
    match list_find (fun item => CartItem.variant_id item = variant_id) lines with
    | Some (k, _) =>
        alter (fun existing =>
                 {| CartItem.variant_id := CartItem.variant_id existing;
                    CartItem.qty := CartItem.qty existing + 1;
                    CartItem.price_at := CartItem.price_at existing |}) k lines
    | None =>
        lines ++ [ {| CartItem.variant_id := variant_id; CartItem.qty := 1;
                      CartItem.price_at := price |} ]
    end in
  (forall i, Reference.in_cart i lines'
             = Reference.in_cart i lines + (if decide (i = variant_id) then 1 else 0))
  /\ (NoDup (CartItem.variant_id <$> lines) -> NoDup (CartItem.variant_id <$> lines'))
  /\ CartItem.price_at <$> lines'
     = (CartItem.price_at <$> lines)
       ++ (if decide (variant_id ∈ CartItem.variant_id <$> lines) then [] else [price]).
Proof.
  destruct (list_find _ lines) as [[k line]|] eqn:Hfind; simpl.
  - apply list_find_Some in Hfind as (Hk & Hid & _).
    assert (Hin : variant_id ∈ CartItem.variant_id <$> lines).
    { apply list_elem_of_fmap. exists line. split; [done|]. by eapply list_elem_of_lookup_2. }
    split; [|split].
    + intros i. rewrite (in_cart_alter _ i k line lines Hk) by reflexivity. simpl.
      rewrite Hid.
      destruct (decide (variant_id = i)), (decide (i = variant_id)); try lia; congruence.
    + intros Hnd.
      rewrite (list_fmap_alter CartItem.variant_id _ id); [|by apply Forall_forall].
      by rewrite list_alter_id.
    + rewrite decide_True by done. rewrite app_nil_r.
      rewrite (list_fmap_alter CartItem.price_at _ id); [|by apply Forall_forall].
      by rewrite list_alter_id.
  - apply list_find_None in Hfind.
    assert (Hnin : variant_id ∉ CartItem.variant_id <$> lines).
    { intros (line & Hid & Hin)%list_elem_of_fmap.
      rewrite Forall_forall in Hfind. by apply (Hfind line Hin). }
    split; [|split].
    + intros i. rewrite in_cart_app, in_cart_cons. simpl.
      change (Reference.in_cart i []) with 0.
      destruct (decide (variant_id = i)), (decide (i = variant_id)); try lia; congruence.
    + intros Hnd. rewrite fmap_app. apply NoDup_app. split; [done|]. split.
      * intros x Hx Hx'. apply list_elem_of_singleton in Hx'. by subst x.
      * apply NoDup_singleton.
    + rewrite decide_False by done. by rewrite fmap_app.
Qed.

(** X17: [add_to_cart] changes the world only for a variant that exists
    and is in stock: with no variant id in the form, an id of 0, an
    unknown variant, or a stock of 0 or less, the database and the
    cookie are returned as they were (no cart is made) and no message of
    success is flashed. *)
Theorem add_to_cart_refused (env : Store.Env) (form_variant_id : option Z)
    (referrer : option string) (w : Store.World) :
  (forall i v, form_variant_id = Some i -> variants (Store.db w) !! i = Some v ->
               Variant.stock_qty v <= 0) ->
  fst (Store.add_to_cart env form_variant_id referrer w) = w
  /\ forall message,
       (message, "success") ∉ flashes (snd (Store.add_to_cart env form_variant_id referrer w)).
Proof.
  intros Hout. unfold Store.add_to_cart.
  destruct (Py.truthy_Z form_variant_id) eqn:Htruthy; simpl.
  - destruct form_variant_id as [i|]; [|discriminate]. simpl.
    destruct (variants (Store.db w) !! i) as [v|] eqn:Hv.
    + specialize (Hout i v eq_refl Hv).
      destruct (Z.leb_spec (Variant.stock_qty v) 0); [|lia].
      destruct (products (Store.db w) !! Variant.product_id v); simpl;
        (split; [reflexivity|]); intros message Hin.
      * apply list_elem_of_singleton in Hin. discriminate.
      * by apply elem_of_nil in Hin.
    + simpl. split; [reflexivity|]. intros message Hin. by apply elem_of_nil in Hin.
  - split; [reflexivity|]. intros message Hin.
    apply list_elem_of_singleton in Hin. discriminate.
Qed.

Lemma add_to_cart_refused_witness :
  fst (Store.add_to_cart Samples.env_provider_down (Some 7) None
         {| Store.db := Samples.db_with 0 (Samples.order_with "paid" [] [] None);
            Store.session := {| Store.cart_id := None; Store.session_id := None |} |})
  = {| Store.db := Samples.db_with 0 (Samples.order_with "paid" [] [] None);
       Store.session := {| Store.cart_id := None; Store.session_id := None |} |}.
Proof.
  apply (add_to_cart_refused Samples.env_provider_down (Some 7) None
           {| Store.db := Samples.db_with 0 (Samples.order_with "paid" [] [] None);
              Store.session := {| Store.cart_id := None; Store.session_id := None |} |}).
  intros i v [= <-] Hv. vm_compute in Hv. injection Hv as <-. simpl. lia.
Defined.

(** The run of [add_to_cart] for a variant in stock and a cart the
    cookie names. *)
Lemma add_to_cart_run (env : Store.Env) (variant_id : Z) (referrer : option string)
    (w : Store.World) (variant : Variant.t) (cid : Z) (cart : Cart.t) :
  variant_id <> 0 ->
  variants (Store.db w) !! variant_id = Some variant ->
  0 < Variant.stock_qty variant ->
  Store.cart_id (Store.session w) = Some cid -> cid <> 0 ->
  carts (Store.db w) !! cid = Some cart ->
  exists lines message,
    Store.add_to_cart env (Some variant_id) referrer w
    = ({| Store.db :=
            with_carts (<[cid := Cart.with_items lines cart]> (carts (Store.db w)))
                       (Store.db w);
          Store.session := Store.session w |},
       {| response := Redirect "store.cart_view" None;
          flashes := [(message, "success")] |})
    /\ (forall i, Reference.in_cart i lines
                  = Reference.in_cart i (Cart.items cart)
                    + (if decide (i = variant_id) then 1 else 0))
    /\ (NoDup (CartItem.variant_id <$> Cart.items cart) ->
        NoDup (CartItem.variant_id <$> lines))
    /\ CartItem.price_at <$> lines
       = (CartItem.price_at <$> Cart.items cart)
         ++ (if decide (variant_id ∈ CartItem.variant_id <$> Cart.items cart)
             then [] else [Variant.price variant]).
Proof.
  intros Hnz Hv Hstock Hcid Hcnz Hcart.
  pose proof (add_to_cart_lines variant_id (Variant.price variant) (Cart.items cart))
    as Hlines.
  cbv zeta in Hlines.
  eexists _, _. split; [|exact Hlines].
  unfold Store.add_to_cart. simpl.
  destruct (Z.eqb_spec variant_id 0); [done|]. simpl. rewrite Hv.
  destruct (Z.leb_spec (Variant.stock_qty variant) 0); [lia|].
  rewrite (get_or_create_cart_finds env (Txn.begin (Store.db w)) _ cid cart Hcid Hcnz Hcart).
  cbn [Txn.working Txn.write Txn.begin Txn.committed Txn.commit Txn.finish].
  f_equal. f_equal. unfold with_carts. simpl. f_equal.
  apply map_eq. intros j. destruct (decide (cid = j)) as [<-|Hne].
  - by rewrite lookup_alter_eq, lookup_insert_eq, Hcart.
  - by rewrite lookup_alter_ne, lookup_insert_ne.
Qed.

(** X18: for a variant in stock and a cart the cookie names,
    [add_to_cart] puts one more of the variant in that cart and nothing
    else: the other quantities, the other carts, the stock and the
    cookie stay. The stock of the variant is no cap: the cart may hold
    more than there is. A line that was there keeps the price it had;
    only a new line takes the price of the variant. A cart with one
    line for each variant stays so. *)
Theorem add_to_cart_adds_one (env : Store.Env) (variant_id : Z) (referrer : option string)
    (w : Store.World) (variant : Variant.t) (cid : Z) (cart : Cart.t) :
  variant_id <> 0 ->
  variants (Store.db w) !! variant_id = Some variant ->
  0 < Variant.stock_qty variant ->
  Store.cart_id (Store.session w) = Some cid -> cid <> 0 ->
  carts (Store.db w) !! cid = Some cart ->
  let w' := fst (Store.add_to_cart env (Some variant_id) referrer w) in
  Store.session w' = Store.session w
  /\ variants (Store.db w') = variants (Store.db w)
  /\ orders (Store.db w') = orders (Store.db w)
  /\ (forall j, j <> cid -> carts (Store.db w') !! j = carts (Store.db w) !! j)
  /\ exists cart',
       carts (Store.db w') !! cid = Some cart'
       /\ (forall i, Reference.in_cart i (Cart.items cart')
                     = Reference.in_cart i (Cart.items cart)
                       + (if decide (i = variant_id) then 1 else 0))
       /\ CartItem.price_at <$> Cart.items cart'
          = (CartItem.price_at <$> Cart.items cart)
            ++ (if decide (variant_id ∈ CartItem.variant_id <$> Cart.items cart)
                then [] else [Variant.price variant])
       /\ (NoDup (CartItem.variant_id <$> Cart.items cart) ->
           NoDup (CartItem.variant_id <$> Cart.items cart')).
Proof.
  intros Hnz Hv Hstock Hcid Hcnz Hcart.
  destruct (add_to_cart_run env variant_id referrer w variant cid cart
              Hnz Hv Hstock Hcid Hcnz Hcart)
    as (lines & message & -> & Hqty & Hnodup & Hprice).
  simpl. repeat (split; [reflexivity|]).
  split; [intros j Hj; by rewrite lookup_insert_ne|].
  exists (Cart.with_items lines cart). rewrite lookup_insert_eq. by repeat split.
Qed.

Lemma add_to_cart_adds_one_witness :
  Cart.items <$>
    carts (Store.db (fst (Store.add_to_cart Samples.env_provider_down (Some 7) None
                            Samples.world_with_cart))) !! 3
  = Some [ {| CartItem.variant_id := 7; CartItem.qty := 2; CartItem.price_at := 900 |} ].
Proof.
  destruct (add_to_cart_adds_one Samples.env_provider_down 7 None Samples.world_with_cart
              (Samples.variant_stock 1) 3
              {| Cart.session_id := Some "5f2c";
                 Cart.items := [ {| CartItem.variant_id := 7; CartItem.qty := 1;
                                    CartItem.price_at := 900 |} ] |}
              ltac:(lia) eq_refl ltac:(simpl; lia) eq_refl ltac:(lia) eq_refl)
    as (_ & _ & _ & _ & cart' & Hcart' & _).
  reflexivity.
Defined.

(** X19: when the cookie names no cart of the table, [add_to_cart] for
    a variant in stock makes one under a key no cart had, with the one
    line of one unit at the price of the variant, and puts its key in
    the cookie; the other carts and the stock stay. The cart takes the
    session id of the cookie, or a new one when the cookie has none. *)
Theorem add_to_cart_first (env : Store.Env) (variant_id : Z) (referrer : option string)
    (w : Store.World) (variant : Variant.t) :
  variant_id <> 0 ->
  variants (Store.db w) !! variant_id = Some variant ->
  0 < Variant.stock_qty variant ->
  Store.cart_id (Store.session w) ≫= (fun c => carts (Store.db w) !! c) = None ->
  let w' := fst (Store.add_to_cart env (Some variant_id) referrer w) in
  let cid := next_id (carts (Store.db w)) in
  let sid := if Py.truthy_str (Store.session_id (Store.session w))
             then Store.session_id (Store.session w)
             else Some (Store.uuid4_hex env) in
  carts (Store.db w) !! cid = None
  /\ Store.session w' = {| Store.cart_id := Some cid; Store.session_id := sid |}
  /\ carts (Store.db w') !! cid
     = Some {| Cart.session_id := sid;
               Cart.items := [ {| CartItem.variant_id := variant_id; CartItem.qty := 1;
                                  CartItem.price_at := Variant.price variant |} ] |}
  /\ (forall j, j <> cid -> carts (Store.db w') !! j = carts (Store.db w) !! j)
  /\ variants (Store.db w') = variants (Store.db w).
Proof.
  intros Hnz Hv Hstock Hnone. simpl.
  split; [apply next_id_fresh|].
  unfold Store.add_to_cart. simpl.
  destruct (Z.eqb_spec variant_id 0); [done|]. simpl. rewrite Hv.
  destruct (Z.leb_spec (Variant.stock_qty variant) 0); [lia|].
  unfold Store._get_or_create_cart.
  cbn [Txn.working Txn.write Txn.begin Txn.committed Txn.commit Txn.finish].
  assert (Hfound :
            (if Py.truthy_Z (Store.cart_id (Store.session w))
             then Store.cart_id (Store.session w)
                  ≫= (fun i => (fun c => (i, c)) <$> carts (Store.db w) !! i)
             else None) = None).
  { destruct (Py.truthy_Z _); [|done].
    destruct (Store.cart_id (Store.session w)) as [c|]; [|done].
    simpl in *. by rewrite Hnone. }
  rewrite Hfound. simpl.
  split; [reflexivity|]. rewrite lookup_alter_eq, lookup_insert_eq. simpl.
  split; [reflexivity|]. split; [|reflexivity].
  intros j Hj. by rewrite lookup_alter_ne, lookup_insert_ne.
Qed.

Lemma add_to_cart_first_witness :
  Store.cart_id
    (Store.session
       (fst (Store.add_to_cart Samples.env_provider_down (Some 7) None
               {| Store.db := Samples.db_with 1 (Samples.order_with "paid" [] [] None);
                  Store.session := {| Store.cart_id := None;
                                      Store.session_id := None |} |})))
  = Some 1.
Proof.
  destruct (add_to_cart_first Samples.env_provider_down 7 None
              {| Store.db := Samples.db_with 1 (Samples.order_with "paid" [] [] None);
                 Store.session := {| Store.cart_id := None; Store.session_id := None |} |}
              (Samples.variant_stock 1)
              ltac:(lia) eq_refl ltac:(simpl; lia) eq_refl)
    as (_ & Hsession & _).
  rewrite Hsession. reflexivity.
Defined.

(** ** Payments seen from the shop *)

(** The order the query by number finds is a row of the table, and has
    that number. *)
Lemma order_by_no_Some (order_no : string) (db : DB) (order_id : Z) (order : Order.t) :
  Store.order_by_no order_no db = Some (order_id, order) ->
  orders db !! order_id = Some order /\ Order.order_no order = order_no.
Proof.
  unfold Store.order_by_no. intros Hfind.
  destruct (list_find _ _) as [[k row]|] eqn:Hk; [|discriminate].
  simpl in Hfind. injection Hfind as ->.
  apply list_find_Some in Hk as (Hk & Hno & _). split; [|exact Hno].
  apply elem_of_map_to_list. by eapply list_elem_of_lookup_2.
Qed.

(** It finds the order of a number that is the number of one order
    only. *)
Lemma order_by_no_unique (order_no : string) (db : DB) (order_id : Z) (order : Order.t) :
  orders db !! order_id = Some order ->
  Order.order_no order = order_no ->
  (forall j o, orders db !! j = Some o -> Order.order_no o = order_no -> j = order_id) ->
  Store.order_by_no order_no db = Some (order_id, order).
Proof.
  intros Hrow Hno Hunique.
  destruct (list_find_elem_of (fun row : Z * Order.t => Order.order_no (snd row) = order_no)
              (map_to_list (orders db)) (order_id, order)) as [[k [j o]] Hfind].
  { by apply elem_of_map_to_list. }
  { exact Hno. }
  unfold Store.order_by_no. rewrite Hfind. simpl.
  apply list_find_Some in Hfind as (Hk & Hno' & _). simpl in Hno'.
  apply list_elem_of_lookup_2, elem_of_map_to_list in Hk.
  pose proof (Hunique j o Hk Hno') as ->. congruence.
Qed.

Lemma last_insert_pred {A} (l : list A) (x y : A) :
  last l = Some x ->
  last (<[Nat.pred (length l) := y]> l) = Some y
  /\ take (Nat.pred (length l)) (<[Nat.pred (length l) := y]> l)
     = take (Nat.pred (length l)) l
  /\ length (<[Nat.pred (length l) := y]> l) = length l.
Proof.
  intros Hlast. destruct l as [|z l] using rev_ind; [done|]. clear IHl.
  rewrite length_app. simpl.
  replace (Nat.pred (length l + 1)) with (length l + 0)%nat by lia.
  rewrite insert_app_r. simpl. rewrite last_snoc.
  split; [reflexivity|]. rewrite Nat.add_0_r, !list.take_app_length.
  split; [reflexivity|]. rewrite !length_app. reflexivity.
Qed.

(** X20: when the last payment of the order is a card payment with a
    reference and the provider hands back the intent, the status of the
    payment becomes the status of the intent, whatever it is. Only the
    status [succeeded] marks the order [paid], whatever its status was,
    and dates the payment; its amount is then the amount received (the
    amount of the intent when none was received or 0), in hundredths.
    With any other status the order, the date and the amount stay. The
    earlier payments, the other orders and the stock stay in both
    cases. *)
Theorem stripe_confirm_payment_mirrors (env : Store.Env)
    (PaymentIntent_retrieve : string -> Py.result Store.RetrievedIntent)
    (order_no : string) (db : DB) (order_id : Z) (order : Order.t)
    (payment : Payment.t) (ref : string) (intent : Store.RetrievedIntent) :
  Store.order_by_no order_no db = Some (order_id, order) ->
  last (Order.payments order) = Some payment ->
  Payment.method payment = "stripe" ->
  Payment.ref payment = Some ref -> ref <> "" ->
  Store.STRIPE_SECRET_KEY env <> "" ->
  PaymentIntent_retrieve ref = Py.Return intent ->
  let result := Store.stripe_confirm_payment env PaymentIntent_retrieve order_no db in
  let db' := fst (fst result) in
  snd (fst result)
  = {| Store.code := 200; Store.body := [("status", Store.intent_status intent)] |}
  /\ variants db' = variants db
  /\ (forall j, j <> order_id -> orders db' !! j = orders db !! j)
  /\ exists order' payment',
       orders db' !! order_id = Some order'
       /\ last (Order.payments order') = Some payment'
       /\ take (Nat.pred (length (Order.payments order))) (Order.payments order')
          = take (Nat.pred (length (Order.payments order))) (Order.payments order)
       /\ length (Order.payments order') = length (Order.payments order)
       /\ Order.items order' = Order.items order
       /\ Payment.status payment' = Store.intent_status intent
       /\ (Store.intent_status intent = "succeeded" ->
           Order.status order' = "paid"
           /\ Payment.paid_at payment' = Some (Store.utcnow env)
           /\ Payment.amount payment'
              = match (if Py.truthy_Z (Store.intent_amount_received intent)
                       then Store.intent_amount_received intent
                       else Store.intent_amount intent) with
                | Some minor => Py.round2 (inject_Z minor / 100)
                | None => Payment.amount payment
                end)
       /\ (Store.intent_status intent <> "succeeded" ->
           Order.status order' = Order.status order
           /\ Payment.paid_at payment' = Payment.paid_at payment
           /\ Payment.amount payment' = Payment.amount payment).
Proof.
  intros Hfind Hlast Hmethod Href Hnonempty Hkey Hanswer.
  unfold Store.stripe_confirm_payment, Store.retrieve_stripe_payment_intent.
  assert (Htruthy : forall s, s <> "" -> Py.truthy_str (Some s) = true)
    by (by intros [|? ?]).
  rewrite Hfind, Hlast, Hmethod, Href.
  rewrite (Htruthy ref Hnonempty), (Htruthy _ Hkey). simpl. rewrite Hanswer.
  cbn [Txn.working Txn.write Txn.begin Txn.committed Txn.commit Txn.finish fst snd].
  set (payment' := if Py.str_eq (Store.intent_status intent) "succeeded" then _ else _).
  destruct (last_insert_pred (Order.payments order) payment payment' Hlast)
    as (Hlast' & Htake & Hlength).
  assert (Hstatus : Payment.status payment' = Store.intent_status intent).
  { subst payment'. destruct (Py.str_eq _ _); [|reflexivity].
    by destruct (if Py.truthy_Z _ then _ else _). }
  rewrite Hstatus. split; [reflexivity|]. split; [by destruct (Py.str_eq _ _)|].
  split.
  { intros j Hj. simpl. by rewrite lookup_insert_ne. }
  simpl. rewrite lookup_insert_eq.
  eexists _, payment'. split; [reflexivity|].
  unfold Py.str_eq in *.
  destruct (String.eqb_spec (Store.intent_status intent) "succeeded") as [Heq|Hne].
  - simpl. repeat (split; [assumption || reflexivity|]). split; [|done].
    intros _. split; [reflexivity|]. subst payment'.
    by destruct (if Py.truthy_Z _ then _ else _).
  - simpl. repeat (split; [assumption || reflexivity|]). split; [done|].
    intros _. by subst payment'.
Qed.

(** X21: [stripe_confirm_payment] writes only when the provider has
    handed back an intent: in every other case (no such order, no
    payment, a last payment that is not by card or has no reference, no
    secret key, an error of the provider) the database is returned as it
    was. And the provider is asked only about the reference of a last
    payment by card, once. *)
Theorem stripe_confirm_payment_guarded (env : Store.Env)
    (PaymentIntent_retrieve : string -> Py.result Store.RetrievedIntent)
    (order_no : string) (db : DB) :
  let result := Store.stripe_confirm_payment env PaymentIntent_retrieve order_no db in
  ((forall intent, snd result <> [Py.Return intent]) -> fst (fst result) = db)
  /\ (snd result <> [] ->
      exists order_id order payment ref,
        Store.order_by_no order_no db = Some (order_id, order)
        /\ last (Order.payments order) = Some payment
        /\ Payment.method payment = "stripe"
        /\ Payment.ref payment = Some ref /\ ref <> ""
        /\ snd result = [PaymentIntent_retrieve ref]).
Proof.
  unfold Store.stripe_confirm_payment, Store.retrieve_stripe_payment_intent.
  destruct (Store.order_by_no order_no db) as [[order_id order]|]; [|by split].
  destruct (last (Order.payments order)) as [payment|] eqn:Hlast; [|by split].
  unfold Py.str_eq.
  destruct (String.eqb_spec (Payment.method payment) "stripe") as [Hmethod|]; [|by split].
  destruct (Payment.ref payment) as [[|c ref]|] eqn:Href; [by split| |by split].
  simpl.
  destruct (Store.STRIPE_SECRET_KEY env); [by split|]. simpl.
  assert (Hasked :
            exists order_id' order' payment' ref',
              Some (order_id, order) = Some (order_id', order')
              /\ last (Order.payments order') = Some payment'
              /\ Payment.method payment' = "stripe"
              /\ Payment.ref payment' = Some ref' /\ ref' <> ""
              /\ [PaymentIntent_retrieve (String c ref)] = [PaymentIntent_retrieve ref']).
  { by exists order_id, order, payment, (String c ref). }
  destruct (PaymentIntent_retrieve (String c ref)) as [intent|e].
  - split; [|intros _; exact Hasked].
    intros Hno. by destruct (Hno intent).
  - split; [|destruct e; intros _; exact Hasked].
    intros _. by destruct e.
Qed.

Lemma stripe_confirm_payment_mirrors_witness :
  Order.status <$>
    orders (fst (fst (Store.stripe_confirm_payment Samples.env_provider_down
                        (fun _ => Py.Return Samples.intent_succeeded)
                        "BT20240101120000042"
                        (Samples.db_with 1
                           (Samples.order_with "canceled" []
                              [Samples.payment_card] None))))) !! 1
  = Some "paid".
Proof.
  destruct (stripe_confirm_payment_mirrors Samples.env_provider_down
              (fun _ => Py.Return Samples.intent_succeeded) "BT20240101120000042"
              (Samples.db_with 1
                 (Samples.order_with "canceled" [] [Samples.payment_card] None))
              1 (Samples.order_with "canceled" [] [Samples.payment_card] None)
              Samples.payment_card "pi_3OxT" Samples.intent_succeeded
              eq_refl eq_refl eq_refl eq_refl ltac:(discriminate) ltac:(discriminate)
              eq_refl)
    as (_ & _ & _ & order' & payment' & Hrow & _ & _ & _ & _ & _ & Hpaid & _).
  rewrite Hrow. simpl. by rewrite (proj1 (Hpaid eq_refl)).
Defined.

(** X22: a slip sent for an order puts its last payment back to [init],
    whatever its status was (a payment already confirmed too), with the
    address of the file as [slip_url]; the method, reference, amount and
    [paid_at] of that payment, the earlier payments and the status of the
    order stay as they were. An order without payment gets one by
    transfer, of amount 0. The name of the file sent is not used: the
    file is stored under the name made of the order number and the
    clock. *)
Theorem upload_slip_resets (secure_filename : string -> string)
    (utcnow_timestamp order_no sent : string) (db : DB) (order_id : Z) (order : Order.t) :
  Store.order_by_no order_no db = Some (order_id, order) ->
  sent <> "" ->
  let result :=
    Store.upload_slip secure_filename utcnow_timestamp order_no (Some sent) db in
  let db' := fst (fst result) in
  let filename :=
    secure_filename (order_no +:+ "_slip_" +:+ utcnow_timestamp +:+ ".png") in
  snd result = [filename]
  /\ variants db' = variants db
  /\ (forall j, j <> order_id -> orders db' !! j = orders db !! j)
  /\ exists order' payment',
       orders db' !! order_id = Some order'
       /\ Order.status order' = Order.status order
       /\ Order.items order' = Order.items order
       /\ Order.shipment order' = Order.shipment order
       /\ last (Order.payments order') = Some payment'
       /\ Payment.status payment' = "init"
       /\ Payment.slip_url payment' = Some ("/static/uploads/" +:+ filename)
       /\ (forall payment,
             last (Order.payments order) = Some payment ->
             length (Order.payments order') = length (Order.payments order)
             /\ take (Nat.pred (length (Order.payments order))) (Order.payments order')
                = take (Nat.pred (length (Order.payments order))) (Order.payments order)
             /\ Payment.method payment' = Payment.method payment
             /\ Payment.ref payment' = Payment.ref payment
             /\ Payment.amount payment' = Payment.amount payment
             /\ Payment.paid_at payment' = Payment.paid_at payment)
       /\ (Order.payments order = [] ->
           Order.payments order' = [payment']
           /\ Payment.method payment' = "transfer"
           /\ Payment.ref payment' = None
           /\ Payment.amount payment' = 0%Q
           /\ Payment.paid_at payment' = None).
Proof.
  intros Hfind Hsent. unfold Store.upload_slip. rewrite Hfind.
  assert (Htruthy : Py.truthy_str (Some sent) = true) by (by destruct sent).
  rewrite Htruthy.
  cbn [negb Txn.working Txn.write Txn.begin Txn.committed Txn.commit Txn.finish fst snd].
  split; [reflexivity|]. split; [reflexivity|].
  split; [intros j Hj; simpl; by rewrite lookup_insert_ne|].
  simpl. rewrite lookup_insert_eq.
  destruct (last (Order.payments order)) as [payment|] eqn:Hlast.
  - match goal with
    | |- context [<[_ := ?p]> (Order.payments order)] =>
        destruct (last_insert_pred (Order.payments order) payment p Hlast)
          as (Hlast' & Htake & Hlength)
    end.
    eexists _, _. split; [reflexivity|]. simpl.
    repeat (split; [reflexivity|]). split; [exact Hlast'|].
    repeat (split; [reflexivity|]). split.
    + intros ? [= <-]. by repeat split.
    + intros Hnil. by rewrite Hnil in Hlast.
  - assert (Hnil : Order.payments order = []).
    { destruct (Order.payments order) as [|p l] using rev_ind; [done|].
      by rewrite last_snoc in Hlast. }
    eexists _, _. split; [reflexivity|]. simpl. rewrite Hnil. simpl.
    repeat (split; [reflexivity|]). split; [discriminate|]. by intros _.
Qed.

Lemma upload_slip_resets_witness :
  Payment.status <$>
    (orders (fst (fst (Store.upload_slip (fun name => name) "1704240000"
                         "BT20240101120000042" (Some "slip.jpg")
                         (Samples.db_with 1
                            (Samples.order_with "paid" []
                               [Payment.with_status "confirmed" Samples.payment_init]
                               None))))) !! 1
       ≫= fun order => last (Order.payments order))
  = Some "init".
Proof.
  destruct (upload_slip_resets (fun name => name) "1704240000" "BT20240101120000042"
              "slip.jpg"
              (Samples.db_with 1
                 (Samples.order_with "paid" []
                    [Payment.with_status "confirmed" Samples.payment_init] None))
              1 (Samples.order_with "paid" []
                   [Payment.with_status "confirmed" Samples.payment_init] None)
              eq_refl ltac:(discriminate))
    as (_ & _ & _ & order' & payment' & Hrow & _ & _ & _ & Hlast & Hstatus & _).
  rewrite Hrow. simpl. rewrite Hlast. simpl. by rewrite Hstatus.
Defined.

(** ** Slugs of the blog *)

(** Among more candidates than there are names taken, one is free: the
    first free candidate comes within as many as there are names. *)
Lemma first_free (taken : list string) (candidate : nat -> string) :
  (forall i j, candidate i = candidate j -> i = j) ->
  exists k, (k <= length taken)%nat
            /\ (candidate k ∉ taken)
            /\ (forall j, (j < k)%nat -> candidate j ∈ taken).
Proof.
  intros Hinj.
  destruct (list_find (fun k => candidate k ∉ taken) (seq 0 (S (length taken))))
    as [[i k]|] eqn:Hfind.
  - apply list_find_Some in Hfind as (Hi & Hfree & Hleast).
    apply lookup_seq in Hi as [-> Hlt]. rewrite Nat.add_0_l in *.
    exists i. split; [lia|]. split; [done|]. intros j Hj.
    destruct (decide (candidate j ∈ taken)) as [|Hnot]; [done|].
    exfalso. apply (Hleast j j); [apply lookup_seq; lia | lia | done].
  - apply list_find_None in Hfind. exfalso.
    assert (Hsub : candidate <$> seq 0 (S (length taken)) ⊆+ taken).
    { apply NoDup_submseteq.
      - apply NoDup_fmap_2_strong; [intros; by apply Hinj | apply NoDup_seq].
      - intros s (k & -> & Hk)%list_elem_of_fmap.
        rewrite Forall_forall in Hfind. specialize (Hfind k Hk).
        by destruct (decide (candidate k ∈ taken)). }
    apply submseteq_length in Hsub. rewrite length_fmap, length_seq in Hsub. lia.
Qed.

Lemma slug_candidate_inj (base_slug : string) (i j : nat) :
  Reference.slug_candidate base_slug i = Reference.slug_candidate base_slug j -> i = j.
Proof.
  assert (Hlonger : forall k,
             Reference.slug_candidate base_slug 0 <> Reference.slug_candidate base_slug (S k)).
  { intros k Heq. apply (f_equal String.length) in Heq. simpl in Heq.
    rewrite !string_length_app in Heq. simpl in Heq. lia. }
  destruct i as [|i], j as [|j]; intros Heq.
  - reflexivity.
  - by apply Hlonger in Heq.
  - symmetry in Heq. by apply Hlonger in Heq.
  - simpl in Heq. do 2 apply String.app_inj in Heq.
    apply (format_int_inj 10 ltac:(lia) 0) in Heq; lia.
Qed.

Lemma first_by_slug_None (slug : string) (posts : gmap Z BlogPost.t) :
  AdminBlog.first_by_slug slug posts = None <-> slug ∉ Reference.slugs posts.
Proof.
  unfold AdminBlog.first_by_slug, Reference.slugs.
  rewrite fmap_None, list_find_None, Forall_forall, list_elem_of_fmap. split.
  - intros Hall (row & -> & Hin). by apply (Hall row).
  - intros Hnot row Hin Heq. apply Hnot. by exists row.
Qed.

Lemma first_other_by_slug_None (slug : string) (post_id : Z) (posts : gmap Z BlogPost.t) :
  AdminBlog.first_other_by_slug slug post_id posts = None
  <-> slug ∉ Reference.slugs_of_others post_id posts.
Proof.
  unfold AdminBlog.first_other_by_slug, Reference.slugs_of_others.
  rewrite fmap_None, list_find_None, Forall_forall, list_elem_of_fmap. split.
  - intros Hall (row & -> & [Hne Hin]%list_elem_of_filter). by apply (Hall row).
  - intros Hnot row Hin [Heq Hne]. apply Hnot. exists row. split; [done|].
    by apply list_elem_of_filter.
Qed.

Lemma elem_of_slugs (slug : string) (posts : gmap Z BlogPost.t) :
  slug ∈ Reference.slugs posts
  <-> exists i p, posts !! i = Some p /\ BlogPost.slug p = slug.
Proof.
  unfold Reference.slugs. rewrite list_elem_of_fmap. split.
  - intros ([i p] & -> & Hin). exists i, p. split; [|done].
    by apply elem_of_map_to_list.
  - intros (i & p & Hp & <-). exists (i, p). split; [done|].
    by apply elem_of_map_to_list.
Qed.

Lemma elem_of_slugs_of_others (slug : string) (post_id : Z) (posts : gmap Z BlogPost.t) :
  slug ∈ Reference.slugs_of_others post_id posts
  <-> exists i p, i <> post_id /\ posts !! i = Some p /\ BlogPost.slug p = slug.
Proof.
  unfold Reference.slugs_of_others. rewrite list_elem_of_fmap. split.
  - intros ([i p] & -> & [Hne Hin]%list_elem_of_filter). exists i, p.
    split; [done|]. split; [|done]. by apply elem_of_map_to_list.
  - intros (i & p & Hne & Hp & <-). exists (i, p). split; [done|].
    apply list_elem_of_filter. split; [done|]. by apply elem_of_map_to_list.
Qed.

(** The loop of [blog_create] returns the first candidate that is
    free, when the fuel reaches it. *)
Lemma unique_slug_loop_first (posts : gmap Z BlogPost.t) (base_slug : string)
    (k fuel i : nat) :
  (k < fuel)%nat ->
  Reference.slug_candidate base_slug (i + k) ∉ Reference.slugs posts ->
  (forall j, (j < k)%nat ->
             Reference.slug_candidate base_slug (i + j) ∈ Reference.slugs posts) ->
  AdminBlog.unique_slug_loop fuel posts base_slug
    (Reference.slug_candidate base_slug i) (Z.of_nat i + 2)
  = Some (Reference.slug_candidate base_slug (i + k)).
Proof.
  revert fuel i. induction k as [|k IH]; intros [|fuel] i Hfuel Hfree Htaken; try lia.
  - simpl. rewrite Nat.add_0_r in Hfree.
    apply first_by_slug_None in Hfree. by rewrite Hfree, Nat.add_0_r.
  - simpl.
    destruct (AdminBlog.first_by_slug _ posts) eqn:Hfirst.
    + replace (i + S k)%nat with (S i + k)%nat by lia.
      rewrite <- (IH fuel (S i)).
      * change (Reference.slug_candidate base_slug (S i))
          with (base_slug +:+ "-" +:+ AdminBlog.str_of_int (Z.of_nat i + 2)).
        f_equal. lia.
      * lia.
      * by replace (S i + k)%nat with (i + S k)%nat by lia.
      * intros j Hj. replace (S i + j)%nat with (i + S j)%nat by lia.
        apply Htaken. lia.
    + apply first_by_slug_None in Hfirst. exfalso. apply Hfirst.
      specialize (Htaken 0%nat ltac:(lia)). by rewrite Nat.add_0_r in Htaken.
Qed.

(** The loop of [blog_edit] likewise, from the second candidate on. *)
Lemma free_counter_loop_first (posts : gmap Z BlogPost.t) (post_id : Z)
    (base_slug : string) (k fuel i : nat) :
  (k < fuel)%nat ->
  Reference.slug_candidate base_slug (S (i + k))
    ∉ Reference.slugs_of_others post_id posts ->
  (forall j, (j < k)%nat ->
             Reference.slug_candidate base_slug (S (i + j))
               ∈ Reference.slugs_of_others post_id posts) ->
  AdminBlog.free_counter_loop fuel posts post_id base_slug (Z.of_nat i + 2)
  = Some (Z.of_nat (i + k) + 2).
Proof.
  revert fuel i. induction k as [|k IH]; intros [|fuel] i Hfuel Hfree Htaken; try lia.
  - simpl. rewrite Nat.add_0_r in Hfree.
    apply first_other_by_slug_None in Hfree. simpl in Hfree.
    by rewrite Hfree, Nat.add_0_r.
  - simpl.
    destruct (AdminBlog.first_other_by_slug _ post_id posts) eqn:Hfirst.
    + replace (Z.of_nat i + 2 + 1) with (Z.of_nat (S i) + 2) by lia.
      rewrite (IH fuel (S i)).
      * f_equal. lia.
      * lia.
      * by replace (S i + k)%nat with (i + S k)%nat by lia.
      * intros j Hj. replace (S i + j)%nat with (i + S j)%nat by lia.
        apply Htaken. lia.
    + apply first_other_by_slug_None in Hfirst. exfalso. apply Hfirst.
      specialize (Htaken 0%nat ltac:(lia)). by rewrite Nat.add_0_r in Htaken.
Qed.

Lemma unique_slug_loop_free (posts : gmap Z BlogPost.t) (base_slug : string)
    (fuel : nat) (unique_slug : string) (counter : Z) (found : string) :
  AdminBlog.unique_slug_loop fuel posts base_slug unique_slug counter = Some found ->
  found ∉ Reference.slugs posts.
Proof.
  revert unique_slug counter.
  induction fuel as [|fuel IH]; intros unique_slug counter; simpl; [done|].
  destruct (AdminBlog.first_by_slug unique_slug posts) eqn:Hfirst.
  - apply IH.
  - intros [= <-]. by apply first_by_slug_None.
Qed.

Lemma free_counter_loop_free (posts : gmap Z BlogPost.t) (post_id : Z)
    (base_slug : string) (fuel : nat) (counter found : Z) :
  AdminBlog.free_counter_loop fuel posts post_id base_slug counter = Some found ->
  base_slug +:+ "-" +:+ AdminBlog.str_of_int found
    ∉ Reference.slugs_of_others post_id posts.
Proof.
  revert counter. induction fuel as [|fuel IH]; intros counter; simpl; [done|].
  destruct (AdminBlog.first_other_by_slug _ post_id posts) eqn:Hfirst.
  - apply IH.
  - intros [= <-]. by apply first_other_by_slug_None.
Qed.

Lemma slug_candidate_nonempty (base_slug : string) (i : nat) :
  base_slug <> "" -> Reference.slug_candidate base_slug i <> "".
Proof.
  intros Hbase. destruct i as [|i]; [done|]. simpl.
  destruct base_slug; [done|]. by rewrite string_app_cons.
Qed.

Lemma length_slugs (posts : gmap Z BlogPost.t) :
  length (Reference.slugs posts) = size posts.
Proof. unfold Reference.slugs. by rewrite length_fmap, length_map_to_list. Qed.

Lemma length_slugs_of_others (post_id : Z) (posts : gmap Z BlogPost.t) :
  (length (Reference.slugs_of_others post_id posts) <= size posts)%nat.
Proof.
  unfold Reference.slugs_of_others.
  rewrite length_fmap, <- (length_map_to_list posts). apply length_filter.
Qed.

(** X23: [blog_create] with a title and a content always ends, within
    as many turns of its loop as there are posts and one more, and adds
    one post under a key no post had. The slug of the new post is the
    first that no post uses among the base, the base with [-2], with
    [-3] and so on, where the base is what [slugify] makes of the slug
    or else of the title, or [post-] and the clock when that is empty;
    so the slug is never empty and never the slug of another post. The
    post is dated when, and only when, it is published. *)
Theorem blog_create_fresh_slug (slugify : string -> string) (fuel : nat)
    (utcnow utcnow_timestamp : Z) (form : AdminBlog.Form) (posts : gmap Z BlogPost.t) :
  Py.truthy_str (AdminBlog.title form) = true ->
  Py.truthy_str (AdminBlog.content form) = true ->
  (size posts < fuel)%nat ->
  let slug_value :=
    if Py.truthy_str (AdminBlog.slug form) then default "" (AdminBlog.slug form)
    else default "" (AdminBlog.title form) in
  let base_slug :=
    if Py.str_eq (slugify slug_value) ""
    then "post-" +:+ AdminBlog.str_of_int utcnow_timestamp
    else slugify slug_value in
  exists k post message,
    AdminBlog.blog_create slugify fuel utcnow utcnow_timestamp Store.POST form posts
    = Some (<[next_id posts := post]> posts,
            {| response := Redirect "admin.blog_list" None;
               flashes := [(message, "success")] |})
    /\ posts !! next_id posts = None
    /\ (k <= size posts)%nat
    /\ BlogPost.slug post = Reference.slug_candidate base_slug k
    /\ (forall j, (j < k)%nat ->
          exists i p, posts !! i = Some p
                      /\ BlogPost.slug p = Reference.slug_candidate base_slug j)
    /\ (forall i p, posts !! i = Some p -> BlogPost.slug p <> BlogPost.slug post)
    /\ BlogPost.slug post <> ""
    /\ AdminBlog.title form = Some (BlogPost.title post)
    /\ AdminBlog.content form = Some (BlogPost.content post)
    /\ BlogPost.is_published post = Py.truthy_str (AdminBlog.is_published form)
    /\ BlogPost.published_at post
       = if Py.truthy_str (AdminBlog.is_published form) then Some utcnow else None.
Proof.
  intros Htitle Hcontent Hfuel slug_value base_slug.
  destruct (first_free (Reference.slugs posts) (Reference.slug_candidate base_slug)
              (slug_candidate_inj base_slug))
    as (k & Hk & Hfree & Htaken).
  rewrite length_slugs in Hk.
  pose proof (unique_slug_loop_first posts base_slug k fuel 0 ltac:(lia) Hfree Htaken)
    as Hloop.
  change (Z.of_nat 0 + 2) with 2 in Hloop. simpl in Hloop.
  unfold AdminBlog.blog_create. rewrite Htitle, Hcontent. cbn [negb orb].
  assert (Hvalue :
            (if Py.truthy_str (AdminBlog.slug form) then default "" (AdminBlog.slug form)
             else if true then default "" (AdminBlog.title form) else "") = slug_value)
    by reflexivity.
  rewrite Hvalue.
  assert (Hbase :
            (if negb (Py.truthy_str (Some (slugify slug_value)))
             then "post-" +:+ AdminBlog.str_of_int utcnow_timestamp
             else slugify slug_value) = base_slug).
  { subst base_slug. by destruct (slugify slug_value). }
  rewrite Hbase, Hloop.
  eexists k, _, _. split; [reflexivity|].
  split; [apply next_id_fresh|]. split; [exact Hk|].
  assert (Hslug : forall (b : bool) (p : BlogPost.t),
             BlogPost.slug (if b then BlogPost.publish utcnow p else p) = BlogPost.slug p)
    by (by intros []).
  rewrite Hslug. simpl. split; [reflexivity|]. split.
  { intros j Hj. by apply elem_of_slugs, Htaken. }
  split.
  { intros i p Hp Heq. apply Hfree, elem_of_slugs. by exists i, p. }
  split.
  { apply slug_candidate_nonempty. subst base_slug. unfold Py.str_eq.
    by destruct (String.eqb_spec (slugify slug_value) ""). }
  destruct (AdminBlog.title form) as [title|]; [|done].
  destruct (AdminBlog.content form) as [content|]; [|done].
  by destruct (Py.truthy_str (AdminBlog.is_published form)).
Qed.

Lemma blog_create_fresh_slug_witness :
  exists post,
    fst <$> AdminBlog.blog_create (fun s => s) 2 1704240000 1704240000 Store.POST
              Samples.form_care {[ 1 := Samples.post_care ]}
    = Some (<[2 := post]> {[ 1 := Samples.post_care ]})
    /\ BlogPost.slug post <> BlogPost.slug Samples.post_care.
Proof.
  destruct (blog_create_fresh_slug (fun s => s) 2 1704240000 1704240000
              Samples.form_care {[ 1 := Samples.post_care ]}
              eq_refl eq_refl ltac:(rewrite map_size_singleton; lia))
    as (k & post & message & Hrun & _ & _ & _ & _ & Hfresh & _).
  exists post. rewrite Hrun. split; [reflexivity|].
  apply not_eq_sym, (Hfresh 1). reflexivity.
Defined.

Lemma slugs_unique_insert (posts : gmap Z BlogPost.t) (post_id : Z) (post : BlogPost.t) :
  Reference.slugs_unique posts ->
  (forall i p, i <> post_id -> posts !! i = Some p ->
               BlogPost.slug p <> BlogPost.slug post) ->
  Reference.slugs_unique (<[post_id := post]> posts).
Proof.
  intros Hunique Hfresh i j p q Hp Hq Heq.
  destruct (decide (i = post_id)) as [->|Hi], (decide (j = post_id)) as [->|Hj];
    [done| | |].
  - rewrite lookup_insert_eq in Hp. rewrite lookup_insert_ne in Hq by done.
    injection Hp as <-. by destruct (Hfresh j q Hj Hq).
  - rewrite lookup_insert_eq in Hq. rewrite lookup_insert_ne in Hp by done.
    injection Hq as <-. by destruct (Hfresh i p Hi Hp).
  - rewrite lookup_insert_ne in Hp, Hq by done. by apply (Hunique i j p q).
Qed.

(** X24: the handlers keep the slugs apart. From a table in which no
    two posts have the same slug, [blog_create], [blog_edit] and
    [blog_delete] lead to such a table, whatever the form and the
    clock. *)
Theorem blog_slugs_stay_unique (slugify : string -> string) (posts : gmap Z BlogPost.t) :
  Reference.slugs_unique posts ->
  (forall fuel utcnow utcnow_timestamp method form posts' outcome,
      AdminBlog.blog_create slugify fuel utcnow utcnow_timestamp method form posts
      = Some (posts', outcome) ->
      Reference.slugs_unique posts')
  /\ (forall fuel utcnow post_id method form posts' outcome,
        AdminBlog.blog_edit slugify fuel utcnow post_id method form posts
        = Some (posts', outcome) ->
        Reference.slugs_unique posts')
  /\ (forall post_id, Reference.slugs_unique (fst (AdminBlog.blog_delete post_id posts))).
Proof.
  intros Hunique. split; [|split].
  - intros fuel utcnow utcnow_timestamp method form posts' outcome.
    unfold AdminBlog.blog_create. destruct method; [by intros [= <- _]|].
    destruct (negb _ || negb _); [by intros [= <- _]|].
    destruct (AdminBlog.unique_slug_loop _ _ _ _ _) as [unique_slug|] eqn:Hloop;
      [|done].
    intros [= <- _]. apply unique_slug_loop_free in Hloop.
    apply slugs_unique_insert; [done|]. intros i p _ Hp Heq. apply Hloop.
    apply elem_of_slugs. exists i, p. split; [done|]. rewrite Heq.
    by destruct (Py.truthy_str (AdminBlog.is_published form)).
  - intros fuel utcnow post_id method form posts' outcome.
    unfold AdminBlog.blog_edit.
    destruct (posts !! post_id) as [post|] eqn:Hpost; [|by intros [= <- _]].
    destruct method; [by intros [= <- _]|].
    destruct (negb _ || negb _); [by intros [= <- _]|].
    set (base_slug := if Py.truthy_str (Some (slugify _)) then _ else _).
    destruct (if negb (Py.str_eq base_slug (BlogPost.slug post)) && _ then _ else _)
      as [unique_slug|] eqn:Hslug; [|done].
    intros [= <- _]. apply slugs_unique_insert; [done|].
    intros i p Hi Hp Heq.
    assert (Hother : BlogPost.slug p ∈ Reference.slugs_of_others post_id posts).
    { apply elem_of_slugs_of_others. by exists i, p. }
    assert (Hnew : BlogPost.slug p = unique_slug).
    { rewrite Heq. by destruct (Py.truthy_str (AdminBlog.is_published form)). }
    clear Heq. rewrite Hnew in Hother. clear Hnew.
    unfold Py.str_eq in Hslug.
    destruct (String.eqb_spec base_slug (BlogPost.slug post)) as [Hsame|Hchanged];
      simpl in Hslug.
    + injection Hslug as <-.
      apply elem_of_slugs_of_others in Hother as (i' & p' & Hi' & Hp' & Hslug').
      apply Hi'. apply (Hunique i' post_id p' post Hp' Hpost). congruence.
    + case_bool_decide as Htaken.
      * destruct (AdminBlog.free_counter_loop _ _ _ _ _) as [counter|] eqn:Hloop;
          [|done].
        injection Hslug as <-. by apply free_counter_loop_free in Hloop.
      * injection Hslug as <-. apply Htaken.
        destruct (AdminBlog.first_other_by_slug base_slug post_id posts) eqn:Hfirst;
          [by eexists|].
        by apply first_other_by_slug_None in Hfirst.
  - intros post_id. unfold AdminBlog.blog_delete.
    destruct (posts !! post_id); [|done]. simpl.
    intros i j p q Hp Hq. apply lookup_delete_Some in Hp as [_ Hp].
    apply lookup_delete_Some in Hq as [_ Hq]. by apply (Hunique i j p q).
Qed.

Lemma slugs_unique_singleton (post_id : Z) (post : BlogPost.t) :
  Reference.slugs_unique {[ post_id := post ]}.
Proof.
  intros i j p q [-> _]%lookup_singleton_Some [-> _]%lookup_singleton_Some _.
  reflexivity.
Qed.

Lemma slugs_unique_posts_two : Reference.slugs_unique Samples.posts_two.
Proof.
  apply slugs_unique_insert; [apply slugs_unique_singleton|].
  intros i p _ [_ <-]%lookup_singleton_Some. discriminate.
Qed.

Lemma blog_slugs_stay_unique_witness :
  exists created edited,
    fst <$> AdminBlog.blog_create (fun s => s) 3 1704240000 1704240000 Store.POST
              Samples.form_care Samples.posts_two
    = Some created
    /\ BlogPost.slug <$> created !! 3 = Some "betta-care-3"
    /\ Reference.slugs_unique created
    /\ fst <$> AdminBlog.blog_edit (fun s => s) 3 1704240000 2 Store.POST
                 Samples.form_care Samples.posts_two
       = Some edited
    /\ BlogPost.slug <$> edited !! 2 = Some "betta-care-2"
    /\ Reference.slugs_unique edited.
Proof.
  destruct (blog_slugs_stay_unique (fun s => s) Samples.posts_two slugs_unique_posts_two)
    as (Hcreate & Hedit & _).
  destruct (AdminBlog.blog_create (fun s => s) 3 1704240000 1704240000 Store.POST
              Samples.form_care Samples.posts_two) as [[created outcome]|] eqn:Hcreated;
    [|discriminate Hcreated].
  destruct (AdminBlog.blog_edit (fun s => s) 3 1704240000 2 Store.POST
              Samples.form_care Samples.posts_two) as [[edited outcome']|] eqn:Hedited;
    [|discriminate Hedited].
  exists created, edited.
  split; [reflexivity|]. split; [by injection Hcreated as <- _|].
  split; [exact (Hcreate _ _ _ _ _ _ _ Hcreated)|].
  split; [reflexivity|]. split; [by injection Hedited as <- _|].
  exact (Hedit _ _ _ _ _ _ _ Hedited).
Defined.

(** X25: [blog_edit] of a post that exists, with a title and a content,
    always ends and rewrites that post only. The post keeps its slug
    when [slugify] gives it back, or gives nothing; otherwise it takes
    the base when no other post has it, and else the first of the base
    with [-2], [-3] and so on that no other post has. A post that stays
    published keeps the date of its first publication, a post published
    now is dated now, and a post no longer published loses its date. *)
Theorem blog_edit_rewrites (slugify : string -> string) (fuel : nat) (utcnow : Z)
    (post_id : Z) (form : AdminBlog.Form) (posts : gmap Z BlogPost.t) (post : BlogPost.t) :
  posts !! post_id = Some post ->
  Py.truthy_str (AdminBlog.title form) = true ->
  Py.truthy_str (AdminBlog.content form) = true ->
  (size posts < fuel)%nat ->
  let slug_value :=
    if Py.truthy_str (AdminBlog.slug form) then default "" (AdminBlog.slug form)
    else default "" (AdminBlog.title form) in
  let base_slug :=
    if Py.str_eq (slugify slug_value) "" then BlogPost.slug post
    else slugify slug_value in
  exists k post' message,
    AdminBlog.blog_edit slugify fuel utcnow post_id Store.POST form posts
    = Some (<[post_id := post']> posts,
            {| response := Redirect "admin.blog_list" None;
               flashes := [(message, "success")] |})
    /\ (k <= size posts)%nat
    /\ BlogPost.slug post' = Reference.slug_candidate base_slug k
    /\ (base_slug = BlogPost.slug post -> k = 0%nat)
    /\ (forall j, (j < k)%nat ->
          exists i p, i <> post_id /\ posts !! i = Some p
                      /\ BlogPost.slug p = Reference.slug_candidate base_slug j)
    /\ (base_slug <> BlogPost.slug post ->
        forall i p, i <> post_id -> posts !! i = Some p ->
                    BlogPost.slug p <> BlogPost.slug post')
    /\ AdminBlog.title form = Some (BlogPost.title post')
    /\ AdminBlog.content form = Some (BlogPost.content post')
    /\ BlogPost.hero_image post' = AdminBlog.hero_image form
    /\ BlogPost.is_published post' = Py.truthy_str (AdminBlog.is_published form)
    /\ BlogPost.published_at post'
       = if Py.truthy_str (AdminBlog.is_published form)
         then Some (default utcnow (BlogPost.published_at post))
         else None.
Proof.
  intros Hpost Htitle Hcontent Hfuel slug_value base_slug.
  assert (Hsize : (0 < size posts)%nat).
  { destruct (decide (size posts = 0%nat)) as [Hzero|]; [|lia].
    apply map_size_empty_iff in Hzero. by rewrite Hzero, lookup_empty in Hpost. }
  assert (Hothers : (length (Reference.slugs_of_others post_id posts) < size posts)%nat).
  { unfold Reference.slugs_of_others.
    rewrite length_fmap, <- (length_map_to_list posts).
    apply (length_filter_lt _ _ (post_id, post)); [|simpl; tauto].
    by apply elem_of_map_to_list. }
  unfold AdminBlog.blog_edit. rewrite Hpost, Htitle, Hcontent. cbn [negb orb].
  assert (Hvalue :
            (if Py.truthy_str (AdminBlog.slug form) then default "" (AdminBlog.slug form)
             else if true then default "" (AdminBlog.title form)
                  else BlogPost.slug post) = slug_value)
    by reflexivity.
  rewrite Hvalue.
  assert (Hbase :
            (if Py.truthy_str (Some (slugify slug_value))
             then slugify slug_value else BlogPost.slug post) = base_slug).
  { subst base_slug. by destruct (slugify slug_value). }
  rewrite Hbase.
  assert (Hslug : forall (b : bool) (p q : BlogPost.t),
             BlogPost.slug p = BlogPost.slug q ->
             BlogPost.slug (if b then BlogPost.publish utcnow p else q) = BlogPost.slug q)
    by (by intros [] p q Heq).
  unfold Py.str_eq at 1.
  destruct (String.eqb_spec base_slug (BlogPost.slug post)) as [Hsame|Hchanged];
    cbn [negb andb].
  { exists 0%nat. eexists _, _. split; [reflexivity|]. split; [lia|].
    rewrite Hslug by reflexivity. split; [reflexivity|]. split; [done|].
    split; [intros j Hj; lia|]. split; [done|].
    destruct (AdminBlog.title form) as [title|]; [|done].
    destruct (AdminBlog.content form) as [content|]; [|done].
    destruct (Py.truthy_str (AdminBlog.is_published form)); simpl; [|done].
    by destruct (BlogPost.published_at post). }
  case_bool_decide as Htaken.
  - destruct (first_free (Reference.slugs_of_others post_id posts)
                (fun i => Reference.slug_candidate base_slug (S i)))
      as (k & Hk & Hfree & Hbefore).
    { intros i j Heq. apply slug_candidate_inj in Heq. lia. }
    pose proof (free_counter_loop_first posts post_id base_slug k fuel 0
                  ltac:(lia) Hfree Hbefore) as Hloop.
    change (Z.of_nat 0 + 2) with 2 in Hloop. rewrite Nat.add_0_l in Hloop.
    rewrite Hloop. cbn [fmap option_fmap option_map].
    exists (S k). eexists _, _. split; [reflexivity|]. split; [lia|].
    rewrite Hslug by reflexivity. split; [simpl; do 3 f_equal; lia|].
    split; [done|]. split.
    { intros [|j] Hj.
      - apply elem_of_slugs_of_others. simpl.
        destruct (AdminBlog.first_other_by_slug base_slug post_id posts) eqn:Hfirst.
        + destruct (decide (base_slug ∈ Reference.slugs_of_others post_id posts));
            [done|].
          by apply first_other_by_slug_None in n; rewrite n in Hfirst.
        + by destruct Htaken.
      - apply elem_of_slugs_of_others, Hbefore. lia. }
    split.
    { intros _ i p Hi Hp Heq. apply Hfree. apply elem_of_slugs_of_others.
      exists i, p. repeat (split; [done|]). by rewrite Heq. }
    destruct (AdminBlog.title form) as [title|]; [|done].
    destruct (AdminBlog.content form) as [content|]; [|done].
    destruct (Py.truthy_str (AdminBlog.is_published form)); simpl; [|done].
    by destruct (BlogPost.published_at post).
  - exists 0%nat. eexists _, _. split; [reflexivity|]. split; [lia|].
    rewrite Hslug by reflexivity. split; [reflexivity|]. split; [done|].
    split; [intros j Hj; lia|]. split.
    { intros _ i p Hi Hp Heq. apply Htaken.
      destruct (AdminBlog.first_other_by_slug base_slug post_id posts) eqn:Hfirst;
        [by eexists|].
      apply first_other_by_slug_None in Hfirst. destruct Hfirst.
      apply elem_of_slugs_of_others. by exists i, p. }
    destruct (AdminBlog.title form) as [title|]; [|done].
    destruct (AdminBlog.content form) as [content|]; [|done].
    destruct (Py.truthy_str (AdminBlog.is_published form)); simpl; [|done].
    by destruct (BlogPost.published_at post).
Qed.

Lemma blog_edit_rewrites_witness :
  exists post',
    fst <$> AdminBlog.blog_edit (fun s => s) 2 1704240000 1 Store.POST
              Samples.form_care {[ 1 := Samples.post_care ]}
    = Some (<[1 := post']> {[ 1 := Samples.post_care ]})
    /\ BlogPost.published_at post' = Some 1704110400.
Proof.
  assert (Hpost : ({[ 1 := Samples.post_care ]} : gmap Z BlogPost.t) !! 1
                  = Some Samples.post_care) by reflexivity.
  destruct (blog_edit_rewrites (fun s => s) 2 1704240000 1 Samples.form_care
              {[ 1 := Samples.post_care ]} Samples.post_care
              Hpost eq_refl eq_refl ltac:(rewrite map_size_singleton; lia))
    as (k & post' & message & Hrun & _ & _ & _ & _ & _ & _ & _ & _ & _ & Hdate).
  exists post'. rewrite Hrun. split; [reflexivity|]. exact Hdate.
Defined.




(** ** Saving the settings *)

Section SaveSettings.

Variable strip : string -> string.
Variable float : string -> option Q.
Variable format_2f : Q -> string.
Variable str_of_float : Q -> string.
Variable form_data : gmap string string.

Lemma check_field_fold (fields : list Settings.SettingField)
    (errors : list string) (updates : list (Settings.SettingField * string * Settings.Value)) :
  Forall (fun field =>
            Settings.cast_is_float field = false ->
            forall d, Settings.field_default field = Some d ->
                      exists s, d = Settings.Text s) fields ->
  exists more_errors more_updates,
    fold_left (Settings.check_field strip float format_2f str_of_float form_data)
              fields (errors, updates)
    = (errors ++ more_errors, updates ++ more_updates)
    /\ (more_errors = []
        <-> Forall (fun field =>
                  Settings.cast_is_float field = true ->
                  strip (default "" (form_data !! Settings.key field)) = ""
                  \/ is_Some (float (strip (default "" (form_data !! Settings.key field)))))
                  fields)
    /\ (more_errors = [] -> (fun update => fst (fst update)) <$> more_updates = fields)
    /\ Forall (fun update : Settings.SettingField * string * Settings.Value =>
              match snd update with
              | Settings.Text s => snd (fst update) = s
              | Settings.Number x => snd (fst update) = format_2f x
              end) more_updates.
Proof.
  revert errors updates.
  induction fields as [|field fields IH]; intros errors updates Hdefaults.
  - exists [], []. simpl. rewrite !app_nil_r. by repeat split.
  - apply Forall_cons in Hdefaults as [Hdefault Hdefaults]. cbn [fold_left].
    assert (Hstep :
              exists e u,
                Settings.check_field strip float format_2f str_of_float form_data
                  (errors, updates) field
                = (errors ++ e, updates ++ u)
                /\ (e = []
                    <-> (Settings.cast_is_float field = true ->
                         strip (default "" (form_data !! Settings.key field)) = ""
                         \/ is_Some (float (strip (default ""
                                                      (form_data !! Settings.key field))))))
                /\ (e = [] -> exists stored value, u = [(field, stored, value)])
                /\ Forall (fun update : Settings.SettingField * string * Settings.Value =>
                             match snd update with
                             | Settings.Text s => snd (fst update) = s
                             | Settings.Number x => snd (fst update) = format_2f x
                             end) u).
    { unfold Settings.check_field.
      destruct (Settings.cast_is_float field) eqn:Hcast.
      - unfold Py.str_eq.
        destruct (String.eqb_spec (strip (default "" (form_data !! Settings.key field))) "")
          as [Hempty|Hfull].
        + eexists [], [_]. rewrite app_nil_r. split; [reflexivity|].
          split; [split; [by left|done]|]. split; [by eexists _, _|].
          by apply Forall_singleton.
        + destruct (float _) as [casted|] eqn:Hfloat.
          * eexists [], [_]. rewrite app_nil_r. split; [reflexivity|].
            split; [split; [by right|done]|]. split; [by eexists _, _|].
            by apply Forall_singleton.
          * eexists [_], []. rewrite app_nil_r. split; [reflexivity|].
            split; [|split; [done|by apply Forall_nil]].
            split; [done|]. intros Hpass. destruct (Hpass eq_refl) as [|[? ?]]; done.
      - destruct (Settings.field_default field) as [d|] eqn:Hd.
        + destruct (Hdefault eq_refl d eq_refl) as [s ->].
          destruct (Py.str_eq _ ""); eexists [], [_]; rewrite app_nil_r;
            (split; [reflexivity|]); (split; [done|]); (split; [by eexists _, _|]);
            by apply Forall_singleton.
        + eexists [], [_]. rewrite app_nil_r. split; [reflexivity|].
          split; [done|]. split; [by eexists _, _|]. by apply Forall_singleton. }
    destruct Hstep as (e & u & -> & Hpass & Hshape & Hagree).
    destruct (IH (errors ++ e) (updates ++ u) Hdefaults)
      as (more_errors & more_updates & -> & Hpasses & Hfields & Hagrees).
    exists (e ++ more_errors), (u ++ more_updates). rewrite !app_assoc.
    split; [reflexivity|]. split; [|split].
    + rewrite Forall_cons, <- Hpass, <- Hpasses. split.
      * by intros [-> ->]%app_eq_nil.
      * by intros [-> ->].
    + intros [He Hmore]%app_eq_nil. rewrite fmap_app, (Hfields Hmore).
      by destruct (Hshape He) as (stored & value & ->).
    + by apply Forall_app.
Qed.

Lemma apply_update_fold (updates : list (Settings.SettingField * string * Settings.Value))
    (st : Settings.State) :
  NoDup ((fun update => Settings.key (fst (fst update))) <$> updates) ->
  NoDup ((fun update => Settings.config_key (fst (fst update))) <$> updates) ->
  Forall (fun update => Py.truthy_str (Settings.config_key (fst (fst update))) = true)
         updates ->
  let st' := fold_left Settings.apply_update updates st in
  (forall field stored value,
      (field, stored, value) ∈ updates ->
      Settings.settings st' !! Settings.key field = Some (Some stored)
      /\ exists ck, Settings.config_key field = Some ck
                    /\ Settings.config st' !! ck = Some value)
  /\ (forall k, k ∉ (fun update => Settings.key (fst (fst update))) <$> updates ->
                Settings.settings st' !! k = Settings.settings st !! k)
  /\ (forall ck, Some ck ∉ (fun update => Settings.config_key (fst (fst update))) <$> updates ->
                 Settings.config st' !! ck = Settings.config st !! ck).
Proof.
  revert st. induction updates as [|[[field stored] value] updates IH];
    intros st Hkeys Hcks Htruthy; cbv zeta; cbn [fold_left].
  - split; [|by split]. intros ? ? ? Hin. by apply elem_of_nil in Hin.
  - simpl in Hkeys, Hcks.
    apply NoDup_cons in Hkeys as [Hkey Hkeys]. apply NoDup_cons in Hcks as [Hck Hcks].
    apply Forall_cons in Htruthy as [Hconfig Htruthy]. simpl in Hconfig.
    destruct (IH (Settings.apply_update st (field, stored, value)) Hkeys Hcks Htruthy)
      as (Hin & Hout & Hout').
    assert (Hhere :
              Settings.settings (Settings.apply_update st (field, stored, value))
                !! Settings.key field = Some (Some stored)).
    { simpl. destruct (Settings.settings st !! Settings.key field) eqn:Hrow.
      - by rewrite lookup_alter_eq, Hrow.
      - by rewrite lookup_insert_eq. }
    assert (Hthere : forall k,
               k <> Settings.key field ->
               Settings.settings (Settings.apply_update st (field, stored, value)) !! k
               = Settings.settings st !! k).
    { intros k Hk. simpl. destruct (Settings.settings st !! Settings.key field).
      - by rewrite lookup_alter_ne.
      - by rewrite lookup_insert_ne. }
    destruct (Settings.config_key field) as [ck|] eqn:Hfield; [|done].
    split; [|split].
    + intros field' stored' value' [Heq|Hlater]%elem_of_cons.
      * injection Heq as -> -> ->. rewrite Hout by done. split; [exact Hhere|].
        exists ck. split; [exact Hfield|]. rewrite Hout'.
        -- simpl. rewrite Hfield, Hconfig. simpl. by rewrite lookup_insert_eq.
        -- exact Hck.
      * by apply Hin.
    + intros k Hk. apply not_elem_of_cons in Hk as [Hne Hk]. simpl in Hne.
      rewrite (Hout k Hk). by apply Hthere.
    + intros ck' Hck'. apply not_elem_of_cons in Hck' as [Hne Hck']. simpl in Hne.
      rewrite (Hout' ck' Hck'). simpl. rewrite Hfield, Hconfig. simpl.
      rewrite lookup_insert_ne; [done|]. congruence.
Qed.

End SaveSettings.

Lemma schema_fields (tab : string) (fields : list Settings.SettingField) :
  Settings.SETTINGS_SCHEMA !! tab = Some fields ->
  NoDup (Settings.key <$> fields)
  /\ NoDup (Settings.config_key <$> fields)
  /\ Forall (fun field => Py.truthy_str (Settings.config_key field) = true) fields
  /\ Forall (fun field =>
               Settings.cast_is_float field = false ->
               forall d, Settings.field_default field = Some d ->
                         exists s, d = Settings.Text s) fields.
Proof.
  unfold Settings.SETTINGS_SCHEMA.
  rewrite !lookup_insert_Some, lookup_singleton_Some.
  intros [[_ <-]|[_ [[_ <-]|[_ [[_ <-]|[_ [_ <-]]]]]]].
  all: split; [apply (bool_decide_unpack _); vm_compute; exact I|].
  all: split; [apply (bool_decide_unpack _); vm_compute; exact I|].
  all: split; [repeat constructor|].
  all: repeat (apply Forall_cons; split;
               [simpl; intros Hcast d [= <-]; (discriminate || by eexists)|]).
  all: by apply Forall_nil.
Qed.

(** X26: [save_settings] is all or nothing. For a tab of the schema, it
    returns no error exactly when every number field of the tab is left
    empty or holds a text [float] accepts; with an error, the table of
    settings and the configuration are returned as they were, the good
    fields included. Without error, every field of the tab has a row and
    a configured value that agree (the row holds the configured text, or
    the configured number in format [.2f]), and the rows and the
    configuration keys of the other tabs are left alone. *)
Theorem save_settings_all_or_nothing (strip : string -> string)
    (float : string -> option Q) (format_2f str_of_float : Q -> string)
    (tab : string) (form_data : gmap string string) (st : Settings.State)
    (fields : list Settings.SettingField) :
  Settings.SETTINGS_SCHEMA !! tab = Some fields ->
  let raw := fun field => strip (default "" (form_data !! Settings.key field)) in
  let result :=
    Settings.save_settings strip float format_2f str_of_float tab form_data st in
  (snd result = []
   <-> forall field, field ∈ fields -> Settings.cast_is_float field = true ->
                     raw field = "" \/ is_Some (float (raw field)))
  /\ (snd result <> [] -> fst result = st)
  /\ (snd result = [] ->
      (forall field,
          field ∈ fields ->
          exists stored value ck,
            Settings.settings (fst result) !! Settings.key field = Some (Some stored)
            /\ Settings.config_key field = Some ck
            /\ Settings.config (fst result) !! ck = Some value
            /\ match value with
               | Settings.Text s => stored = s
               | Settings.Number x => stored = format_2f x
               end)
      /\ (forall k, k ∉ Settings.key <$> fields ->
                    Settings.settings (fst result) !! k = Settings.settings st !! k)
      /\ (forall ck, Some ck ∉ Settings.config_key <$> fields ->
                     Settings.config (fst result) !! ck = Settings.config st !! ck)).
Proof.
  intros Htab raw result.
  destruct (schema_fields tab fields Htab) as (Hkeys & Hcks & Htruthy & Hdefaults).
  destruct (check_field_fold strip float format_2f str_of_float form_data fields [] []
              Hdefaults)
    as (errors & updates & Hfold & Hpasses & Hfields & Hagree).
  simpl in Hfold.
  subst result raw. unfold Settings.save_settings. rewrite Htab, Hfold.
  rewrite Forall_forall in Hpasses.
  destruct errors as [|error errors].
  - specialize (Hfields eq_refl). simpl.
    split; [split; [intros _; by apply Hpasses|done]|].
    split; [done|]. intros _.
    assert (Hkeys' : (fun update : Settings.SettingField * string * Settings.Value =>
                        Settings.key (fst (fst update))) <$> updates
                     = Settings.key <$> fields).
    { rewrite <- Hfields, <- list_fmap_compose. reflexivity. }
    assert (Hcks' : (fun update : Settings.SettingField * string * Settings.Value =>
                       Settings.config_key (fst (fst update))) <$> updates
                    = Settings.config_key <$> fields).
    { rewrite <- Hfields, <- list_fmap_compose. reflexivity. }
    destruct (apply_update_fold updates st) as (Hin & Hout & Hout').
    { by rewrite Hkeys'. }
    { by rewrite Hcks'. }
    { rewrite Forall_forall in Htruthy. apply Forall_forall.
      intros [[field stored] value] Hupdate. apply Htruthy. rewrite <- Hfields.
      apply list_elem_of_fmap. by eexists. }
    cbv zeta in Hin, Hout, Hout'. rewrite Hkeys' in Hout. rewrite Hcks' in Hout'.
    split; [|by split].
    intros field Hfield. rewrite <- Hfields in Hfield.
    apply list_elem_of_fmap in Hfield as ([[field' stored] value] & -> & Hupdate).
    destruct (Hin field' stored value Hupdate) as (Hrow & ck & Hck & Hconfig).
    exists stored, value, ck. repeat (split; [done|]).
    rewrite Forall_forall in Hagree. exact (Hagree _ Hupdate).
  - simpl. split; [|by split].
    split; [done|]. intros Hall. by apply Hpasses in Hall.
Qed.

Lemma save_settings_all_or_nothing_witness :
  fst (Settings.save_settings (fun s => s) (fun _ => None) (fun _ => "0.00")
         (fun _ => "0.0") "operations"
         {[ "ops.currency" := "USD"; "ops.shipping_domestic" := "abc" ]}
         {| Settings.settings := ∅; Settings.config := ∅ |})
  = {| Settings.settings := ∅; Settings.config := ∅ |}.
Proof.
  assert (Htab : exists fields, Settings.SETTINGS_SCHEMA !! "operations" = Some fields)
    by (eexists; reflexivity).
  destruct Htab as [fields Htab].
  destruct (save_settings_all_or_nothing (fun s => s) (fun _ => None) (fun _ => "0.00")
              (fun _ => "0.0") "operations"
              {[ "ops.currency" := "USD"; "ops.shipping_domestic" := "abc" ]}
              {| Settings.settings := ∅; Settings.config := ∅ |} fields Htab)
    as (_ & Hunchanged & _).
  apply Hunchanged. vm_compute. discriminate.
Defined.

(** ** The price filter of the product list *)

Section PriceFilter.

Variable price_min price_max : option Q.

Lemma filter_by_price_loop (products filtered : list (Product.t * option Variant.t)) :
  fold_left
    (fun filtered product =>
       match snd product with
       | None => filtered
       | Some variant =>
           let price := Variant.price variant in
           if Py.truthy_Q price_min
              && (if Qlt_le_dec price (default 0%Q price_min) then true else false)
           then filtered
           else if Py.truthy_Q price_max
                   && (if Qlt_le_dec (default 0%Q price_max) price then true else false)
           then filtered
           else filtered ++ [product]
       end)
    products filtered
  = filtered
    ++ filter (fun product => Reference.kept_by_price price_min price_max product = true)
              products.
Proof.
  revert filtered. induction products as [|product products IH]; intros filtered.
  - by rewrite app_nil_r.
  - cbn [fold_left]. rewrite IH, filter_cons.
    destruct (decide (Reference.kept_by_price price_min price_max product = true))
      as [Hkept|Hkept];
      unfold Reference.kept_by_price in Hkept;
      destruct (snd product) as [variant|]; try done; cbv zeta;
      destruct (Py.truthy_Q price_min && _); try done;
      destruct (Py.truthy_Q price_max && _); try done.
    by rewrite <- app_assoc.
Qed.

Lemma kept_by_price_true (product : Product.t * option Variant.t) :
  Reference.kept_by_price price_min price_max product = true
  <-> exists variant,
        snd product = Some variant
        /\ (forall bound, price_min = Some bound -> ~ (bound == 0)%Q ->
                          (bound <= Variant.price variant)%Q)
        /\ (forall bound, price_max = Some bound -> ~ (bound == 0)%Q ->
                          (Variant.price variant <= bound)%Q).
Proof.
  unfold Reference.kept_by_price.
  destruct (snd product) as [variant|]; [|split; [done|by intros (? & ? & _)]].
  rewrite andb_true_iff, !negb_true_iff, !andb_false_iff. split.
  - intros [Hmin Hmax]. exists variant. split; [done|]. split.
    + intros bound -> Hnz. simpl in Hmin.
      destruct Hmin as [Hzero|Hle].
      * apply negb_false_iff, Qeq_bool_iff in Hzero. by destruct Hnz.
      * by destruct (Qlt_le_dec (Variant.price variant) bound).
    + intros bound -> Hnz. simpl in Hmax.
      destruct Hmax as [Hzero|Hle].
      * apply negb_false_iff, Qeq_bool_iff in Hzero. by destruct Hnz.
      * by destruct (Qlt_le_dec bound (Variant.price variant)).
  - intros (variant' & [= <-] & Hmin & Hmax). split.
    + destruct price_min as [bound|]; [|by left]. simpl.
      destruct (Qeq_bool bound 0) eqn:Hzero; [by left|right].
      apply Qeq_bool_neq in Hzero. specialize (Hmin bound eq_refl Hzero).
      destruct (Qlt_le_dec (Variant.price variant) bound); [lra|done].
    + destruct price_max as [bound|]; [|by left]. simpl.
      destruct (Qeq_bool bound 0) eqn:Hzero; [by left|right].
      apply Qeq_bool_neq in Hzero. specialize (Hmax bound eq_refl Hzero).
      destruct (Qlt_le_dec bound (Variant.price variant)); [lra|done].
Qed.

(** X27: the price filter of [product_list] keeps the products in
    their order and drops some. With no bound, or bounds that are 0, all
    are kept, those without variant too. With a bound that is not 0, a
    product is kept exactly when it has a primary variant whose price is
    at least the lower bound and at most the upper bound, a bound that
    is missing or 0 not binding. *)
Theorem filter_by_price_keeps (products : list (Product.t * option Variant.t)) :
  let result := Store.filter_by_price price_min price_max products in
  sublist result products
  /\ (Py.truthy_Q price_min = false -> Py.truthy_Q price_max = false ->
      result = products)
  /\ (Py.truthy_Q price_min = true \/ Py.truthy_Q price_max = true ->
      forall product,
        product ∈ result
        <-> product ∈ products
            /\ exists variant,
                 snd product = Some variant
                 /\ (forall bound, price_min = Some bound -> ~ (bound == 0)%Q ->
                                   (bound <= Variant.price variant)%Q)
                 /\ (forall bound, price_max = Some bound -> ~ (bound == 0)%Q ->
                                   (Variant.price variant <= bound)%Q)).
Proof.
  unfold Store.filter_by_price.
  destruct (Py.truthy_Q price_min || Py.truthy_Q price_max) eqn:Hbound; cbv zeta.
  - rewrite filter_by_price_loop, app_nil_l. split; [apply sublist_filter|].
    split.
    + intros Hmin Hmax. by rewrite Hmin, Hmax in Hbound.
    + intros _ product. rewrite list_elem_of_filter, kept_by_price_true. tauto.
  - split; [reflexivity|]. split; [done|].
    apply orb_false_iff in Hbound as [-> ->]. by intros [|].
Qed.

End PriceFilter.

(** ** Confirming what was canceled *)

(** X28: [confirm_payment] undoes the status of a cancellation and
    nothing else of it. After an order is canceled with restock and its
    payment is then confirmed, the order is [paid] again, while the
    stock keeps what the cancellation gave back, and the shipment stays
    canceled: of the payments, the last one alone is confirmed and
    dated, or one by transfer for the grand total is made when there was
    none. *)
Theorem confirm_payment_after_cancel (utcnow : Z) (db : DB) (order_id : Z)
    (order : Order.t) (form_action : option string) :
  orders db !! order_id = Some order ->
  Order.status order <> "canceled" ->
  Order.status order <> "canceled_damaged" ->
  form_action = None \/ form_action = Some "restock" ->
  let canceled := fst (Admin.cancel_order order_id form_action db) in
  let confirmed := fst (Admin.confirm_payment utcnow order_id canceled) in
  (forall i v,
      variants db !! i = Some v ->
      variants confirmed !! i
      = Some (Variant.with_stock_qty
                (Variant.stock_qty v + Reference.restocked i (Order.items order)) v))
  /\ products confirmed = products canceled
  /\ exists order',
       orders confirmed !! order_id = Some order'
       /\ Order.status order' = "paid"
       /\ Order.items order' = Order.items order
       /\ Order.shipment order' = Admin.cancel_shipment <$> Order.shipment order
       /\ (forall earlier latest,
             Order.payments order = earlier ++ [latest] ->
             Order.payments order'
             = map Admin.cancel_payment earlier
               ++ [Payment.with_paid_at (Some utcnow)
                     (Payment.with_status "confirmed" latest)])
       /\ (Order.payments order = [] ->
           Order.payments order'
           = [ {| Payment.method := "transfer"; Payment.ref := None;
                  Payment.amount := Order.grand_total order;
                  Payment.status := "confirmed"; Payment.paid_at := Some utcnow;
                  Payment.slip_url := None |} ]).
Proof.
  intros Ho Hc Hd Haction canceled confirmed.
  assert (Hrun :
            canceled
            = with_orders
                (<[order_id :=
                     Order.with_status "canceled"
                       (Order.with_shipment
                          (Admin.cancel_shipment <$> Order.shipment order)
                          (Order.with_payments
                             (map Admin.cancel_payment (Order.payments order))
                             order))]>
                   (orders (fold_left Admin.restock_item (Order.items order) db)))
                (fold_left Admin.restock_item (Order.items order) db)).
  { subst canceled. unfold Admin.cancel_order, Py.str_eq. rewrite Ho.
    apply String.eqb_neq in Hc, Hd. rewrite Hc, Hd. simpl.
    destruct Haction as [-> | ->]; reflexivity. }
  subst confirmed. rewrite Hrun. unfold Admin.confirm_payment. simpl.
  rewrite lookup_insert_eq. simpl. split; [|split; [reflexivity|]].
  - intros i v Hv. rewrite restock_loop_variants, Hv. reflexivity.
  - rewrite lookup_insert_eq. eexists. split; [reflexivity|].
    destruct (Order.payments order) as [|latest earlier _] using rev_ind.
    + simpl. repeat (split; [reflexivity|]). split; [|done].
      intros earlier latest Heq. by destruct earlier.
    + rewrite map_app. simpl. rewrite last_snoc. simpl.
      repeat (split; [reflexivity|]). split; [|intros Heq; by destruct earlier].
      intros earlier' latest' [-> ->]%app_inj_tail.
      exact (alter_last
               (fun payment => Payment.with_paid_at (Some utcnow)
                                 (Payment.with_status "confirmed" payment))
               (map Admin.cancel_payment earlier') (Admin.cancel_payment latest')).
Qed.

Lemma confirm_payment_after_cancel_witness :
  (fun o => (Order.status o, Payment.status <$> Order.payments o)) <$>
    orders (fst (Admin.confirm_payment 1704240000 1
                   (fst (Admin.cancel_order 1 None
                           (Samples.db_with 0
                              (Samples.order_with "paid" [Samples.item_qty 1]
                                 [Samples.payment_init] None)))))) !! 1
  = Some ("paid", ["confirmed"]).
Proof.
  destruct (confirm_payment_after_cancel 1704240000
              (Samples.db_with 0
                 (Samples.order_with "paid" [Samples.item_qty 1]
                    [Samples.payment_init] None))
              1 (Samples.order_with "paid" [Samples.item_qty 1]
                   [Samples.payment_init] None)
              None eq_refl ltac:(discriminate) ltac:(discriminate) (or_introl eq_refl))
    as (_ & _ & order' & Hrow & Hstatus & _ & _ & Hpayments & _).
  rewrite Hrow. simpl. rewrite Hstatus, (Hpayments [] Samples.payment_init eq_refl).
  reflexivity.
Defined.

(** ** Checkout by card *)

(** The run of [checkout] for a cart that is found with lines whose
    variants and products exist, under a number no order has, paid by
    card, when the provider hands back an intent. *)
Lemma checkout_card_run (env : Store.Env) (form : Store.Form) (w : Store.World)
    (cid : Z) (cart : Cart.t) (intent : Stripe.Intent) :
  Store.cart_id (Store.session w) = Some cid -> cid <> 0 ->
  carts (Store.db w) !! cid = Some cart ->
  Cart.items cart <> [] ->
  (forall line, line ∈ Cart.items cart ->
     exists v p, variants (Store.db w) !! CartItem.variant_id line = Some v
                 /\ products (Store.db w) !! Variant.product_id v = Some p) ->
  Store.payment_method form = Some "stripe" ->
  Store.STRIPE_SECRET_KEY env <> "" ->
  (forall amount currency order_no,
      Store.PaymentIntent_create env amount currency order_no = Py.Return intent) ->
  (forall j o, orders (Store.db w) !! j = Some o ->
     Order.order_no o
     <> "BT" +:+ Store.utcnow_stamp env +:+ Py.format_0d 3 (Store.randbelow_999 env)) ->
  let order_id := next_id (orders (Store.db w)) in
  let domestic := Py.str_eq (Py.upper (default "TH" (Store.country form))) "TH" in
  let coupon :=
    if Py.truthy_str (Store.coupon form)
    then Store.coupon form
           ≫= (fun c => (fun r => (c, r)) <$> coupons (Store.db w) !! c)
    else None in
  let valid :=
    match coupon with
    | Some (_, c) => Coupon.is_valid (Store.utcnow env) c (Cart.total cart) None
    | None => false
    end in
  let discount :=
    match coupon with
    | Some (_, c) => if valid then Coupon.discount_amount c (Cart.total cart) else 0%Q
    | None => 0%Q
    end in
  let order_no :=
    "BT" +:+ Store.utcnow_stamp env +:+ Py.format_0d 3 (Store.randbelow_999 env) in
  let order0 :=
    {| Order.order_no := order_no; Order.status := "pending";
       Order.payment_method := Some "stripe";
       Order.subtotal := Cart.total cart;
       Order.shipping_fee :=
         Shipping.fee
           (if domestic
            then Shipping.calculate_domestic (Store.DEFAULT_SHIPPING_DOMESTIC env) None
            else Shipping.calculate_international
                   (Store.DEFAULT_SHIPPING_INTERNATIONAL env) None);
       Order.discount := discount; Order.grand_total := 0;
       Order.currency := if domestic then "THB" else "USD";
       Order.items := []; Order.payments := []; Order.shipment := None |} in
  exists db1 order1,
    Store.add_order_items order_id (Cart.items cart)
      (with_orders (<[order_id := order0]> (orders (Store.db w))) (Store.db w))
    = Py.Return db1
    /\ orders db1 !! order_id = Some order1
    /\ let order2 := Order.update_totals order1 in
       let payment :=
         {| Payment.method := "stripe";
            Payment.ref := Some (Stripe.id intent);
            Payment.amount :=
              match Stripe.amount intent with
              | Some amount_value => Py.round2 (inject_Z amount_value / 100)
              | None => Order.grand_total order2
              end;
            Payment.status :=
              if Py.truthy_str (Some (Stripe.status intent))
              then Stripe.status intent else "init";
            Payment.paid_at := None;
            Payment.slip_url := None |} in
       let order3 := Order.with_payments (Order.payments order2 ++ [payment]) order2 in
       Store.checkout env Store.POST form w
       = {| Store.world :=
              {| Store.db :=
                   with_carts (alter (Cart.with_items []) cid (carts db1))
                     (with_coupons
                        (match coupon with
                         | Some (code, _) =>
                             alter (fun c => Coupon.with_used_count
                                               (Coupon.used_count c + 1) c)
                                   code (coupons db1)
                         | None => coupons db1
                         end)
                        (with_orders (<[order_id := order3]> (orders db1)) db1));
                 Store.session :=
                   {| Store.cart_id := None;
                      Store.session_id := Store.session_id (Store.session w) |} |};
            Store.outcome :=
              {| response := Redirect "store.order_status" (Some order_no);
                 flashes :=
                   (if Py.truthy_str (Store.coupon form) && negb valid
                    then [("คูปองไม่ถูกต้องหรือหมดอายุ", "warning")] else [])
                   ++ [("สร้างคำสั่งซื้อแล้ว กรุณาชำระเงิน", "success")] |};
            Store.remote_calls := [Py.Return intent] |}.
Proof.
  intros Hcid Hnz Hcart Hitems Hlines Hmethod Hkey Hprovider Hfresh order_id domestic
    coupon valid discount order_no order0.
  apply order_by_no_none in Hfresh.
  destruct (add_order_items_returns order_id (Cart.items cart)
              (with_orders (<[order_id := order0]> (orders (Store.db w))) (Store.db w)))
    as [db1 Hadd].
  { intros line Hin. destruct (Hlines line Hin) as (v & p & Hv & Hp).
    exists v, p. simpl. by split. }
  destruct (add_order_items_return _ _ _ _ Hadd)
    as (_ & _ & _ & _ & items & _ & Horders).
  assert (orders db1 !! order_id
          = Some (Order.with_items (Order.items order0 ++ items) order0)) as Ho1.
  { rewrite Horders. simpl. by rewrite lookup_alter_eq, lookup_insert_eq. }
  exists db1, (Order.with_items (Order.items order0 ++ items) order0).
  split; [exact Hadd|]. split; [exact Ho1|].
  unfold Store.checkout.
  rewrite (get_or_create_cart_finds env (Txn.begin (Store.db w)) _ cid cart Hcid Hnz Hcart).
  destruct (Cart.items cart) as [|line lines] eqn:Hcartitems; [done|].
  cbn [Txn.working Txn.write Txn.begin Txn.committed Txn.commit Txn.finish].
  rewrite Hmethod. change (default "promptpay" (Some "stripe")) with "stripe".
  fold order_id. fold domestic. fold coupon.
  assert ((if Py.truthy_str (Store.coupon form)
           then match coupon with
                | Some (_, c) =>
                    if Coupon.is_valid (Store.utcnow env) c (Cart.total cart) None
                    then (Coupon.discount_amount c (Cart.total cart), [])
                    else (0%Q, [("คูปองไม่ถูกต้องหรือหมดอายุ", "warning")])
                | None => (0%Q, [("คูปองไม่ถูกต้องหรือหมดอายุ", "warning")])
                end
           else (0%Q, []))
          = (discount,
             if Py.truthy_str (Store.coupon form) && negb valid
             then [("คูปองไม่ถูกต้องหรือหมดอายุ", "warning")] else [])) as ->.
  { subst discount valid coupon.
    destruct (Py.truthy_str (Store.coupon form)); simpl; [|done].
    destruct (Store.coupon form ≫= _) as [[code c]|]; simpl; [|done].
    by destruct (Coupon.is_valid _ _ _ _). }
  cbn beta iota zeta. rewrite Hfresh. fold order_no. fold order0.
  rewrite Hadd. cbn beta iota zeta.
  change (Py.str_eq "stripe" "stripe") with true. cbn beta iota.
  unfold Stripe.create_stripe_payment_intent.
  assert (Htruthy : Py.truthy_str (Some (Store.STRIPE_SECRET_KEY env)) = true)
    by (by destruct (Store.STRIPE_SECRET_KEY env)).
  rewrite Htruthy, Hprovider. cbn [negb].
  clearbody coupon.
  destruct coupon as [[code c]|];
    cbn [Txn.working Txn.write Txn.begin Txn.committed Txn.commit Txn.finish
         Store.world Store.outcome Store.remote_calls response flashes];
    simpl; rewrite lookup_alter_eq, Ho1; simpl;
    rewrite (alter_alter_lookup _ _ _ _ _ Ho1), alter_insert_eq; simpl;
    destruct (Stripe.amount intent); reflexivity.
Qed.

(** X29: a checkout paid by card under a number no order has, when the
    provider hands back an intent, places the order as any other checkout does (one new order
    with a line for each line of the cart, the stock taken, the cart
    emptied, the cookie cleared), asks the provider once, and writes on
    the one payment what the intent says: its id as reference, its status
    (or [init] when it has none), and its amount in hundredths (or the
    grand total when it has none). The order stays [pending] whatever
    the status of the intent. *)
Theorem checkout_by_card (env : Store.Env) (form : Store.Form) (w : Store.World)
    (cid : Z) (cart : Cart.t) (intent : Stripe.Intent) :
  Store.cart_id (Store.session w) = Some cid -> cid <> 0 ->
  carts (Store.db w) !! cid = Some cart ->
  Cart.items cart <> [] ->
  (forall line, line ∈ Cart.items cart ->
     exists v p, variants (Store.db w) !! CartItem.variant_id line = Some v
                 /\ products (Store.db w) !! Variant.product_id v = Some p) ->
  Store.payment_method form = Some "stripe" ->
  Store.STRIPE_SECRET_KEY env <> "" ->
  (forall amount currency order_no,
      Store.PaymentIntent_create env amount currency order_no = Py.Return intent) ->
  (forall j o, orders (Store.db w) !! j = Some o ->
     Order.order_no o
     <> "BT" +:+ Store.utcnow_stamp env +:+ Py.format_0d 3 (Store.randbelow_999 env)) ->
  let result := Store.checkout env Store.POST form w in
  let order_id := next_id (orders (Store.db w)) in
  Store.remote_calls result = [Py.Return intent]
  /\ orders (Store.db w) !! order_id = None
  /\ (forall j, j <> order_id ->
        orders (Store.db (Store.world result)) !! j = orders (Store.db w) !! j)
  /\ (exists order,
        orders (Store.db (Store.world result)) !! order_id = Some order
        /\ Order.status order = "pending"
        /\ Forall2 Reference.records (Cart.items cart) (Order.items order)
        /\ Order.subtotal order = Cart.total cart
        /\ (Order.grand_total order
            == Order.subtotal order + Order.shipping_fee order - Order.discount order)%Q
        /\ Order.payments order
           = [ {| Payment.method := "stripe";
                  Payment.ref := Some (Stripe.id intent);
                  Payment.amount :=
                    match Stripe.amount intent with
                    | Some amount_value => Py.round2 (inject_Z amount_value / 100)
                    | None => Order.grand_total order
                    end;
                  Payment.status :=
                    if Py.str_eq (Stripe.status intent) "" then "init"
                    else Stripe.status intent;
                  Payment.paid_at := None;
                  Payment.slip_url := None |} ]
        /\ response (Store.outcome result)
           = Redirect "store.order_status" (Some (Order.order_no order)))
  /\ (forall i,
        variants (Store.db (Store.world result)) !! i
        = (fun v => Variant.with_stock_qty
                      (Variant.stock_qty v - Reference.in_cart i (Cart.items cart)) v)
            <$> variants (Store.db w) !! i)
  /\ carts (Store.db (Store.world result)) !! cid = Some (Cart.with_items [] cart)
  /\ Store.cart_id (Store.session (Store.world result)) = None.
Proof.
  intros cookie cookie_nonzero cart_found cart_has_lines lines_exist by_card key provider
    number_is_new result order_id.
  destruct (checkout_card_run env form w cid cart intent cookie cookie_nonzero cart_found
              cart_has_lines lines_exist by_card key provider number_is_new)
    as (db1 & order1 & Hadd & Ho1 & Hrun).
  subst result. rewrite Hrun. clear Hrun. fold order_id in Hadd, Ho1.
  destruct (add_order_items_return _ _ _ _ Hadd)
    as (Hvar & _ & Hcarts & _ & items & Hitems & Horders).
  simpl in Hvar, Hcarts, Horders.
  rewrite Horders, lookup_alter_eq, lookup_insert_eq in Ho1. injection Ho1 as <-.
  split; [reflexivity|]. split; [apply next_id_fresh|]. simpl.
  split; [|split; [|split; [|split]]].
  - intros j Hj. rewrite lookup_insert_ne by done.
    rewrite Horders, lookup_alter_ne, lookup_insert_ne by done. reflexivity.
  - eexists. rewrite lookup_insert_eq. split; [reflexivity|]. simpl.
    split; [reflexivity|]. split; [exact Hitems|].
    split; [by rewrite (records_total_price _ _ Hitems)|].
    split; [by rewrite !or_Q_zero|]. split; [|reflexivity].
    do 2 f_equal. by destruct (Stripe.status intent).
  - intros i. by rewrite Hvar.
  - by rewrite lookup_alter_eq, Hcarts, cart_found.
  - reflexivity.
Qed.

Lemma checkout_by_card_witness :
  (fun order => (Order.status order, Payment.ref <$> Order.payments order)) <$>
    orders (Store.db (Store.world
                        (Store.checkout Samples.env_provider_up Store.POST
                           Samples.form_stripe Samples.world_with_cart))) !! 1
  = Some ("pending", [Some "pi_3OxT"]).
Proof.
  assert (Hlines :
            forall line,
              line ∈ [ {| CartItem.variant_id := 7; CartItem.qty := 1;
                          CartItem.price_at := 900 |} ] ->
              exists v p,
                variants (Store.db Samples.world_with_cart) !! CartItem.variant_id line
                = Some v
                /\ products (Store.db Samples.world_with_cart) !! Variant.product_id v
                   = Some p).
  { intros line ->%list_elem_of_singleton. by eexists _, _. }
  assert (Hnew :
            forall j o,
              orders (Store.db Samples.world_with_cart) !! j = Some o ->
              Order.order_no o
              <> "BT" +:+ Store.utcnow_stamp Samples.env_provider_up
                 +:+ Py.format_0d 3 (Store.randbelow_999 Samples.env_provider_up)).
  { intros j o Hrow.
    change (orders (Store.db Samples.world_with_cart)) with (∅ : gmap Z Order.t) in Hrow.
    by rewrite lookup_empty in Hrow. }
  destruct (checkout_by_card Samples.env_provider_up Samples.form_stripe
              Samples.world_with_cart 3
              {| Cart.session_id := Some "5f2c";
                 Cart.items := [ {| CartItem.variant_id := 7; CartItem.qty := 1;
                                    CartItem.price_at := 900 |} ] |}
              Samples.intent_created
              eq_refl ltac:(discriminate) eq_refl ltac:(discriminate) Hlines
              eq_refl ltac:(discriminate) ltac:(reflexivity) Hnew)
    as (_ & _ & _ & (order & Hrow & Hstatus & _ & _ & _ & Hpayments & _) & _).
  change (next_id (orders (Store.db Samples.world_with_cart))) with 1 in Hrow.
  rewrite Hrow. simpl. rewrite Hstatus, Hpayments. reflexivity.
Defined.
